(** * Community Insights bot: analysis pipeline and session navigation

    A shallow embedding of [src/index.ts] (both revisions kept in the
    repository) and the properties of its ingestion endpoint, analysis
    handler and Teams message handler.

    Conventions of the embedding.
    - A JavaScript string is a Rocq [string] read as a sequence of code
      units below 256 (code unit = character for ASCII text).
    - A JavaScript value that comes out of [JSON.parse] is a [JSON] tree;
      numbers keep their literal, since the program only copies them and
      tests them against zero.
    - A [TypeError] raised by the runtime is the [Throw] result of [Res].
    - The language model, [JSON.parse] and the URL test of the schema
      library are the fields of the class [Runtime]. *)

From Stdlib Require Import String Ascii List ZArith Bool Lia.
From stdpp Require Import base option list gmap strings pretty.

Set Warnings "-register-all".

Local Open Scope string_scope.
Local Open Scope list_scope.
Local Open Scope Z_scope.

(** ** String primitives of the runtime *)

Module JsString.

Fixpoint drop (n : nat) (s : string) : string :=
  match n, s with
  | O, _ => s
  | S _, EmptyString => EmptyString
  | S n', String _ r => drop n' r
  end.

Fixpoint take (n : nat) (s : string) : string :=
  match n, s with
  | O, _ => EmptyString
  | S _, EmptyString => EmptyString
  | S n', String c r => String c (take n' r)
  end.

(** [s.startsWith(p)] *)
Definition startsWith (s p : string) : bool := String.prefix p s.

(** [s.endsWith(p)] *)
Definition endsWith (s p : string) : bool :=
  (String.length p <=? String.length s)%nat
  && String.eqb (drop (String.length s - String.length p) s) p.

(** [s.substring(a)] and [s.slice(a)] for a non-negative [a]. *)
Definition substring_from (s : string) (a : nat) : string := drop a s.

(** [s.substring(a, b)]: both ends are clamped to the length and swapped
    when out of order. *)
Definition substring (s : string) (a b : nat) : string :=
  let a' := Nat.min a (String.length s) in
  let b' := Nat.min b (String.length s) in
  take (Nat.max a' b' - Nat.min a' b') (drop (Nat.min a' b') s).

(** White space and line terminators below code unit 256. *)
Definition is_space (c : ascii) : bool :=
  let n := nat_of_ascii c in
  ((9 <=? n) && (n <=? 13) || (n =? 32) || (n =? 160))%nat.

Fixpoint trimStart (s : string) : string :=
  match s with
  | EmptyString => EmptyString
  | String c r => if is_space c then trimStart r else s
  end.

Fixpoint trimEnd (s : string) : string :=
  match s with
  | EmptyString => EmptyString
  | String c r =>
      match trimEnd r with
      | EmptyString => if is_space c then EmptyString else String c EmptyString
      | r' => String c r'
      end
  end.

(** [s.trim()] *)
Definition trim (s : string) : string := trimEnd (trimStart s).

Definition lower (c : ascii) : ascii :=
  let n := nat_of_ascii c in
  if ((65 <=? n) && (n <=? 90)
      || (192 <=? n) && (n <=? 222) && negb (n =? 215))%nat
  then ascii_of_nat (n + 32) else c.

(** [s.toLowerCase()] *)
Fixpoint toLowerCase (s : string) : string :=
  match s with
  | EmptyString => EmptyString
  | String c r => String (lower c) (toLowerCase r)
  end.

(** [s.includes(k)] *)
Fixpoint includes (s k : string) : bool :=
  String.prefix k s
  || match s with
     | EmptyString => false
     | String _ r => includes r k
     end.

End JsString.

(** ** Values produced by [JSON.parse] *)

Inductive JSON : Type :=
| JNull
| JBool (b : bool)
| JNumber (literal : string)
| JString (s : string)
| JArray (elements : list JSON)
| JObject (members : list (string * JSON)).

(** Outcome of an expression that may raise a [TypeError]. *)
Inductive Res (A : Type) : Type :=
| Ok (a : A)
| Throw.
Arguments Ok {A} a.
Arguments Throw {A}.

Definition res_bind {A B : Type} (m : Res A) (k : A -> Res B) : Res B :=
  match m with
  | Ok a => k a
  | Throw => Throw
  end.

Module JsValue.

(** Own property [k] of an object literal; the first binding is the
    property (the parser keeps one binding per key). *)
Fixpoint own (k : string) (members : list (string * JSON)) : option JSON :=
  match members with
  | [] => None
  | (k', v) :: rest => if String.eqb k k' then Some v else own k rest
  end.

(** [v.k] for one of the property names the program reads ([summary],
    [painPoints], [priority], [error], [rawOutput]): none of them is
    inherited from a prototype, so only objects have one; [null.k]
    raises. *)
Definition get (v : JSON) (k : string) : Res (option JSON) :=
  match v with
  | JNull => Throw
  | JObject ms => Ok (own k ms)
  | _ => Ok None
  end.

(** ['k' in v]: raises unless [v] is an object or an array. *)
Definition has (k : string) (v : JSON) : Res bool :=
  match v with
  | JObject ms => Ok (bool_decide (is_Some (own k ms)))
  | JArray _ => Ok false
  | _ => Throw
  end.

(** A number literal denotes zero when its significand has no digit
    other than 0. *)
Fixpoint zero_significand (s : string) : bool :=
  match s with
  | EmptyString => true
  | String c r =>
      if (Ascii.eqb c "e" || Ascii.eqb c "E")%bool then true
      else if (Ascii.eqb c "-" || Ascii.eqb c "." || Ascii.eqb c "0")%bool
           then zero_significand r
           else false
  end.

(** Truthiness ([ToBoolean]). *)
Definition truthy (v : JSON) : bool :=
  match v with
  | JNull => false
  | JBool b => b
  | JNumber n => negb (zero_significand n)
  | JString s => negb (String.eqb s EmptyString)
  | JArray _ | JObject _ => true
  end.

Definition truthy_opt (v : option JSON) : bool :=
  match v with
  | None => false
  | Some v => truthy v
  end.

(** Does [`${v}`] raise?  An object with an own [toString] member (never
    callable in parsed JSON) has no primitive value; an array joins the
    string forms of its elements, [null] giving the empty string. *)
Fixpoint toString_throws (v : JSON) : bool :=
  match v with
  | JObject ms => bool_decide (is_Some (own "toString" ms))
  | JArray xs => existsb toString_throws xs
  | _ => false
  end.

Definition toString_throws_opt (v : option JSON) : bool :=
  match v with
  | None => false
  | Some v => toString_throws v
  end.

(** *** [v > 0]

    The comparison converts [v] to a number.  Rounding to a double is
    not modelled: a literal is positive when it has no minus sign and a
    digit other than 0. *)

Definition is_digit (c : ascii) : bool :=
  let n := nat_of_ascii c in ((48 <=? n) && (n <=? 57))%nat.

Fixpoint skip_digits (s : string) : string :=
  match s with
  | EmptyString => EmptyString
  | String c r => if is_digit c then skip_digits r else s
  end.

Definition positive_literal (n : string) : bool :=
  match n with
  | String "-" _ => false
  | _ => negb (zero_significand n)
  end.

(** [ExponentPart] of a numeric string, up to its end. *)
Definition exponent_ok (s : string) : bool :=
  match s with
  | EmptyString => true
  | String c r =>
      if (Ascii.eqb c "e" || Ascii.eqb c "E")%bool then
        let d :=
          match r with
          | String sg r' =>
              if (Ascii.eqb sg "+" || Ascii.eqb sg "-")%bool then r' else r
          | EmptyString => r
          end in
        match d with
        | String c' _ =>
            is_digit c' && String.eqb (skip_digits d) EmptyString
        | EmptyString => false
        end
      else false
  end.

(** An unsigned [StrDecimalLiteral] greater than zero. *)
Definition decimal_positive (s : string) : bool :=
  if String.eqb s "Infinity" then true
  else
    let r := skip_digits s in
    let int_digits := negb (String.eqb r s) in
    match r with
    | String "." f =>
        let r' := skip_digits f in
        (int_digits || negb (String.eqb r' f))
        && exponent_ok r' && negb (zero_significand s)
    | _ => int_digits && exponent_ok r && negb (zero_significand s)
    end.

Fixpoint digits_below (base : nat) (s : string) : bool :=
  match s with
  | EmptyString => true
  | String c r =>
      let n := nat_of_ascii c in
      let d :=
        if ((48 <=? n) && (n <=? 57))%nat then (n - 48)%nat
        else if ((97 <=? n) && (n <=? 102))%nat then (n - 87)%nat
        else if ((65 <=? n) && (n <=? 70))%nat then (n - 55)%nat
        else 16%nat in
      (d <? base)%nat && digits_below base r
  end.

Fixpoint all_zero (s : string) : bool :=
  match s with
  | EmptyString => true
  | String c r => Ascii.eqb c "0" && all_zero r
  end.

(** A [NonDecimalIntegerLiteral] ([0x], [0o], [0b]) greater than zero. *)
Definition nondecimal_positive (s : string) : bool :=
  match s with
  | String "0" (String p d) =>
      let base :=
        if (Ascii.eqb p "x" || Ascii.eqb p "X")%bool then 16%nat
        else if (Ascii.eqb p "o" || Ascii.eqb p "O")%bool then 8%nat
        else if (Ascii.eqb p "b" || Ascii.eqb p "B")%bool then 2%nat
        else 0%nat in
      negb (String.eqb d EmptyString) && digits_below base d && negb (all_zero d)
  | _ => false
  end.

(** [Number(s) > 0] for a string [s]. *)
Definition string_positive (s : string) : bool :=
  match JsString.trim s with
  | String "-" _ => false
  | String "+" r => decimal_positive r
  | t => decimal_positive t || nondecimal_positive t
  end.

Fixpoint gt_zero (v : JSON) : Res bool :=
  match v with
  | JNull => Ok false
  | JBool b => Ok b
  | JNumber n => Ok (positive_literal n)
  | JString s => Ok (string_positive s)
  | JObject ms =>
      if bool_decide (is_Some (own "toString" ms)) then Throw else Ok false
  | JArray [] => Ok false
  | JArray [x] =>
      match x with
      | JNull | JBool _ => Ok false
      | JNumber n => Ok (positive_literal n)
      | JString s => Ok (string_positive s)
      | JObject _ => if toString_throws x then Throw else Ok false
      | JArray _ => gt_zero x
      end
  | JArray (_ :: _ :: _) => if toString_throws v then Throw else Ok false
  end.

End JsValue.

(** ** A reader for JSON text

    [json_parse] follows the JSON grammar that [JSON.parse] accepts: white
    space is space, tab, line feed and carriage return; a repeated key
    keeps its first position and its last value.  It is the instance of
    [JSON.parse] on which the examples run; an escape [\uXXXX] above code
    unit 255 is outside the strings of this embedding and is refused. *)

Module JsonParser.

Definition dquote : ascii := "034"%char.
Definition backslash : ascii := "092"%char.

Definition is_ws (c : ascii) : bool :=
  let n := nat_of_ascii c in
  ((n =? 32) || (n =? 9) || (n =? 10) || (n =? 13))%nat.

Fixpoint skip_ws (s : string) : string :=
  match s with
  | EmptyString => EmptyString
  | String c r => if is_ws c then skip_ws r else s
  end.

Definition is_digit (c : ascii) : bool :=
  let n := nat_of_ascii c in ((48 <=? n) && (n <=? 57))%nat.

Fixpoint skip_digits (s : string) : string :=
  match s with
  | EmptyString => EmptyString
  | String c r => if is_digit c then skip_digits r else s
  end.

(** At least one digit, then as many as follow. *)
Definition digits1 (s : string) : option string :=
  match s with
  | String c r => if is_digit c then Some (skip_digits r) else None
  | EmptyString => None
  end.

Definition skip_char (c : ascii) (s : string) : string :=
  match s with
  | String c' r => if Ascii.eqb c c' then r else s
  | EmptyString => s
  end.

Definition number_rest (s : string) : option string :=
  let s1 := skip_char "-" s in
  match
    match s1 with
    | String c r =>
        if Ascii.eqb c "0" then Some r
        else if is_digit c then Some (skip_digits r) else None
    | EmptyString => None
    end
  with
  | None => None
  | Some s2 =>
      match
        match s2 with
        | String "." r => digits1 r
        | _ => Some s2
        end
      with
      | None => None
      | Some s3 =>
          match s3 with
          | String c r =>
              if (Ascii.eqb c "e" || Ascii.eqb c "E")%bool
              then
                match r with
                | String sg r' =>
                    if (Ascii.eqb sg "+" || Ascii.eqb sg "-")%bool
                    then digits1 r' else digits1 r
                | EmptyString => None
                end
              else Some s3
          | EmptyString => Some s3
          end
      end
  end.

Definition parse_number (s : string) : option (JSON * string) :=
  match number_rest s with
  | Some r =>
      Some (JNumber (JsString.take (String.length s - String.length r) s), r)
  | None => None
  end.

Definition hex_value (c : ascii) : option nat :=
  let n := nat_of_ascii c in
  if ((48 <=? n) && (n <=? 57))%nat then Some (n - 48)%nat
  else if ((97 <=? n) && (n <=? 102))%nat then Some (n - 87)%nat
  else if ((65 <=? n) && (n <=? 70))%nat then Some (n - 55)%nat
  else None.

Definition escape (c : ascii) : option ascii :=
  if Ascii.eqb c dquote then Some dquote
  else if Ascii.eqb c backslash then Some backslash
  else if Ascii.eqb c "/" then Some "/"%char
  else if Ascii.eqb c "b" then Some "008"%char
  else if Ascii.eqb c "f" then Some "012"%char
  else if Ascii.eqb c "n" then Some "010"%char
  else if Ascii.eqb c "r" then Some "013"%char
  else if Ascii.eqb c "t" then Some "009"%char
  else None.

(** The characters of a string literal after its opening quote, and the
    text after its closing quote. *)
Fixpoint parse_chars (s : string) : option (string * string) :=
  match s with
  | EmptyString => None
  | String c r =>
      if Ascii.eqb c dquote then Some (EmptyString, r)
      else if Ascii.eqb c backslash then
        match r with
        | String "u" (String a (String b (String c1 (String d r')))) =>
            match hex_value a, hex_value b, hex_value c1, hex_value d with
            | Some 0%nat, Some 0%nat, Some h, Some l =>
                match parse_chars r' with
                | Some (str, rest) =>
                    Some (String (ascii_of_nat (16 * h + l)) str, rest)
                | None => None
                end
            | _, _, _, _ => None
            end
        | String e r' =>
            match escape e, parse_chars r' with
            | Some c', Some (str, rest) => Some (String c' str, rest)
            | _, _ => None
            end
        | EmptyString => None
        end
      else if (nat_of_ascii c <? 32)%nat then None
      else
        match parse_chars r with
        | Some (str, rest) => Some (String c str, rest)
        | None => None
        end
  end.

(** [o[k] = v] on the members read so far. *)
Fixpoint set_member (k : string) (v : JSON) (ms : list (string * JSON))
  : list (string * JSON) :=
  match ms with
  | [] => [(k, v)]
  | (k', v') :: rest =>
      if String.eqb k k' then (k, v) :: rest
      else (k', v') :: set_member k v rest
  end.

Section Composite.
Variable value : string -> option (JSON * string).

(** Elements of an array, from the first element on. *)
Fixpoint parse_elements (fuel : nat) (s : string) (acc : list JSON)
  : option (JSON * string) :=
  match fuel with
  | O => None
  | S f =>
      match value s with
      | None => None
      | Some (v, r) =>
          match skip_ws r with
          | String "," r' => parse_elements f (skip_ws r') (acc ++ [v])
          | String "]" r' => Some (JArray (acc ++ [v]), r')
          | _ => None
          end
      end
  end.

(** Members of an object, from the first key on. *)
Fixpoint parse_members (fuel : nat) (s : string)
  (acc : list (string * JSON)) : option (JSON * string) :=
  match fuel with
  | O => None
  | S f =>
      match s with
      | String c r =>
          if Ascii.eqb c dquote then
            match parse_chars r with
            | None => None
            | Some (k, r1) =>
                match skip_ws r1 with
                | String ":" r2 =>
                    match value (skip_ws r2) with
                    | None => None
                    | Some (v, r3) =>
                        match skip_ws r3 with
                        | String "," r4 =>
                            parse_members f (skip_ws r4) (set_member k v acc)
                        | String "}" r4 =>
                            Some (JObject (set_member k v acc), r4)
                        | _ => None
                        end
                    end
                | _ => None
                end
            end
          else None
      | EmptyString => None
      end
  end.
End Composite.

Fixpoint parse_value (fuel : nat) (s : string) : option (JSON * string) :=
  match fuel with
  | O => None
  | S f =>
      match s with
      | String "{" r =>
          match skip_ws r with
          | String "}" r' => Some (JObject [], r')
          | r1 => parse_members (parse_value f) f r1 []
          end
      | String "[" r =>
          match skip_ws r with
          | String "]" r' => Some (JArray [], r')
          | r1 => parse_elements (parse_value f) f r1 []
          end
      | String c r =>
          if Ascii.eqb c dquote then
            match parse_chars r with
            | Some (str, rest) => Some (JString str, rest)
            | None => None
            end
          else if String.prefix "true" s then Some (JBool true, JsString.drop 4 s)
          else if String.prefix "false" s then Some (JBool false, JsString.drop 5 s)
          else if String.prefix "null" s then Some (JNull, JsString.drop 4 s)
          else parse_number s
      | EmptyString => None
      end
  end.

Definition json_parse (s : string) : option JSON :=
  match parse_value (S (String.length s)) (skip_ws s) with
  | Some (v, r) =>
      match skip_ws r with
      | EmptyString => Some v
      | _ => None
      end
  | None => None
  end.

(** Writes a JSON text with apostrophes where the text has quotation
    marks. *)
Fixpoint quoted (s : string) : string :=
  match s with
  | EmptyString => EmptyString
  | String c r => String (if Ascii.eqb c "'" then dquote else c) (quoted r)
  end.

End JsonParser.

(** ** Data of the pipeline *)

(** A validated feedback item; [item_id] is the literal of the number. *)
Record FeedbackItem : Type := {
  item_id : string;
  item_text : string;
  item_source : string;
  item_url : option string
}.

(** An element of [analyzedResults].  [ref] is the identity of the object:
    [Array.prototype.indexOf] compares references, and two results with
    the same fields are still two objects. *)
Record AnalysisResult : Type := {
  ref : nat;
  originalId : string;
  originalSource : string;
  originalUrl : option string;
  analysis : JSON
}.

(** What the two schemas of [analysis] describe. *)
Inductive Priority : Type := low | medium | high.

Inductive AnalysisOutcome : Type :=
| Success (painPoints : list string) (summary : string) (priority : Priority)
| Failure (error : string) (rawOutput : option JSON).

(** An element of the validated output, unknown keys stripped. *)
Record ValidatedResult : Type := {
  out_originalId : string;
  out_originalSource : string;
  out_originalUrl : option string;
  out_analysis : AnalysisOutcome
}.

(** ** The language model and the rest of the runtime *)

Inductive Instructions : Type :=
| AnalyzeInstructions            (* "Analyze the following developer feedback ..." *)
| ConverseInstructions           (* "You are a helpful, friendly assistant ..." *)
| AnswerInstructions (about : JSON). (* "... Feedback Analysis:" and the analysis *)

Record PromptCall : Type := {
  instructions : Instructions;
  message : string
}.

(** [prompt.send] either resolves with an optional content or rejects with
    an error, whose message is empty when it has none. *)
Inductive SendResult : Type :=
| Replied (content : option string)
| Rejected (reason : string).

Class Runtime : Type := {
  JSON_parse : string -> option JSON;
  is_url : string -> bool;
  (** the answer of the model to a call, given the calls made before *)
  model_reply : list PromptCall -> PromptCall -> SendResult
}.

(** The part of the process state that is not a program variable: the
    calls made to the model so far and the next fresh object identity. *)
Record World : Type := {
  calls : list PromptCall;
  next_ref : nat
}.

(** ** The schemas *)

Module Zod.

Inductive PathSeg : Type := Key (k : string) | Index (i : nat).

Inductive IssueCode : Type :=
| invalid_type (expected received : string)
| invalid_string_url
| invalid_union.

Record Issue : Type := { code : IssueCode; path : list PathSeg }.

(** [safeParse]: the issues, or the data. *)
Definition Parsed (A : Type) : Type := (list Issue + A)%type.

Definition typeName (v : option JSON) : string :=
  match v with
  | None => "undefined"
  | Some JNull => "null"
  | Some (JBool _) => "boolean"
  | Some (JNumber _) => "number"
  | Some (JString _) => "string"
  | Some (JArray _) => "array"
  | Some (JObject _) => "object"
  end.

Definition wrong (expected : string) (p : list PathSeg) (v : option JSON)
  : list Issue :=
  [ {| code := invalid_type expected (typeName v); path := p |} ].

(** Both fields are checked; the issues of both are reported. *)
Definition both {A B : Type} (x : Parsed A) (y : Parsed B) : Parsed (A * B) :=
  match x, y with
  | inr a, inr b => inr (a, b)
  | inl e, inr _ => inl e
  | inr _, inl e => inl e
  | inl e1, inl e2 => inl (e1 ++ e2)
  end.

Definition number (p : list PathSeg) (v : option JSON) : Parsed string :=
  match v with
  | Some (JNumber n) => inr n
  | _ => inl (wrong "number" p v)
  end.

Definition string_ (p : list PathSeg) (v : option JSON) : Parsed string :=
  match v with
  | Some (JString s) => inr s
  | _ => inl (wrong "string" p v)
  end.

(** [z.array(element)] *)
Fixpoint elements {A : Type} (element : list PathSeg -> option JSON -> Parsed A)
  (p : list PathSeg) (i : nat) (xs : list JSON) : Parsed (list A) :=
  match xs with
  | [] => inr []
  | x :: rest =>
      match both (element (p ++ [Index i]) (Some x))
                 (elements element p (S i) rest) with
      | inr (a, l) => inr (a :: l)
      | inl e => inl e
      end
  end.

Definition array {A : Type} (element : list PathSeg -> option JSON -> Parsed A)
  (p : list PathSeg) (v : option JSON) : Parsed (list A) :=
  match v with
  | Some (JArray xs) => elements element p 0 xs
  | _ => inl (wrong "array" p v)
  end.

Section Schemas.
Context {rt : Runtime}.

(** [z.string().url().optional()] *)
Definition optional_url (p : list PathSeg) (v : option JSON)
  : Parsed (option string) :=
  match v with
  | None => inr None
  | Some (JString s) =>
      if is_url s then inr (Some s)
      else inl [ {| code := invalid_string_url; path := p |} ]
  | _ => inl (wrong "string" p v)
  end.

Definition FeedbackItemSchema (p : list PathSeg) (v : option JSON)
  : Parsed FeedbackItem :=
  match v with
  | Some (JObject ms) =>
      match both (number (p ++ [Key "id"]) (JsValue.own "id" ms))
             (both (string_ (p ++ [Key "text"]) (JsValue.own "text" ms))
             (both (string_ (p ++ [Key "source"]) (JsValue.own "source" ms))
                   (optional_url (p ++ [Key "url"]) (JsValue.own "url" ms))))
      with
      | inr (i, (t, (s, u))) =>
          inr {| item_id := i; item_text := t; item_source := s; item_url := u |}
      | inl e => inl e
      end
  | _ => inl (wrong "object" p v)
  end.

(** [AnalyzeFeedbackInputSchema.safeParse(body)]; the data is the
    [feedback] array. *)
Definition AnalyzeFeedbackInputSchema (body : JSON) : Parsed (list FeedbackItem) :=
  match body with
  | JObject ms =>
      array FeedbackItemSchema [Key "feedback"] (JsValue.own "feedback" ms)
  | _ => inl (wrong "object" [] (Some body))
  end.

Definition priority_of (v : option JSON) : option Priority :=
  match v with
  | Some (JString s) =>
      if String.eqb s "low" then Some low
      else if String.eqb s "medium" then Some medium
      else if String.eqb s "high" then Some high
      else None
  | _ => None
  end.

Fixpoint strings_of (xs : list JSON) : option (list string) :=
  match xs with
  | [] => Some []
  | JString s :: rest =>
      match strings_of rest with
      | Some l => Some (s :: l)
      | None => None
      end
  | _ :: _ => None
  end.

Definition AnalysisObjectSchema (v : JSON) : option AnalysisOutcome :=
  match v with
  | JObject ms =>
      match JsValue.own "painPoints" ms, JsValue.own "summary" ms,
            priority_of (JsValue.own "priority" ms) with
      | Some (JArray xs), Some (JString s), Some pr =>
          match strings_of xs with
          | Some pts => Some (Success pts s pr)
          | None => None
          end
      | _, _, _ => None
      end
  | _ => None
  end.

Definition AnalysisErrorSchema (v : JSON) : option AnalysisOutcome :=
  match v with
  | JObject ms =>
      match JsValue.own "error" ms with
      | Some (JString e) => Some (Failure e (JsValue.own "rawOutput" ms))
      | _ => None
      end
  | _ => None
  end.

(** [z.union([AnalysisObjectSchema, AnalysisErrorSchema])]: the first
    schema that accepts the value gives the data. *)
Definition analysis_union (p : list PathSeg) (v : JSON) : Parsed AnalysisOutcome :=
  match AnalysisObjectSchema v with
  | Some o => inr o
  | None =>
      match AnalysisErrorSchema v with
      | Some o => inr o
      | None => inl [ {| code := invalid_union; path := p |} ]
      end
  end.

Definition optional_url_field (p : list PathSeg) (u : option string)
  : Parsed (option string) :=
  optional_url p (option_map JString u).

Definition AnalysisResultSchema (p : list PathSeg) (r : AnalysisResult)
  : Parsed ValidatedResult :=
  match both (optional_url_field (p ++ [Key "originalUrl"]) (originalUrl r))
             (analysis_union (p ++ [Key "analysis"]) (analysis r)) with
  | inr (u, a) =>
      inr {| out_originalId := originalId r;
             out_originalSource := originalSource r;
             out_originalUrl := u;
             out_analysis := a |}
  | inl e => inl e
  end.

Fixpoint results (p : list PathSeg) (i : nat) (rs : list AnalysisResult)
  : Parsed (list ValidatedResult) :=
  match rs with
  | [] => inr []
  | r :: rest =>
      match both (AnalysisResultSchema (p ++ [Index i]) r)
                 (results p (S i) rest) with
      | inr (a, l) => inr (a :: l)
      | inl e => inl e
      end
  end.

(** [AnalyzeFeedbackOutputSchema.safeParse({ analyzedResults })] *)
Definition AnalyzeFeedbackOutputSchema (analyzedResults : list AnalysisResult)
  : Parsed (list ValidatedResult) :=
  results [Key "analyzedResults"] 0 analyzedResults.

End Schemas.
End Zod.

(** ** The analysis handler (the same in both revisions) *)

Section Analysis.
Context {rt : Runtime}.

(** [await prompt.send(message)] *)
Definition send (p : PromptCall) (w : World) : SendResult * World :=
  (model_reply (calls w) p,
   {| calls := calls w ++ [p]; next_ref := next_ref w |}).

(** [analyzedResults.push({ originalId: item.id, originalSource:
    item.source, originalUrl: item.url, analysis })] *)
Definition new_result (w : World) (item : FeedbackItem) (a : JSON)
  : AnalysisResult :=
  {| ref := next_ref w;
     originalId := item_id item;
     originalSource := item_source item;
     originalUrl := item_url item;
     analysis := a |}.

Definition push (item : FeedbackItem) (a : JSON)
  (st : list AnalysisResult * World) : list AnalysisResult * World :=
  let '(acc, w) := st in
  (acc ++ [new_result w item a],
   {| calls := calls w; next_ref := S (next_ref w) |}).

(** The text handed to [JSON.parse]. *)
Definition jsonString (content : string) : string :=
  let s := content in
  let s := if JsString.startsWith s "```json"
           then JsString.substring_from s 7 else s in
  let s := if JsString.endsWith s "```"
           then JsString.substring s 0 (String.length s - 3) else s in
  JsString.trim s.

Definition error_object (e : string) : JSON := JObject [("error", JString e)].

Definition invalid_json (content : string) : JSON :=
  JObject [("error", JString "AI output not valid JSON");
           ("rawOutput", JString content)].

(** Does the log line [`... Priority: ${parsedAnalysis.priority}`]
    raise?  It does on [null] and on a priority with no string form. *)
Definition log_priority_throws (parsedAnalysis : JSON) : bool :=
  match JsValue.get parsedAnalysis "priority" with
  | Throw => true
  | Ok v => JsValue.toString_throws_opt v
  end.

(** [new ChatPrompt({ instructions, model }).send(item.text)] *)
Definition analysis_prompt (item : FeedbackItem) : PromptCall :=
  {| instructions := AnalyzeInstructions; message := item_text item |}.

(** One turn of the loop [for (const item of feedback)]. *)
Definition analyzeItem (st : list AnalysisResult * World) (item : FeedbackItem)
  : list AnalysisResult * World :=
  let '(acc, w) := st in
  let '(analysisResult, w) := send (analysis_prompt item) w in
  match analysisResult with
  | Replied (Some (String c r as content)) =>
      match JSON_parse (jsonString content) with
      | Some parsedAnalysis =>
          let st := push item parsedAnalysis (acc, w) in
          if log_priority_throws parsedAnalysis
          then (* the inner [catch (parseError)] runs after the push *)
            push item (invalid_json content) st
          else st
      | None => push item (invalid_json content) (acc, w)
      end
  | Replied _ => push item (error_object "No AI content") (acc, w)
  | Rejected reason =>
      push item
        (error_object
           (match reason with
            | EmptyString => "AI analysis failed"
            | _ => reason
            end))
        (acc, w)
  end.

Definition analyzeFeedbackToolHandler (feedback : list FeedbackItem) (w : World)
  : list AnalysisResult * World :=
  fold_left analyzeItem feedback ([], w).

(** The world after the call to the model for [item]. *)
Definition called (w : World) (item : FeedbackItem) : World :=
  {| calls := calls w ++ [analysis_prompt item]; next_ref := next_ref w |}.

(** The log line after a successful parse never raises. *)
Definition quiet_log : Prop :=
  forall before p content v,
    model_reply before p = Replied (Some content) ->
    JSON_parse (jsonString content) = Some v ->
    log_priority_throws v = false.

End Analysis.

(** ** Messages of the bot *)

Definition nl : string := String "010"%char EmptyString.
Definition quote (s : string) : string :=
  String "034"%char (s +:+ String "034"%char EmptyString).

(** The body of an adaptive card, by the values it shows: the priority
    (shown in upper case), the colour, [analysis.summary] and the pain
    points ([None] shows "No specific pain points identified."). *)
Inductive Card : Type :=
| AnalysisCard (priority color : string) (summary : option JSON)
    (points : option (list JSON))
| ErrorCard (error : option JSON) (rawOutput : option JSON).

Inductive Outgoing : Type :=
| Typing
| Text (s : string)
| Attachment (c : Card)
(** [**Summary:** ..., **Priority:** ..., **Pain Points:** ...] *)
| Digest (summary : option JSON) (priority : string) (points : option (list JSON)).

Record Activity : Type := {
  text : option string;
  conversation_id : string;
  from_aadObjectId : option string
}.

(** [a.painPoints && a.painPoints.length > 0], then [a.painPoints.map(p =>
    `- ${p}`)]: the points to list, [None] when the test is false. *)
Definition listed_points (painPoints : option JSON) : Res (option (list JSON)) :=
  match painPoints with
  | None => Ok None
  | Some v =>
      if negb (JsValue.truthy v) then Ok None
      else
        match v with
        | JArray [] => Ok None
        | JArray xs =>
            if existsb JsValue.toString_throws xs then Throw else Ok (Some xs)
        | JString _ => Throw (* a string has a length and no [map] *)
        | JObject ms =>
            match JsValue.own "length" ms with
            | None => Ok None
            | Some l =>
                match JsValue.gt_zero l with
                | Ok false => Ok None
                | _ => Throw (* an object has no callable [map] *)
                end
            end
        | _ => Ok None
        end
  end.

(** The card that [createFeedbackAnalysisCard] builds from the fields
    of an analysis: [analysis.priority.toUpperCase()] raises unless the
    priority is a string. *)
Definition analysis_card (analysis : JSON) : Res Card :=
  match analysis with
  | JObject ms =>
      match JsValue.own "priority" ms with
      | Some (JString p) =>
          res_bind (listed_points (JsValue.own "painPoints" ms)) (fun pts =>
          Ok (AnalysisCard p
                (if String.eqb p "high" then "Attention"
                 else if String.eqb p "medium" then "Warning" else "Good")
                (JsValue.own "summary" ms) pts))
      | _ => Throw
      end
  | _ => Throw
  end.

(** The message sent after a search card, when the analysis has no
    [error]. *)
Definition digest (a : JSON) : Res (option Outgoing) :=
  res_bind (JsValue.has "error" a) (fun e =>
  if e then Ok None
  else
    res_bind (JsValue.get a "summary") (fun summary =>
    if JsValue.toString_throws_opt summary then Throw
    else
      res_bind (JsValue.get a "priority") (fun pr =>
      match pr with
      | Some (JString p) =>
          res_bind (JsValue.get a "painPoints") (fun pp =>
          res_bind (listed_points pp) (fun pts =>
          Ok (Some (Digest summary p pts))))
      | _ => Throw
      end))).

(** ** The handler monad: program state, messages sent, exceptions

    A message handler runs on the variables of the program, sends messages
    with [context.send] and may be cut short by an exception, which keeps
    the assignments and the messages made before it. *)

Module Bot.
Section Monad.
Context {St : Type}.

Record Turn : Type := { state : St; sent : list Outgoing }.

Definition Handler (A : Type) : Type := Turn -> Res A * Turn.

Definition ret {A : Type} (a : A) : Handler A := fun t => (Ok a, t).

Definition bind {A B : Type} (m : Handler A) (k : A -> Handler B) : Handler B :=
  fun t =>
    match m t with
    | (Ok a, t') => k a t'
    | (Throw, t') => (Throw, t')
    end.

Definition lift {A : Type} (r : Res A) : Handler A := fun t => (r, t).

Definition get_state : Handler St := fun t => (Ok (state t), t).

Definition put_state (s : St) : Handler unit :=
  fun t => (Ok tt, {| state := s; sent := sent t |}).

(** [await context.send(m)] *)
Definition say (m : Outgoing) : Handler unit :=
  fun t => (Ok tt, {| state := state t; sent := sent t ++ [m] |}).

Definition when_ (b : bool) (m : Handler unit) : Handler unit :=
  if b then m else ret tt.

(** A handler started on a state, with nothing sent yet. *)
Definition run {A : Type} (m : Handler A) (s : St) : Res A * Turn :=
  m {| state := s; sent := [] |}.
End Monad.
Arguments Turn : clear implicits.
Arguments Handler : clear implicits.
End Bot.

Declare Scope handler_scope.
Delimit Scope handler_scope with handler.
Notation "x <- m ;; k" := (Bot.bind m (fun x => k))
  (at level 20, m at level 99, k at level 200, only parsing) : handler_scope.
Notation "m ;; k" := (Bot.bind m (fun _ => k))
  (at level 100, k at level 200, right associativity, only parsing) : handler_scope.

(** ** The ingestion endpoint's answers *)

(** What [res.status(...).json(...)] sends. *)
Inductive Response : Type :=
| InvalidInput (details : list Zod.Issue)
    (* 400, error: 'Invalid input schema' *)
| InvalidOutput (details : list Zod.Issue) (rawOutput : list AnalysisResult)
    (* 500, error: 'AI analysis returned invalid output' *)
| Analyzed (data : list ValidatedResult).
    (* 200 *)

Definition status (r : Response) : Z :=
  match r with
  | InvalidInput _ => 400
  | InvalidOutput _ _ => 500
  | Analyzed _ => 200
  end.

Definition non_empty (s : string) : bool :=
  match s with
  | EmptyString => false
  | String _ _ => true
  end.

(** ** The first revision: one shared list of results, no navigation *)

Module V1.

Record State : Type := {
  latestFeedback : list FeedbackItem;
  latestAnalysis : list AnalysisResult;
  userToConversationId : gmap string string;
  world : World
}.

Definition initial : State :=
  {| latestFeedback := []; latestAnalysis := []; userToConversationId := ∅;
     world := {| calls := []; next_ref := 0 |} |}.

Definition with_world (w : World) (s : State) : State :=
  {| latestFeedback := latestFeedback s;
     latestAnalysis := latestAnalysis s;
     userToConversationId := userToConversationId s;
     world := w |}.

Definition with_conversation (user conversation : string) (s : State) : State :=
  {| latestFeedback := latestFeedback s;
     latestAnalysis := latestAnalysis s;
     userToConversationId := <[user := conversation]> (userToConversationId s);
     world := world s |}.

(** [createFeedbackAnalysisCard]: this revision renders an analysis
    with an [error] as an error card. *)
Definition createFeedbackAnalysisCard (analysis : JSON) : Res Card :=
  res_bind (JsValue.has "error" analysis) (fun e =>
  if e then
    res_bind (JsValue.get analysis "error") (fun err =>
    if JsValue.toString_throws_opt err then Throw
    else
      res_bind (JsValue.get analysis "rawOutput") (fun raw =>
      Ok (ErrorCard err (if JsValue.truthy_opt raw then raw else None))))
  else analysis_card analysis).

Section Program.
Context {rt : Runtime}.
Import Bot.
Local Open Scope handler_scope.

Definition ingest (body : JSON) (s : State) : Response * State :=
  match Zod.AnalyzeFeedbackInputSchema body with
  | inl issues => (InvalidInput issues, s)
  | inr feedback =>
      let '(analyzedResults, w) :=
        analyzeFeedbackToolHandler feedback (world s) in
      let s' :=
        {| latestFeedback := feedback;
           latestAnalysis := analyzedResults;
           userToConversationId := userToConversationId s;
           world := w |} in
      match Zod.AnalyzeFeedbackOutputSchema analyzedResults with
      | inl issues => (InvalidOutput issues analyzedResults, s')
      | inr data => (Analyzed data, s')
      end
  end.

(** The loop [for (const result of latestAnalysis)]; the value is
    [sentAny]. *)
Fixpoint send_cards (rs : list AnalysisResult) (sentAny : bool)
  : Handler State bool :=
  match rs with
  | [] => ret sentAny
  | r :: rest =>
      c <- lift (createFeedbackAnalysisCard (analysis r)) ;;
      say (Attachment c) ;;
      send_cards rest true
  end.

(** The branch of [/show_insights]; [false] when it leaves the handler
    with [return]. *)
Definition show_insights : Handler State bool :=
  s <- get_state ;;
  match latestFeedback s, latestAnalysis s with
  | [], _ =>
      say (Text "No developer feedback has been ingested yet. Please submit feedback via the ingestion endpoint before requesting insights.") ;;
      ret false
  | _ :: _, [] =>
      say (Text "No analysis results are available yet. Please try again after feedback is processed.") ;;
      ret false
  | _ :: _, _ :: _ =>
      say (Text "Getting the latest feedback analysis for you...") ;;
      sentAny <- send_cards (latestAnalysis s) false ;;
      when_ (negb sentAny) (say (Text "No valid analysis results to display.")) ;;
      ret true
  end.

Definition ask (p : PromptCall) : Handler State SendResult :=
  s <- get_state ;;
  let '(r, w) := send p (world s) in
  put_state (with_world w s) ;;
  ret r.

Definition converse_prompt (act : Activity) : PromptCall :=
  {| instructions := ConverseInstructions;
     message := default EmptyString (text act) |}.

(** The [else] branch: general conversation with the model. *)
Definition converse (act : Activity) : Handler State unit :=
  r <- ask (converse_prompt act) ;;
  match r with
  | Replied (Some (String _ _ as content)) => say (Text (JsString.trim content))
  | Replied _ =>
      say (Text "I'm here to help! Please ask me anything about developer feedback or insights.")
  | Rejected _ => say (Text "Sorry, I couldn't process your message right now.")
  end.

Definition remember (act : Activity) : Handler State unit :=
  s <- get_state ;;
  match from_aadObjectId act with
  | Some (String _ _ as user) =>
      when_ (non_empty (conversation_id act)
             && negb (bool_decide (is_Some (userToConversationId s !! user))))
        (put_state (with_conversation user (conversation_id act) s))
  | _ => ret tt
  end.

(** [const text = context.activity.text?.trim().toLowerCase()] *)
Definition lowered (act : Activity) : option string :=
  option_map (fun t => JsString.toLowerCase (JsString.trim t)) (text act).

(** [teamsApp.on('message', ...)] *)
Definition onMessage (act : Activity) : Handler State unit :=
  say Typing ;;
  continue <-
    match lowered act with
    | Some t =>
        if String.eqb t "hello" then
          say (Text "Hello! I am your Community Insider Bot. Type `/show_insights` to see recent feedback analysis.") ;;
          ret true
        else if String.eqb t "/show_insights" then show_insights
        else converse act ;; ret true
    | None => converse act ;; ret true
    end ;;
  when_ continue (remember act).

End Program.
End V1.

(** ** The revision with per-conversation navigation *)

Module V2.

(** The value of [userToSearchResults]: [{ matches, idx }]. *)
Record Search : Type := { matches : list AnalysisResult; idx : nat }.

Record State : Type := {
  latestAnalysis : list AnalysisResult;
  userToInsightIndex : gmap string Z;
  userToSearchResults : gmap string Search;
  userToConversationId : gmap string string;
  world : World
}.

Definition initial : State :=
  {| latestAnalysis := []; userToInsightIndex := ∅; userToSearchResults := ∅;
     userToConversationId := ∅; world := {| calls := []; next_ref := 0 |} |}.

(** The state after an assignment to one of the program variables. *)
Definition with_cursor (userKey : string) (i : Z) (s : State) : State :=
  {| latestAnalysis := latestAnalysis s;
     userToInsightIndex := <[userKey := i]> (userToInsightIndex s);
     userToSearchResults := userToSearchResults s;
     userToConversationId := userToConversationId s;
     world := world s |}.

Definition with_search (f : gmap string Search -> gmap string Search) (s : State)
  : State :=
  {| latestAnalysis := latestAnalysis s;
     userToInsightIndex := userToInsightIndex s;
     userToSearchResults := f (userToSearchResults s);
     userToConversationId := userToConversationId s;
     world := world s |}.

Definition with_world (w : World) (s : State) : State :=
  {| latestAnalysis := latestAnalysis s;
     userToInsightIndex := userToInsightIndex s;
     userToSearchResults := userToSearchResults s;
     userToConversationId := userToConversationId s;
     world := w |}.

Definition with_conversation (user conversation : string) (s : State) : State :=
  {| latestAnalysis := latestAnalysis s;
     userToInsightIndex := userToInsightIndex s;
     userToSearchResults := userToSearchResults s;
     userToConversationId := <[user := conversation]> (userToConversationId s);
     world := world s |}.

(** [createFeedbackAnalysisCard]: this revision has no error card; the
    card of an analysis without a string priority cannot be drawn. *)
Definition createFeedbackAnalysisCard (analysis : JSON) : Res Card :=
  analysis_card analysis.

(** [latestAnalysis[i]] *)
Definition at_index (l : list AnalysisResult) (i : Z) : option AnalysisResult :=
  if i <? 0 then None else l !! Z.to_nat i.

(** [latestAnalysis.indexOf(r)]: the first position that holds the
    object [r], or -1. *)
Fixpoint indexOf_from (l : list AnalysisResult) (r : AnalysisResult) (i : Z) : Z :=
  match l with
  | [] => -1
  | x :: rest => if (ref x =? ref r)%nat then i else indexOf_from rest r (i + 1)
  end.

Definition indexOf (l : list AnalysisResult) (r : AnalysisResult) : Z :=
  indexOf_from l r 0.

(** The predicate of [latestAnalysis.filter] in [/search_insights]. *)
Definition summary_matches (summary : option JSON) (keyword : string) : Res bool :=
  match summary with
  | None => Ok false
  | Some v =>
      if negb (JsValue.truthy v) then Ok false
      else
        match v with
        | JString s => Ok (JsString.includes (JsString.toLowerCase s) keyword)
        | _ => Throw (* no [toLowerCase] *)
        end
  end.

(** [painPoints.some(p => p.toLowerCase().includes(keyword))] *)
Fixpoint some_point_matches (ps : list JSON) (keyword : string) : Res bool :=
  match ps with
  | [] => Ok false
  | JString s :: rest =>
      if JsString.includes (JsString.toLowerCase s) keyword then Ok true
      else some_point_matches rest keyword
  | _ :: _ => Throw
  end.

Definition points_match (painPoints : option JSON) (keyword : string) : Res bool :=
  match painPoints with
  | None => Ok false
  | Some v =>
      if negb (JsValue.truthy v) then Ok false
      else
        match v with
        | JArray ps => some_point_matches ps keyword
        | _ => Throw (* no [some] *)
        end
  end.

Definition or_empty (s : option string) : string :=
  match s with
  | Some (String c r as s) => s
  | _ => EmptyString
  end.

Definition feedbackText (r : AnalysisResult) : string :=
  originalSource r +:+ " " +:+ or_empty (originalUrl r).

Definition is_match (keyword : string) (r : AnalysisResult) : Res bool :=
  let a := analysis r in
  res_bind (JsValue.has "error" a) (fun e =>
  if e then Ok false
  else
    res_bind (JsValue.get a "summary") (fun summary =>
    res_bind (summary_matches summary keyword) (fun b1 =>
    if b1 then Ok true
    else
      res_bind (JsValue.get a "painPoints") (fun pp =>
      res_bind (points_match pp keyword) (fun b2 =>
      if b2 then Ok true
      else Ok (JsString.includes (JsString.toLowerCase (feedbackText r)) keyword)))))).

(** [latestAnalysis.filter(...)], abandoned at the first exception. *)
Fixpoint filter_matches (keyword : string) (l : list AnalysisResult)
  : Res (list AnalysisResult) :=
  match l with
  | [] => Ok []
  | r :: rest =>
      res_bind (is_match keyword r) (fun b =>
      res_bind (filter_matches keyword rest) (fun ms =>
      Ok (if b then r :: ms else ms)))
  end.

Section Program.
Context {rt : Runtime}.
Import Bot.
Local Open Scope handler_scope.

(** [mcpExpressApp.post('/api/mcp/ingest', ...)] on a parsed body. *)
Definition ingest (body : JSON) (s : State) : Response * State :=
  match Zod.AnalyzeFeedbackInputSchema body with
  | inl issues => (InvalidInput issues, s)
  | inr feedback =>
      let '(analyzedResults, w) :=
        analyzeFeedbackToolHandler feedback (world s) in
      let s' :=
        {| latestAnalysis := analyzedResults;
           userToInsightIndex := ∅;
           userToSearchResults := ∅;
           userToConversationId := userToConversationId s;
           world := w |} in
      match Zod.AnalyzeFeedbackOutputSchema analyzedResults with
      | inl issues => (InvalidOutput issues analyzedResults, s')
      | inr data => (Analyzed data, s')
      end
  end.

(** [userToInsightIndex.set(userKey, i)] *)
Definition set_index (userKey : string) (i : Z) : Handler State unit :=
  s <- get_state ;; put_state (with_cursor userKey i s).

Definition put_search (f : gmap string Search -> gmap string Search)
  : Handler State unit :=
  s <- get_state ;; put_state (with_search f s).

(** [createFeedbackAnalysisCard(result.analysis)] and the message that
    attaches the card; a missing [result] has no [analysis]. *)
Definition send_card (result : option AnalysisResult) : Handler State unit :=
  match result with
  | Some r =>
      c <- lift (createFeedbackAnalysisCard (analysis r)) ;; say (Attachment c)
  | None => lift Throw
  end.

Definition send_digest (result : AnalysisResult) : Handler State unit :=
  d <- lift (digest (analysis result)) ;;
  match d with
  | Some m => say m
  | None => ret tt
  end.

Definition no_results : Outgoing := Text "No analysis results are available yet.".

Definition about : Outgoing :=
  Text ("I am your Teams Platform Community Insights Bot." +:+ nl +:+ nl
    +:+ "I analyze and surface actionable insights from developer feedback across forums, "
    +:+ "helping the Ops team proactively identify and prioritize developer-expressed pain points for the Teams Platform in various dev community forums."
    +:+ nl +:+ nl
    +:+ "Commands:" +:+ nl
    +:+ "- `/show_insights` — View feedback insights one by one" +:+ nl
    +:+ "- `/next_insight` — Next insight" +:+ nl
    +:+ "- `/latest_insight` — Most recent insight" +:+ nl
    +:+ "- `/search_insights <keyword>` — Search insights by topic or pain point" +:+ nl
    +:+ "- `/next_search_result` — Next search result" +:+ nl
    +:+ "- `/ask_about_current <your question>` — Ask about the currently displayed card").

Definition latest_insight (userKey : string) : Handler State unit :=
  s <- get_state ;;
  match latestAnalysis s with
  | [] => say no_results
  | _ :: _ =>
      let idx := Z.of_nat (length (latestAnalysis s)) - 1 in
      set_index userKey idx ;;
      send_card (at_index (latestAnalysis s) idx) ;;
      say (Text "This is the most recent insight. You can ask follow-up questions using `/ask_about_current <your question>`.")
  end.

Definition search_insights (userKey : string) (text : string)
  : Handler State unit :=
  let keyword :=
    JsString.toLowerCase
      (JsString.trim
         (JsString.substring_from text (String.length "/search_insights"))) in
  match keyword with
  | EmptyString =>
      say (Text "Please provide a keyword to search. Example: `/search_insights bot`")
  | _ =>
      s <- get_state ;;
      match latestAnalysis s with
      | [] => say no_results
      | _ :: _ =>
          ms <- lift (filter_matches keyword (latestAnalysis s)) ;;
          match ms with
          | [] =>
              say (Text ("No insights found matching " +:+ quote keyword +:+ "."))
          | first :: _ =>
              put_search (insert userKey {| matches := ms; idx := 0 |}) ;;
              send_card (Some first) ;;
              send_digest first ;;
              when_ (1 <? length ms)%nat
                (say (Text ("Found " +:+ pretty (length ms)
                            +:+ " results. Type /next_search_result to see the next match."))) ;;
              set_index userKey (indexOf (latestAnalysis s) first)
          end
      end
  end.

Definition next_search_result (userKey : string) : Handler State unit :=
  s <- get_state ;;
  match userToSearchResults s !! userKey with
  | Some {| matches := (_ :: _) as ms; idx := i |} =>
      (* search.idx++ changes the object held by the map *)
      put_search (insert userKey {| matches := ms; idx := S i |}) ;;
      if (length ms <=? S i)%nat then
        say (Text "No more search results. Use `/search_insights <keyword>` to search again.") ;;
        put_search (delete userKey)
      else
        send_card (ms !! S i) ;;
        match ms !! S i with
        | Some m =>
            send_digest m ;;
            (if (S i <? length ms - 1)%nat
             then say (Text "Type /next_search_result to see the next match.")
             else say (Text "That was the last search result.")) ;;
            set_index userKey (indexOf (latestAnalysis s) m)
        | None => lift Throw
        end
  | _ => say (Text "No active search. Use `/search_insights <keyword>` first.")
  end.

(** [await prompt.send(question)] from a message handler. *)
Definition ask (p : PromptCall) : Handler State SendResult :=
  s <- get_state ;;
  let '(r, w) := send p (world s) in
  put_state (with_world w s) ;;
  ret r.

Definition ask_about_current (userKey : string) (text : string)
  : Handler State unit :=
  s <- get_state ;;
  match
    match userToInsightIndex s !! userKey with
    | Some i => at_index (latestAnalysis s) i
    | None => None
    end
  with
  | None =>
      say (Text "No current insight selected. Use `/show_insights`, `/latest_insight`, or `/search_insights <keyword>` first.")
  | Some current =>
      let question :=
        JsString.trim
          (JsString.substring_from text (String.length "/ask_about_current")) in
      match question with
      | EmptyString =>
          say (Text "Please provide a question. Example: `/ask_about_current What is the main pain point?`")
      | _ =>
          r <- ask {| instructions := AnswerInstructions (analysis current);
                      message := question |} ;;
          match r with
          | Replied content =>
              match option_map JsString.trim content with
              | Some (String c t as answer) => say (Text answer)
              | _ => say (Text "Sorry, I couldn't answer your question.")
              end
          | Rejected _ => say (Text "Sorry, I couldn't process your question.")
          end
      end
  end.

Definition show_insights (userKey : string) : Handler State unit :=
  s <- get_state ;;
  match latestAnalysis s with
  | [] => say no_results
  | _ :: _ =>
      set_index userKey 0 ;;
      send_card (at_index (latestAnalysis s) 0) ;;
      when_ (1 <? length (latestAnalysis s))%nat
        (say (Text ("Type /next_insight to see the next insight ("
                    +:+ pretty (length (latestAnalysis s) - 1)%nat +:+ " more).")))
  end.

Definition next_insight (userKey : string) : Handler State unit :=
  s <- get_state ;;
  match latestAnalysis s with
  | [] => say no_results
  | _ :: _ =>
      let len := Z.of_nat (length (latestAnalysis s)) in
      (* let idx = userToInsightIndex.get(userKey) ?? 0; idx++; *)
      let idx := default 0 (userToInsightIndex s !! userKey) + 1 in
      if len <=? idx then
        say (Text "No more insights. Type /show_insights to start over.") ;;
        set_index userKey 0
      else
        set_index userKey idx ;;
        send_card (at_index (latestAnalysis s) idx) ;;
        if idx <? len - 1
        then say (Text ("Type /next_insight to see the next insight ("
                        +:+ pretty (len - idx - 1) +:+ " more)."))
        else say (Text "That was the last insight. Type /show_insights to start over.")
  end.

(** [`${context.activity.text}`] *)
Definition shown (t : option string) : string :=
  match t with
  | Some t => t
  | None => "undefined"
  end.

Definition echo (act : Activity) : Outgoing :=
  Text ("You said: " +:+ quote (shown (text act)) +:+ "." +:+ nl +:+ nl
        +:+ "Commands:" +:+ nl
        +:+ "- /show_insights" +:+ nl
        +:+ "- /next_insight" +:+ nl
        +:+ "- /latest_insight" +:+ nl
        +:+ "- /search_insights <keyword>" +:+ nl
        +:+ "- /next_search_result" +:+ nl
        +:+ "- /ask_about_current <your question>").

(** The last statements of the handler: the echo, then the note of
    the conversation of a user seen for the first time. *)
Definition fallback (act : Activity) : Handler State unit :=
  say (echo act) ;;
  s <- get_state ;;
  match from_aadObjectId act with
  | Some (String _ _ as user) =>
      when_ (non_empty (conversation_id act)
             && negb (bool_decide (is_Some (userToConversationId s !! user))))
        (put_state (with_conversation user (conversation_id act) s))
  | _ => ret tt
  end.

(** [const text = context.activity.text?.trim()] *)
Definition trimmed (act : Activity) : option string :=
  option_map JsString.trim (text act).

(** [lowerText] is [text?.toLowerCase()], or the empty string when
    there is no text. *)
Definition lowerText (act : Activity) : string :=
  match trimmed act with
  | Some t => JsString.toLowerCase t
  | None => EmptyString
  end.

(** The texts that one of the [if] statements of the handler takes. *)
Definition is_command (lowerText : string) : bool :=
  (String.eqb lowerText "/about" || String.eqb lowerText "/help"
   || String.eqb lowerText "/latest_insight"
   || JsString.startsWith lowerText "/search_insights"
   || String.eqb lowerText "/next_search_result"
   || JsString.startsWith lowerText "/ask_about_current"
   || String.eqb lowerText "/show_insights"
   || String.eqb lowerText "/next_insight")%bool.

(** [teamsApp.on('message', ...)] *)
Definition onMessage (act : Activity) : Handler State unit :=
  say Typing ;;
  let text := trimmed act in
  let lowerText := lowerText act in
  let userKey := conversation_id act in
  if (String.eqb lowerText "/about" || String.eqb lowerText "/help")%bool
  then say about
  else if String.eqb lowerText "/latest_insight" then latest_insight userKey
  else if JsString.startsWith lowerText "/search_insights"
  then search_insights userKey (default EmptyString text)
  else if String.eqb lowerText "/next_search_result" then next_search_result userKey
  else if JsString.startsWith lowerText "/ask_about_current"
  then ask_about_current userKey (default EmptyString text)
  else if String.eqb lowerText "/show_insights" then show_insights userKey
  else if String.eqb lowerText "/next_insight" then next_insight userKey
  else fallback act.

(** A handler that leaves [latestAnalysis] as it found it. *)
Definition keeps_results {A : Type} (m : Handler State A) : Prop :=
  forall t, latestAnalysis (state (snd (m t))) = latestAnalysis (state t).

(** What the process receives: a request to the ingestion endpoint or a
    message of a conversation.  Requests are served one at a time. *)
Inductive Event : Type :=
| Ingest (body : JSON)
| Message (act : Activity).

Definition step (s : State) (e : Event) : State :=
  match e with
  | Ingest body => snd (ingest body s)
  | Message act => state (snd (run (onMessage act) s))
  end.

(** The state of the process after a history of events. *)
Definition replay (history : list Event) : State :=
  fold_left step history initial.

End Program.
End V2.

(** ** A runtime for the examples

    [JSON.parse] is [json_parse]; the model answers its calls from a
    script, in order; a URL is a scheme, a colon and something more. *)

Module Sample.

Definition is_alpha (c : ascii) : bool :=
  let n := nat_of_ascii c in
  ((65 <=? n) && (n <=? 90) || (97 <=? n) && (n <=? 122))%nat.

Fixpoint after_scheme (s : string) : bool :=
  match s with
  | EmptyString => false
  | String c r =>
      if Ascii.eqb c ":" then non_empty r
      else (is_alpha c || JsValue.is_digit c || Ascii.eqb c "+"
            || Ascii.eqb c "-" || Ascii.eqb c ".")%bool && after_scheme r
  end.

Definition absolute_url (s : string) : bool :=
  match s with
  | String c r => is_alpha c && after_scheme r
  | EmptyString => false
  end.

Definition scripted (script : list SendResult)
  : list PromptCall -> PromptCall -> SendResult :=
  fun before _ => nth (length before) script (Replied None).

Definition runtime (script : list SendResult) : Runtime :=
  {| JSON_parse := JsonParser.json_parse;
     is_url := absolute_url;
     model_reply := scripted script |}.

(** [{ id: 1, text: t, source: "forum" }] *)
Definition item (id t : string) : JSON :=
  JObject [("id", JNumber id); ("text", JString t); ("source", JString "forum")].

Definition body (items : list JSON) : JSON := JObject [("feedback", JArray items)].

Definition says (content : string) : SendResult :=
  Replied (Some (JsonParser.quoted content)).

Definition activity (conversation t : string) : Activity :=
  {| text := Some t; conversation_id := conversation; from_aadObjectId := None |}.

Definition high_reply : SendResult :=
  says "```json
{'painPoints': ['Bot crashes'], 'summary': 'The bot fails on start', 'priority': 'high'}
```".

Definition low_reply : SendResult :=
  says "{'painPoints': [], 'summary': 'Docs are thin', 'priority': 'low'}".

Definition urgent_reply : SendResult :=
  says "{'painPoints': [], 'summary': 'Docs are thin', 'priority': 'urgent'}".

Definition fenced_garbage : string := "```json
not json```".

Definition item1 : FeedbackItem :=
  {| item_id := "1"; item_text := "a"; item_source := "forum"; item_url := None |}.

Definition w0 : World := {| calls := []; next_ref := 0 |}.

Definition body1 : JSON := body [item "1" "a"].
Definition body2 : JSON := body [item "1" "a"; item "2" "b"].
Definition body3 : JSON := body [item "1" "a"; item "2" "b"; item "3" "c"].

(** The item with id 1, source "forum" and an empty text. *)
Definition empty_text_item : JSON := item "1" EmptyString.

Definition rt_garbage : Runtime := runtime [Replied (Some fenced_garbage)].
Definition rt_null : Runtime := runtime [Replied (Some "null")].
Definition rt_low : Runtime := runtime [low_reply].
Definition rt_urgent : Runtime := runtime [urgent_reply].
Definition rt_pair : Runtime := runtime [high_reply; low_reply].
Definition rt_batch : Runtime :=
  runtime [high_reply; Replied (Some "oops"); low_reply].

(** The model of [rt_batch], with the answer to its fourth call. *)
Definition rt_next (reply : SendResult) : Runtime :=
  runtime [high_reply; Replied (Some "oops"); low_reply; reply].

(** Three results published: a success, a failure, a success. *)
Definition published : V2.State :=
  snd (V2.ingest (rt := rt_batch) body3 V2.initial).

(** Two results published, both successes. *)
Definition published2 : V2.State :=
  snd (V2.ingest (rt := rt_pair) body2 V2.initial).

Definition after (t : string) (s : V2.State) : V2.State :=
  Bot.state (snd (Bot.run (V2.onMessage (rt := rt_batch) (activity "c1" t)) s)).

(** Conversation c1 has searched for "o" (two matches) and moved to the
    second match. *)
Definition searching : V2.State :=
  after "/next_search_result" (after "/search_insights o" published).

(** Conversation c1 looks at the last result. *)
Definition viewing_last : V2.State := after "/latest_insight" published.

(** One result published. *)
Definition published1 : V2.State :=
  snd (V2.ingest (rt := rt_low) body1 V2.initial).

(** What a run shows: its completion, the messages, and the cursor and
    the search of conversation c1 (the objects matched, by identity). *)
Definition observe (r : Res unit * Bot.Turn V2.State)
  : Res unit * list Outgoing * option Z * option (list nat * nat) :=
  (fst r, Bot.sent (snd r),
   V2.userToInsightIndex (Bot.state (snd r)) !! "c1",
   option_map (fun x => (map ref (V2.matches x), V2.idx x))
     (V2.userToSearchResults (Bot.state (snd r)) !! "c1")).

Definition says_to (rt : Runtime) (t : string) (s : V2.State)
  : Res unit * Bot.Turn V2.State :=
  Bot.run (V2.onMessage (rt := rt) (activity "c1" t)) s.

End Sample.

(** ** The specification's words, for comparison with the program *)

Module Spec.

(** "strip a leading fenced-code marker": the text after [marker] when
    [s] begins with it. *)
Fixpoint strip_leading (marker s : string) : option string :=
  match marker, s with
  | EmptyString, _ => Some s
  | String _ _, EmptyString => None
  | String a m, String b r => if Ascii.eqb a b then strip_leading m r else None
  end.

Definition without_leading (marker s : string) : string :=
  default s (strip_leading marker s).

(** "and a trailing fence marker if present": [s] up to the point where
    what remains is exactly [marker]. *)
Fixpoint without_trailing (marker s : string) : string :=
  match s with
  | EmptyString => EmptyString
  | String c r =>
      if String.eqb s marker then EmptyString
      else String c (without_trailing marker r)
  end.

(** "strip a leading fenced-code marker (literal ```json) and a trailing
    fence marker (```) if present, then trim whitespace" *)
Definition stripped (content : string) : string :=
  JsString.trim (without_trailing "```" (without_leading "```json" content)).

Section Shape.
Context {rt : Runtime}.

(** The item shape of the schema: id a number, text a string, source
    a string, url a well-formed URL when present. *)
Definition schema_item_shape (x : JSON) : bool :=
  match x with
  | JObject ms =>
      match JsValue.own "id" ms with Some (JNumber _) => true | _ => false end
      && match JsValue.own "text" ms with Some (JString _) => true | _ => false end
      && match JsValue.own "source" ms with Some (JString _) => true | _ => false end
      && match JsValue.own "url" ms with
         | None => true
         | Some (JString u) => is_url u
         | Some _ => false
         end
  | _ => false
  end.

(** The item shape in the specification's words: "id present, text
    non-empty, source present, url well-formed if present". *)
Definition stated_item_shape (x : JSON) : bool :=
  schema_item_shape x
  && match x with
     | JObject ms =>
         match JsValue.own "text" ms with
         | Some (JString t) => non_empty t
         | _ => false
         end
     | _ => false
     end.
End Shape.

(** A result counts as a Failure when its analysis has an [error]
    member, the test the program itself makes (['error' in a]). *)
Definition is_failure (r : AnalysisResult) : Res bool :=
  JsValue.has "error" (analysis r).

End Spec.


(** ** Vocabulary of the further properties *)

(** The result carries the provenance of the item. *)
Definition from_item (item : FeedbackItem) (r : AnalysisResult) : Prop :=
  originalId r = item_id item
  /\ originalSource r = item_source item
  /\ originalUrl r = item_url item.

(** An analysis that one of the two schemas of the union accepts. *)
Definition accepted_analysis (a : JSON) : Prop :=
  Zod.AnalysisObjectSchema a <> None \/ Zod.AnalysisErrorSchema a <> None.

(** A model that gives no content: every call is rejected or resolves
    without content. *)
Definition silent_model {rt : Runtime} : Prop :=
  forall before p,
    match model_reply before p with
    | Replied (Some (String _ _)) => False
    | _ => True
    end.


(** The item that the item schema reads from a value of its shape; the
    members that the schema does not name are left out. *)
Definition read_item (x : JSON) : FeedbackItem :=
  match x with
  | JObject ms =>
      {| item_id :=
           match JsValue.own "id" ms with Some (JNumber n) => n | _ => EmptyString end;
         item_text :=
           match JsValue.own "text" ms with Some (JString t) => t | _ => EmptyString end;
         item_source :=
           match JsValue.own "source" ms with Some (JString t) => t | _ => EmptyString end;
         item_url :=
           match JsValue.own "url" ms with Some (JString u) => Some u | _ => None end |}
  | _ =>
      {| item_id := EmptyString; item_text := EmptyString;
         item_source := EmptyString; item_url := None |}
  end.

(** The data that the union of the two analysis schemas gives. *)
Definition validated (a : JSON) : option AnalysisOutcome :=
  match Zod.AnalysisObjectSchema a with
  | Some o => Some o
  | None => Zod.AnalysisErrorSchema a
  end.

(** The validated result repeats the stored one. *)
Definition mirrors (r : AnalysisResult) (d : ValidatedResult) : Prop :=
  out_originalId d = originalId r
  /\ out_originalSource d = originalSource r
  /\ out_originalUrl d = originalUrl r
  /\ validated (analysis r) = Some (out_analysis d).

(** An absent url, or one that passes the URL test. *)
Definition checked_url {rt : Runtime} (u : option string) : Prop :=
  forall x, u = Some x -> is_url x = true.


(** The validated result is a failure that carries the provenance of the
    item. *)
Definition failure_of (item : FeedbackItem) (d : ValidatedResult) : Prop :=
  out_originalId d = item_id item
  /\ out_originalSource d = item_source item
  /\ out_originalUrl d = item_url item
  /\ exists e, out_analysis d = Failure e None.


(** A reply that wraps the text [j] in a fence: [```json], [j], [```]. *)
Definition fenced (j : string) : string := "```json" +:+ j +:+ "```".


(** A handler that leaves the program variables as they are. *)
Definition stateless {St A : Type} (m : Bot.Handler St A) : Prop :=
  forall t, Bot.state (snd (m t)) = Bot.state t.

(** A handler whose runs relate the state before to the state after by
    [R], also when an exception cuts it short. *)
Definition frames (R : V2.State -> V2.State -> Prop) {A : Type}
  (m : Bot.Handler V2.State A) : Prop :=
  forall t, R (Bot.state t) (Bot.state (snd (m t))).

(** The state after is the state before for every conversation but
    [userKey], and holds the same results. *)
Definition others_untouched (userKey : string) (s s' : V2.State) : Prop :=
  V2.latestAnalysis s' = V2.latestAnalysis s
  /\ forall other : string,
       other <> userKey ->
       V2.userToInsightIndex s' !! other = V2.userToInsightIndex s !! other
       /\ V2.userToSearchResults s' !! other = V2.userToSearchResults s !! other.

(** The conversations noted before are still noted, unchanged. *)
Definition registry_kept (s s' : V2.State) : Prop :=
  forall user conversation : string,
    V2.userToConversationId s !! user = Some conversation ->
    V2.userToConversationId s' !! user = Some conversation.


(** The state that navigation relies on: the published results are
    distinct objects, every cursor is an index of a published result, and
    every search stands on one of its matches, all of them published
    results without an [error]. *)
Record well_formed (s : V2.State) : Prop := {
  wf_refs : NoDup (ref <$> V2.latestAnalysis s);
  wf_cursor :
    forall (userKey : string) (i : Z),
      V2.userToInsightIndex s !! userKey = Some i ->
      0 <= i < Z.of_nat (length (V2.latestAnalysis s));
  wf_search :
    forall (userKey : string) (sr : V2.Search),
      V2.userToSearchResults s !! userKey = Some sr ->
      (V2.idx sr < length (V2.matches sr))%nat
      /\ Forall (fun m => m ∈ V2.latestAnalysis s /\ Spec.is_failure m = Ok false)
           (V2.matches sr)
}.

(** A well-formed state with the results of [s0]. *)
Definition settled (s0 s : V2.State) : Prop :=
  V2.latestAnalysis s = V2.latestAnalysis s0 /\ well_formed s.

(** A handler that keeps the state settled, also when an exception cuts
    it short. *)
Definition settles (s0 : V2.State) {A : Type} (m : Bot.Handler V2.State A) : Prop :=
  forall t, settled s0 (Bot.state t) -> settled s0 (Bot.state (snd (m t))).


(** The question of an [/ask_about_current] message: the text after the
    command, trimmed. *)
Definition question_of (act : Activity) : string :=
  JsString.trim
    (JsString.substring_from (default EmptyString (V2.trimmed act))
       (String.length "/ask_about_current")).


(** The priorities of the schema, as the analysis writes them. *)
Definition priority_name (p : Priority) : string :=
  match p with
  | low => "low"
  | medium => "medium"
  | high => "high"
  end.

(** The colour of the priority line of a card. *)
Definition priority_color (p : Priority) : string :=
  match p with
  | high => "Attention"
  | medium => "Warning"
  | low => "Good"
  end.

(** The pain points that a card lists; none when there is no point. *)
Definition shown_points (points : list string) : option (list JSON) :=
  match points with
  | [] => None
  | _ :: _ => Some (map JString points)
  end.

(** The keyword of a [/search_insights] message: the text after the
    command, trimmed and in lower case. *)
Definition keyword_of (act : Activity) : string :=
  JsString.toLowerCase
    (JsString.trim
       (JsString.substring_from (default EmptyString (V2.trimmed act))
          (String.length "/search_insights"))).

(** The results that the predicate of the search accepts. *)
Definition matches_keyword (keyword : string) (r : AnalysisResult) : bool :=
  match V2.is_match keyword r with
  | Ok true => true
  | _ => false
  end.


(** ** Further sample data *)

Module Cases.

(** A model whose two calls fail: the first is rejected, the second
    resolves without content. *)
Definition rt_silent : Runtime :=
  Sample.runtime [Rejected "rate limit"; Replied None].

(** A model whose first call is rejected. *)
Definition rt_rejected : Runtime := Sample.runtime [Rejected "rate limit"].

(** A model that answers the question put after the batch of three. *)
Definition rt_answer : Runtime := Sample.rt_next (Replied (Some "Because."))%string.

(** User u1 was noted with conversation c1. *)
Definition noted : V2.State := V2.with_conversation "u1" "c1" V2.initial.

(** User u1 writes a free text in conversation c2. *)
Definition from_u1 : Activity :=
  {| text := Some "hi"; conversation_id := "c2"; from_aadObjectId := Some "u1" |}.

(** User u2, never seen before, asks for help in conversation c2. *)
Definition help_from_u2 : Activity :=
  {| text := Some " /Help "; conversation_id := "c2"; from_aadObjectId := Some "u2" |}.

(** The batch of three, then [/latest_insight] in conversation c1. *)
Definition history_latest : list V2.Event :=
  [V2.Ingest Sample.body3; V2.Message (Sample.activity "c1" "/latest_insight")].

(** The batch of three, then a search for "o" in conversation c1. *)
Definition history_search : list V2.Event :=
  [V2.Ingest Sample.body3; V2.Message (Sample.activity "c1" "/search_insights o")].

(** The results of the batch of three that match "o". *)
Definition matches_o : list AnalysisResult :=
  List.filter (matches_keyword "o") (V2.latestAnalysis Sample.published).

(** [{ painPoints: ["Bot crashes"], summary: "The Bot fails", priority:
    "high" }] *)
Definition success_analysis : JSON :=
  JObject [("painPoints", JArray [JString "Bot crashes"]);
           ("summary", JString "The Bot fails");
           ("priority", JString "high")].

Definition success_result : AnalysisResult :=
  {| ref := 0; originalId := "1"; originalSource := "forum"; originalUrl := None;
     analysis := success_analysis |}.

(** [{ error: "x", painPoints: [], summary: "Docs are thin", priority:
    "low" }]: an analysis of the object schema's shape that also has an
    [error]. *)
Definition success_with_error : AnalysisResult :=
  {| ref := 0; originalId := "1"; originalSource := "forum"; originalUrl := None;
     analysis :=
       JObject [("error", JString "x"); ("painPoints", JArray []);
                ("summary", JString "Docs are thin"); ("priority", JString "low")] |}.

(** The model of the batch of two, with an answer to a third call. *)
Definition rt_pair_answer : Runtime :=
  Sample.runtime [Sample.high_reply; Sample.low_reply; Replied (Some "Because.")].

(** The second result of the batch of two. *)
Definition docs_result : AnalysisResult :=
  {| ref := 1; originalId := "2"; originalSource := "forum"; originalUrl := None;
     analysis :=
       JObject [("painPoints", JArray []); ("summary", JString "Docs are thin");
                ("priority", JString "low")] |}.

End Cases.

(** A handler that only adds to the messages sent, also when an
    exception cuts it short. *)
Definition grows {St A : Type} (m : Bot.Handler St A) : Prop :=
  forall t, exists more, Bot.sent (snd (m t)) = Bot.sent t ++ more.

(** A handler that sends at least one message when it completes. *)
Definition answers {St A : Type} (m : Bot.Handler St A) : Prop :=
  forall t a,
    fst (m t) = Ok a ->
    exists x more, Bot.sent (snd (m t)) = Bot.sent t ++ x :: more.

(** The error that the handler writes for a call that gave no content:
    the message of the rejection, [AI analysis failed] when it has none,
    and [No AI content] when the call resolved. *)
Definition failure_text (reply : SendResult) : string :=
  match reply with
  | Rejected EmptyString => "AI analysis failed"
  | Rejected reason => reason
  | Replied _ => "No AI content"
  end.

(** The errors of the items of a batch, in the order of the items: that
    of an item comes from the reply to the call made for it, after the
    calls [before] and the calls for the items before it. *)
Fixpoint failure_texts {rt : Runtime} (before : list PromptCall)
  (feedback : list FeedbackItem) : list string :=
  match feedback with
  | [] => []
  | item :: rest =>
      failure_text (model_reply before (analysis_prompt item))
      :: failure_texts (before ++ [analysis_prompt item]) rest
  end.

(** The message with the error card of the first revision for an
    analysis that holds the error [e] and no raw output. *)
Definition error_card (e : string) : Outgoing :=
  Attachment (ErrorCard (Some (JString e)) None).

(** * Properties *)

(** ** Strings *)

Section StringFacts.
Import JsString.

Lemma take_drop (n : nat) (s : string) : take n s +:+ drop n s = s.
Proof.
  revert s. induction n as [|n IH]; intros [|c r]; simpl; try reflexivity.
  change (String c (take n r +:+ drop n r) = String c r).
  f_equal. apply IH.
Qed.

Lemma drop_all (s : string) : drop (String.length s) s = EmptyString.
Proof. induction s; simpl; auto. Qed.

Lemma take_all (s : string) : take (String.length s) s = s.
Proof. induction s; simpl; congruence. Qed.

Lemma strip_leading_prefix (m s : string) :
  Spec.strip_leading m s
  = if String.prefix m s then Some (drop (String.length m) s) else None.
Proof.
  revert s. induction m as [|a m IH]; intros [|b r]; simpl; try reflexivity.
  destruct (ascii_dec a b) as [->|Hne].
  - rewrite Ascii.eqb_refl. apply IH.
  - apply Ascii.eqb_neq in Hne. now rewrite Hne.
Qed.

(** The leading marker: [startsWith] and [substring(7)] remove exactly
    what the specification describes. *)
Lemma without_leading_code (m s : string) :
  (if startsWith s m then substring_from s (String.length m) else s)
  = Spec.without_leading m s.
Proof.
  unfold Spec.without_leading, startsWith, substring_from.
  rewrite strip_leading_prefix. now destruct (String.prefix m s).
Qed.

Lemma substring_0 (s : string) (b : nat) :
  (b <= String.length s)%nat -> substring s 0 b = take b s.
Proof.
  intros Hb. unfold substring.
  rewrite Nat.min_0_l, (Nat.min_l b) by exact Hb.
  rewrite Nat.max_0_l, Nat.min_0_l, Nat.sub_0_r. reflexivity.
Qed.

Lemma length_drop (n : nat) (s : string) :
  String.length (drop n s) = (String.length s - n)%nat.
Proof. revert s. induction n; intros [|c r]; simpl; auto. Qed.

(** The trailing marker: [endsWith] and [substring(0, length - 3)]. *)
Lemma without_trailing_code (m s : string) :
  m <> EmptyString ->
  (if endsWith s m then substring s 0 (String.length s - String.length m) else s)
  = Spec.without_trailing m s.
Proof.
  intros Hm. rewrite substring_0 by lia.
  induction s as [|c r IH].
  - simpl. unfold endsWith. simpl.
    destruct m; [congruence|]. reflexivity.
  - cbn [Spec.without_trailing].
    destruct (String.eqb (String c r) m) eqn:E.
    + apply String.eqb_eq in E. subst m. unfold endsWith.
      rewrite Nat.leb_refl, Nat.sub_diag. cbn [drop andb].
      now rewrite String.eqb_refl.
    + rewrite <- IH. clear IH.
      unfold endsWith.
      destruct (Nat.leb (String.length m) (String.length r)) eqn:L.
      * apply Nat.leb_le in L.
        assert (L' : (String.length m <=? String.length (String c r))%nat = true)
          by (apply Nat.leb_le; simpl; lia).
        rewrite L'. cbn [andb].
        replace (String.length (String c r) - String.length m)%nat
          with (S (String.length r - String.length m)) by (simpl; lia).
        cbn [drop take].
        now destruct (String.eqb (drop (String.length r - String.length m) r) m).
      * apply Nat.leb_gt in L. cbn [andb].
        destruct (Nat.leb (String.length m) (String.length (String c r))) eqn:L';
          [|reflexivity].
        apply Nat.leb_le in L'.
        assert (Hlen : String.length m = String.length (String c r))
          by (simpl in *; lia).
        rewrite Hlen, Nat.sub_diag. cbn [drop andb].
        now rewrite E.
Qed.

End StringFacts.

(** ** The analysis handler *)

Section AnalysisFacts.
Context {rt : Runtime}.

Lemma jsonString_stripped (content : string) :
  jsonString content = Spec.stripped content.
Proof.
  unfold jsonString, Spec.stripped.
  rewrite <- (without_trailing_code "```") by discriminate.
  rewrite <- (without_leading_code "```json").
  reflexivity.
Qed.

Lemma analyzeItem_content item acc w content :
  content <> EmptyString ->
  model_reply (calls w) (analysis_prompt item) = Replied (Some content) ->
  analyzeItem (acc, w) item
  = match JSON_parse (jsonString content) with
    | Some v =>
        if log_priority_throws v
        then push item (invalid_json content) (push item v (acc, called w item))
        else push item v (acc, called w item)
    | None => push item (invalid_json content) (acc, called w item)
    end.
Proof.
  intros Hne Hreply. unfold analyzeItem, send. rewrite Hreply.
  destruct content as [|c r]; [congruence|]. reflexivity.
Qed.

(** Every turn of the loop keeps what was pushed before and pushes one
    result or two, all carrying the identifier of its item. *)
Lemma analyzeItem_pushes item acc w :
  exists a extra w',
    analyzeItem (acc, w) item = (acc ++ new_result (called w item) item a :: extra, w')
    /\ Forall (fun r => originalId r = item_id item) extra
    /\ (length extra <= 1)%nat.
Proof.
  unfold analyzeItem, send. fold (called w item).
  destruct (model_reply (calls w) (analysis_prompt item)) as [[[|c r]|]|reason].
  1,3,4: eexists _, [], _; cbn [push];
    (split; [reflexivity | split; [constructor | simpl; lia]]).
  destruct (JSON_parse (jsonString (String c r))) as [v|].
  - destruct (log_priority_throws v).
    + eexists v, [_], _. cbn [push]. rewrite <- app_assoc. cbn [app].
      split; [reflexivity|]. split; [|simpl; lia].
      constructor; [reflexivity | constructor].
    + eexists v, [], _. cbn [push].
      split; [reflexivity | split; [constructor | simpl; lia]].
  - eexists _, [], _. cbn [push].
    split; [reflexivity | split; [constructor | simpl; lia]].
Qed.

Lemma analyzeItem_one item acc w :
  quiet_log ->
  exists a w', analyzeItem (acc, w) item = (acc ++ [new_result (called w item) item a], w').
Proof.
  intros Hq. unfold analyzeItem, send. fold (called w item).
  destruct (model_reply (calls w) (analysis_prompt item))
    as [[[|c r]|]|reason] eqn:Hreply; try (eexists _, _; reflexivity).
  destruct (JSON_parse (jsonString (String c r))) as [v|] eqn:Hparse;
    [|eexists _, _; reflexivity].
  rewrite (Hq _ _ _ _ Hreply Hparse). eexists _, _; reflexivity.
Qed.

(** With a quiet log the handler gives one result per item, in order. *)
Lemma handler_one_result_per_item (feedback : list FeedbackItem) (w : World) :
  quiet_log ->
  map originalId (fst (analyzeFeedbackToolHandler feedback w))
  = map item_id feedback.
Proof.
  intros Hq. unfold analyzeFeedbackToolHandler.
  change (map item_id feedback) with (map originalId [] ++ map item_id feedback).
  generalize (@nil AnalysisResult) as acc. revert w.
  induction feedback as [|item rest IH]; intros w acc.
  - simpl. now rewrite app_nil_r.
  - cbn [fold_left].
    destruct (analyzeItem_one item acc w Hq) as (a & w' & ->).
    rewrite IH, map_app. cbn [map new_result originalId].
    now rewrite <- app_assoc.
Qed.

(** C8. For a reply with non-empty content, the text given to
    [JSON.parse] is the content without a leading [```json], without a
    trailing [```], trimmed; when that text does not parse, the result
    pushed for the item has the error "AI output not valid JSON" and the
    original content as [rawOutput]; when it parses, the parsed value is
    what is pushed. *)
Theorem unparsable_reply_is_recorded_with_raw_output
  (item : FeedbackItem) (acc : list AnalysisResult) (w : World) (content : string) :
  content <> EmptyString ->
  model_reply (calls w) (analysis_prompt item) = Replied (Some content) ->
  jsonString content = Spec.stripped content
  /\ (JSON_parse (Spec.stripped content) = None ->
      analyzeItem (acc, w) item
      = (acc ++ [ {| ref := next_ref w;
                     originalId := item_id item;
                     originalSource := item_source item;
                     originalUrl := item_url item;
                     analysis :=
                       JObject [("error", JString "AI output not valid JSON");
                                ("rawOutput", JString content)] |} ],
         {| calls := calls w ++ [analysis_prompt item];
            next_ref := S (next_ref w) |}))
  /\ (forall v, JSON_parse (Spec.stripped content) = Some v ->
      exists extra w',
        analyzeItem (acc, w) item
        = (acc ++ new_result w item v :: extra, w')).
Proof.
  intros Hne Hreply. split; [apply jsonString_stripped|].
  rewrite (analyzeItem_content item acc w content Hne Hreply).
  rewrite jsonString_stripped. split.
  - intros ->. reflexivity.
  - intros v ->. destruct (log_priority_throws v); cbn [push].
    + rewrite <- app_assoc. eexists _, _. reflexivity.
    + eexists [], _. reflexivity.
Qed.

End AnalysisFacts.

(** C8, on a reply that is fenced but is not JSON inside. *)
Lemma unparsable_reply_witness :
  Spec.stripped Sample.fenced_garbage = "not json"
  /\ analyzeItem (rt := Sample.rt_garbage) ([], Sample.w0) Sample.item1
     = ([ {| ref := 0; originalId := "1"; originalSource := "forum";
             originalUrl := None;
             analysis :=
               JObject [("error", JString "AI output not valid JSON");
                        ("rawOutput", JString Sample.fenced_garbage)] |} ],
        {| calls := [analysis_prompt Sample.item1]; next_ref := 1 |}).
Proof.
  split; [reflexivity|].
  refine (proj1 (proj2 (unparsable_reply_is_recorded_with_raw_output
                          (rt := Sample.rt_garbage) Sample.item1 [] Sample.w0
                          Sample.fenced_garbage _ _)) _).
  - discriminate.
  - reflexivity.
  - reflexivity.
Defined.

(** C1, at the reply [null]: [JSON.parse] succeeds, the result is pushed,
    the log line reads [parsedAnalysis.priority] of [null] and raises, and
    the [catch] pushes a second result for the same item. *)
Theorem null_reply_gives_two_results_for_one_item :
  Zod.AnalyzeFeedbackInputSchema (rt := Sample.rt_null) Sample.body1
  = inr [Sample.item1]
  /\ map (fun r => (originalId r, analysis r))
         (fst (analyzeFeedbackToolHandler (rt := Sample.rt_null)
                 [Sample.item1] Sample.w0))
     = [("1", JNull); ("1", invalid_json "null")].
Proof. split; reflexivity. Qed.

(** ** The schemas *)

Section SchemaFacts.
Context {rt : Runtime}.
Import Zod.


Lemma both_inl_l {A B : Type} (x : Parsed A) (y : Parsed B) e (P : Issue -> Prop) :
  x = inl e -> Exists P e -> exists e', both x y = inl e' /\ Exists P e'.
Proof.
  intros -> He. destruct y; simpl; eexists; split; try reflexivity; auto.
  apply Exists_app. now left.
Qed.

Lemma both_inl_r {A B : Type} (x : Parsed A) (y : Parsed B) e (P : Issue -> Prop) :
  y = inl e -> Exists P e -> exists e', both x y = inl e' /\ Exists P e'.
Proof.
  intros -> He. destruct x; simpl; eexists; split; try reflexivity; auto.
  apply Exists_app. now right.
Qed.

(** The item schema accepts exactly the items of [schema_item_shape]. *)
Lemma item_schema_accepts (p : list PathSeg) (x : JSON) :
  Spec.schema_item_shape x = true ->
  exists item, FeedbackItemSchema p (Some x) = inr item.
Proof.
  destruct x as [| | | | |ms]; try discriminate. cbn [Spec.schema_item_shape].
  unfold FeedbackItemSchema.
  destruct (JsValue.own "id" ms) as [[]|]; try discriminate.
  destruct (JsValue.own "text" ms) as [[]|]; try discriminate.
  destruct (JsValue.own "source" ms) as [[]|]; try discriminate.
  destruct (JsValue.own "url" ms) as [[| | |u| |]|]; try discriminate; simpl.
  - intros ->. eexists; reflexivity.
  - eexists; reflexivity.
Qed.

Lemma item_schema_rejects (p : list PathSeg) (x : JSON) :
  Spec.schema_item_shape x = false ->
  exists e, FeedbackItemSchema p (Some x) = inl e
            /\ Exists (fun issue => p `prefix_of` path issue) e.
Proof.
  assert (Hp : forall k, p `prefix_of` (p ++ [k])) by (intros k; now exists [k]).
  destruct x as [| | | | |ms];
    try (intros _; eexists; split; [reflexivity|];
         constructor; simpl; reflexivity).
  cbn [Spec.schema_item_shape]. unfold FeedbackItemSchema. intros H.
  destruct (JsValue.own "id" ms) as [[]|];
    destruct (JsValue.own "text" ms) as [[]|];
    destruct (JsValue.own "source" ms) as [[]|];
    destruct (JsValue.own "url" ms) as [[| | |u| |]|];
    simpl in H |- *; try discriminate H;
    try (destruct (is_url u); try discriminate H); simpl;
    (eexists; split; [reflexivity|]; constructor; simpl; apply Hp).
Qed.

Lemma elements_reject (p : list PathSeg) (xs : list JSON) :
  forall (k i : nat) (x : JSON),
    xs !! i = Some x ->
    Spec.schema_item_shape x = false ->
    exists e, elements FeedbackItemSchema p k xs = inl e
              /\ Exists (fun issue => (p ++ [Index (k + i)]) `prefix_of` path issue) e.
Proof.
  induction xs as [|y rest IH]; intros k i x Hx Hbad; [discriminate|].
  cbn [elements]. destruct i as [|i].
  - injection Hx as ->.
    destruct (item_schema_rejects (p ++ [Index k]) x Hbad) as (e & He & HP).
    rewrite Nat.add_0_r.
    destruct (both_inl_l _ (elements FeedbackItemSchema p (S k) rest) e _ He HP)
      as (e' & -> & HP').
    eauto.
  - destruct (IH (S k) i x Hx Hbad) as (e & He & HP).
    replace (k + S i)%nat with (S k + i)%nat by lia.
    destruct (both_inl_r (FeedbackItemSchema (p ++ [Index k]) (Some y)) _ e _ He HP)
      as (e' & -> & HP').
    eauto.
Qed.





End SchemaFacts.

(** ** The ingestion endpoint *)

Section IngestFacts.
Context {rt : Runtime}.

(** The state that [ingest] leaves once the input is accepted. *)
Lemma ingest_accepted (body : JSON) (s : V2.State) (feedback : list FeedbackItem) :
  Zod.AnalyzeFeedbackInputSchema body = inr feedback ->
  V2.ingest body s
  = let out := analyzeFeedbackToolHandler feedback (V2.world s) in
    (match Zod.AnalyzeFeedbackOutputSchema (fst out) with
     | inl issues => InvalidOutput issues (fst out)
     | inr data => Analyzed data
     end,
     {| V2.latestAnalysis := fst out;
        V2.userToInsightIndex := ∅;
        V2.userToSearchResults := ∅;
        V2.userToConversationId := V2.userToConversationId s;
        V2.world := snd out |}).
Proof.
  intros Hin. unfold V2.ingest. rewrite Hin.
  destruct (analyzeFeedbackToolHandler feedback (V2.world s)) as [results w].
  cbn [fst snd].
  now destruct (Zod.AnalyzeFeedbackOutputSchema results).
Qed.

Lemma ingest_rejected (body : JSON) (s : V2.State) (issues : list Zod.Issue) :
  Zod.AnalyzeFeedbackInputSchema body = inl issues ->
  V2.ingest body s = (InvalidInput issues, s).
Proof. intros Hin. unfold V2.ingest. now rewrite Hin. Qed.

(** C2. A successful ingestion leaves both per-conversation maps empty,
    whatever the state before it: no conversation has a cursor or a
    search context afterwards. *)
Theorem ingest_clears_every_session
  (body : JSON) (s s' : V2.State) (data : list ValidatedResult) :
  V2.ingest body s = (Analyzed data, s') ->
  V2.userToInsightIndex s' = ∅
  /\ V2.userToSearchResults s' = ∅
  /\ forall userKey : string,
       V2.userToInsightIndex s' !! userKey = None
       /\ V2.userToSearchResults s' !! userKey = None.
Proof.
  intros H.
  destruct (Zod.AnalyzeFeedbackInputSchema body) as [issues|feedback] eqn:Hin.
  - rewrite (ingest_rejected _ _ _ Hin) in H. discriminate.
  - rewrite (ingest_accepted _ _ _ Hin) in H. cbn zeta in H.
    injection H as _ <-. cbn [V2.userToInsightIndex V2.userToSearchResults].
    repeat split; apply lookup_empty.
Qed.

(** C10. The results are stored and the two maps are cleared before the
    output is validated: when the output schema refuses the results, the
    answer is 500 and the state holds the refused results, with no
    cursor and no search context left. *)
Theorem invalid_output_is_published_all_the_same
  (body : JSON) (s : V2.State) (feedback : list FeedbackItem)
  (analyzedResults : list AnalysisResult) (w : World) (issues : list Zod.Issue) :
  Zod.AnalyzeFeedbackInputSchema body = inr feedback ->
  analyzeFeedbackToolHandler feedback (V2.world s) = (analyzedResults, w) ->
  Zod.AnalyzeFeedbackOutputSchema analyzedResults = inl issues ->
  V2.ingest body s
  = (InvalidOutput issues analyzedResults,
     {| V2.latestAnalysis := analyzedResults;
        V2.userToInsightIndex := ∅;
        V2.userToSearchResults := ∅;
        V2.userToConversationId := V2.userToConversationId s;
        V2.world := w |})
  /\ status (InvalidOutput issues analyzedResults) = 500.
Proof.
  intros Hin Hout Hbad. rewrite (ingest_accepted _ _ _ Hin), Hout.
  cbn [fst snd]. rewrite Hbad. split; reflexivity.
Qed.

(** C7, as the schema has it.  An item of the payload that is not of the
    schema's shape (id a number, text a string, source a string, url a
    well-formed URL when present) makes [ingest] answer 400 with the
    issues of the schema, one of them under the path of that item, and
    leave the state as it was. *)
Theorem item_outside_schema_rejects_the_batch
  (s : V2.State) (ms : list (string * JSON)) (xs : list JSON) (i : nat) (x : JSON) :
  JsValue.own "feedback" ms = Some (JArray xs) ->
  xs !! i = Some x ->
  Spec.schema_item_shape x = false ->
  exists issues,
    V2.ingest (JObject ms) s = (InvalidInput issues, s)
    /\ status (InvalidInput issues) = 400
    /\ Exists (fun issue =>
                [Zod.Key "feedback"; Zod.Index i] `prefix_of` Zod.path issue)
             issues.
Proof.
  intros Hfb Hx Hbad.
  destruct (elements_reject [Zod.Key "feedback"] xs 0 i x Hx Hbad) as (e & He & HP).
  exists e. split; [|split; [reflexivity | exact HP]].
  apply ingest_rejected. cbn [Zod.AnalyzeFeedbackInputSchema]. rewrite Hfb.
  exact He.
Qed.


End IngestFacts.

(** C2, on a state in which conversation c1 has a cursor and a search. *)
Lemma ingest_clears_witness :
  V2.userToInsightIndex Sample.searching !! "c1" = Some 2
  /\ is_Some (V2.userToSearchResults Sample.searching !! "c1")
  /\ V2.userToInsightIndex
       (snd (V2.ingest (rt := Sample.rt_next Sample.low_reply) Sample.body1 Sample.searching)) !! "c1"
     = None
  /\ V2.userToSearchResults
       (snd (V2.ingest (rt := Sample.rt_next Sample.low_reply) Sample.body1 Sample.searching)) !! "c1"
     = None.
Proof.
  split; [reflexivity|]. split; [eexists; reflexivity|].
  edestruct (ingest_clears_every_session (rt := Sample.rt_next Sample.low_reply)
               Sample.body1 Sample.searching
               (snd (V2.ingest (rt := Sample.rt_next Sample.low_reply) Sample.body1 Sample.searching)))
    as (_ & _ & H).
  - reflexivity.
  - exact (H "c1").
Defined.

(** C10, on a reply whose priority is outside the taxonomy. *)
Lemma invalid_output_witness :
  status (fst (V2.ingest (rt := Sample.rt_next Sample.urgent_reply) Sample.body1 Sample.searching)) = 500
  /\ map analysis
       (V2.latestAnalysis
          (snd (V2.ingest (rt := Sample.rt_next Sample.urgent_reply) Sample.body1 Sample.searching)))
     = [JObject [("painPoints", JArray []); ("summary", JString "Docs are thin");
                 ("priority", JString "urgent")]]
  /\ V2.userToInsightIndex
       (snd (V2.ingest (rt := Sample.rt_next Sample.urgent_reply) Sample.body1 Sample.searching))
     = ∅.
Proof.
  edestruct (invalid_output_is_published_all_the_same
               (rt := Sample.rt_next Sample.urgent_reply)
               Sample.body1 Sample.searching) as [H _].
  - reflexivity.
  - reflexivity.
  - reflexivity.
  - rewrite H. repeat split.
Defined.

(** C7 as stated fails: an item with an empty text passes the schema, and
    the batch replaces the one published before. *)
Lemma empty_text_is_ingested :
  Spec.stated_item_shape (rt := Sample.rt_low) Sample.empty_text_item = false
  /\ status (fst (V2.ingest (rt := Sample.rt_next Sample.low_reply)
                    (Sample.body [Sample.empty_text_item]) Sample.published))
     = 200
  /\ length (V2.latestAnalysis Sample.published) = 3%nat
  /\ map (fun r => (originalId r, Spec.is_failure r))
       (V2.latestAnalysis
          (snd (V2.ingest (rt := Sample.rt_next Sample.low_reply)
                  (Sample.body [Sample.empty_text_item]) Sample.published)))
     = [("1", Ok false)].
Proof. repeat split. Qed.

(** C7 as the schema has it, on an item whose id is a string. *)
Lemma item_outside_schema_witness :
  exists issues,
    V2.ingest (rt := Sample.rt_low)
      (Sample.body [Sample.item "1" "a";
                    JObject [("id", JString "2"); ("text", JString "b");
                             ("source", JString "forum")]])
      Sample.published
    = (InvalidInput issues, Sample.published)
    /\ status (InvalidInput issues) = 400
    /\ Exists (fun issue =>
                [Zod.Key "feedback"; Zod.Index 1] `prefix_of` Zod.path issue)
             issues.
Proof.
  eapply (item_outside_schema_rejects_the_batch (rt := Sample.rt_low)
            Sample.published _ _ 1).
  - reflexivity.
  - reflexivity.
  - reflexivity.
Defined.



(** ** The handler monad *)

Section BotFacts.
Context {St : Type}.
Import Bot.

Lemma bind_get {A : Type} (k : St -> Handler St A) (t : Turn St) :
  bind get_state k t = k (state t) t.
Proof. reflexivity. Qed.

Lemma bind_put {A : Type} (s : St) (k : unit -> Handler St A) (t : Turn St) :
  bind (put_state s) k t = k tt {| state := s; sent := sent t |}.
Proof. reflexivity. Qed.

Lemma bind_say {A : Type} (m : Outgoing) (k : unit -> Handler St A) (t : Turn St) :
  bind (say m) k t = k tt {| state := state t; sent := sent t ++ [m] |}.
Proof. reflexivity. Qed.

Lemma bind_put_last (s : St) (t : Turn St) :
  put_state s t = (Ok tt, {| state := s; sent := sent t |}).
Proof. reflexivity. Qed.

Lemma bind_ret {A B : Type} (a : A) (k : A -> Handler St B) (t : Turn St) :
  bind (ret a) k t = k a t.
Proof. reflexivity. Qed.

Lemma bind_lift {A B : Type} (r : Res A) (k : A -> Handler St B) (t : Turn St) :
  bind (lift r) k t = match r with Ok a => k a t | Throw => (Throw, t) end.
Proof. now destruct r. Qed.

Lemma bind_assoc {A B C : Type} (m : Handler St A) (k : A -> Handler St B)
  (h : B -> Handler St C) (t : Turn St) :
  bind (bind m k) h t = bind m (fun a => bind (k a) h) t.
Proof. unfold bind. destruct (m t) as [[a|] t']; reflexivity. Qed.

End BotFacts.

(** ** The message handler: dispatch *)

Section DispatchFacts.
Context {rt : Runtime}.
Import Bot.

Lemma prefix_split (p s : string) :
  String.prefix p s = true -> s = p +:+ JsString.drop (String.length p) s.
Proof.
  revert s. induction p as [|a p IH]; intros [|b r]; simpl; try discriminate;
    try reflexivity.
  destruct (ascii_dec a b) as [->|]; [|discriminate].
  intros H. change (String b r = String b (p +:+ JsString.drop (String.length p) r)).
  f_equal. now apply IH.
Qed.

Lemma startsWith_differs (s p q : string) :
  JsString.startsWith s p = true ->
  JsString.startsWith q p = false ->
  String.eqb s q = false.
Proof.
  intros Hs Hq. apply String.eqb_neq. intros ->. congruence.
Qed.

Lemma dispatch_next_insight (act : Activity) :
  V2.lowerText act = "/next_insight" ->
  V2.onMessage act
  = bind (say Typing) (fun _ => V2.next_insight (conversation_id act)).
Proof. intros H. unfold V2.onMessage. rewrite H. reflexivity. Qed.

Lemma dispatch_next_search_result (act : Activity) :
  V2.lowerText act = "/next_search_result" ->
  V2.onMessage act
  = bind (say Typing) (fun _ => V2.next_search_result (conversation_id act)).
Proof. intros H. unfold V2.onMessage. rewrite H. reflexivity. Qed.

Lemma dispatch_search_insights (act : Activity) :
  JsString.startsWith (V2.lowerText act) "/search_insights" = true ->
  V2.onMessage act
  = bind (say Typing)
      (fun _ => V2.search_insights (conversation_id act)
                  (default EmptyString (V2.trimmed act))).
Proof.
  intros H. unfold V2.onMessage.
  rewrite !(startsWith_differs _ _ _ H) by reflexivity.
  rewrite H. reflexivity.
Qed.

Lemma dispatch_fallback (act : Activity) :
  V2.is_command (V2.lowerText act) = false ->
  V2.onMessage act = bind (say Typing) (fun _ => V2.fallback act).
Proof.
  unfold V2.is_command, V2.onMessage. intros H.
  repeat (apply orb_false_iff in H as [H ?]).
  repeat match goal with
         | E : String.eqb _ _ = false |- _ => rewrite E; clear E
         | E : JsString.startsWith _ _ = false |- _ => rewrite E; clear E
         end.
  reflexivity.
Qed.

End DispatchFacts.

(** ** The message handler: paging *)

Section PagingFacts.
Context {rt : Runtime}.
Import Bot.

Lemma next_insight_exhausted (userKey : string) (s : V2.State) (out : list Outgoing) :
  V2.latestAnalysis s <> [] ->
  V2.userToInsightIndex s !! userKey
  = Some (Z.of_nat (length (V2.latestAnalysis s)) - 1) ->
  V2.next_insight userKey {| state := s; sent := out |}
  = (Ok tt,
     {| state := V2.with_cursor userKey 0 s;
        sent := out ++ [Text "No more insights. Type /show_insights to start over."] |}).
Proof.
  intros Hne Hcur. unfold V2.next_insight, bind, get_state. cbn [state].
  destruct (V2.latestAnalysis s) as [|r l] eqn:E; [congruence|].
  rewrite <- E in Hcur |- *.
  rewrite Hcur. cbn [from_option id].
  replace (Z.of_nat (length (V2.latestAnalysis s)) - 1 + 1)
    with (Z.of_nat (length (V2.latestAnalysis s))) by lia.
  rewrite Z.leb_refl. reflexivity.
Qed.

Lemma next_search_result_exhausted
  (userKey : string) (s : V2.State) (out : list Outgoing)
  (ms : list AnalysisResult) (i : nat) :
  V2.userToSearchResults s !! userKey = Some {| V2.matches := ms; V2.idx := i |} ->
  ms <> [] ->
  S i = length ms ->
  V2.next_search_result userKey {| state := s; sent := out |}
  = (Ok tt,
     {| state := V2.with_search (delete userKey) s;
        sent := out ++ [Text "No more search results. Use `/search_insights <keyword>` to search again."] |}).
Proof.
  intros Hs Hne Hlen. unfold V2.next_search_result, bind, get_state. cbn [state].
  rewrite Hs. destruct ms as [|m ms']; [congruence|].
  rewrite Hlen, Nat.leb_refl.
  unfold V2.put_search, bind, get_state, put_state, say. cbn [state sent].
  do 2 f_equal. unfold V2.with_search. cbn. f_equal. apply delete_insert_eq.
Qed.

Lemma next_search_result_inactive
  (userKey : string) (s : V2.State) (out : list Outgoing) :
  V2.userToSearchResults s !! userKey = None ->
  V2.next_search_result userKey {| state := s; sent := out |}
  = (Ok tt,
     {| state := s;
        sent := out ++ [Text "No active search. Use `/search_insights <keyword>` first."] |}).
Proof.
  intros Hs. unfold V2.next_search_result, bind, get_state. cbn [state].
  rewrite Hs. reflexivity.
Qed.

(** C5. At the last index of a batch, [/next_insight] answers "No more
    insights" and sets the cursor to 0.  At the last match of a search,
    [/next_search_result] answers "No more search results" and deletes
    the search of the conversation, so that the same command, sent
    again, answers "No active search". *)
Theorem exhaustion_wraps_paging_and_ends_search (s : V2.State) (act : Activity) :
  (V2.lowerText act = "/next_insight" ->
   V2.latestAnalysis s <> [] ->
   V2.userToInsightIndex s !! conversation_id act
   = Some (Z.of_nat (length (V2.latestAnalysis s)) - 1) ->
   run (V2.onMessage act) s
   = (Ok tt,
      {| state := V2.with_cursor (conversation_id act) 0 s;
         sent := [Typing;
                  Text "No more insights. Type /show_insights to start over."] |})
   /\ V2.userToInsightIndex (V2.with_cursor (conversation_id act) 0 s)
        !! conversation_id act = Some 0)
  /\ (V2.lowerText act = "/next_search_result" ->
      forall (ms : list AnalysisResult) (i : nat),
        V2.userToSearchResults s !! conversation_id act
        = Some {| V2.matches := ms; V2.idx := i |} ->
        ms <> [] ->
        S i = length ms ->
        run (V2.onMessage act) s
        = (Ok tt,
           {| state := V2.with_search (delete (conversation_id act)) s;
              sent := [Typing;
                       Text "No more search results. Use `/search_insights <keyword>` to search again."] |})
        /\ V2.userToSearchResults (V2.with_search (delete (conversation_id act)) s)
             !! conversation_id act = None
        /\ run (V2.onMessage act) (V2.with_search (delete (conversation_id act)) s)
           = (Ok tt,
              {| state := V2.with_search (delete (conversation_id act)) s;
                 sent := [Typing;
                          Text "No active search. Use `/search_insights <keyword>` first."] |})).
Proof.
  split.
  - intros Hcmd Hne Hcur. split.
    + rewrite (dispatch_next_insight act Hcmd). unfold run, bind at 1, say.
      cbn [state sent app]. now rewrite next_insight_exhausted.
    + cbn. apply lookup_insert_eq.
  - intros Hcmd ms i Hs Hne Hlen.
    assert (Hgone : V2.userToSearchResults
                      (V2.with_search (delete (conversation_id act)) s)
                      !! conversation_id act = None)
      by (cbn; apply lookup_delete_eq).
    rewrite (dispatch_next_search_result act Hcmd). unfold run, bind, say.
    cbn [state sent app].
    rewrite (next_search_result_exhausted _ _ _ ms i Hs Hne Hlen).
    rewrite (next_search_result_inactive _ _ _ Hgone).
    repeat split. exact Hgone.
Qed.

(** C6, as the program has it.  [/next_insight] asks for no cursor: a
    conversation without one is read as standing at index 0.  On a batch
    of one result the answer is "No more insights" and the cursor
    becomes 0; on a longer batch the cursor becomes 1 and the card of
    the second result is sent, or the handler stops on the exception of
    a card that cannot be drawn. *)
Theorem next_insight_without_cursor_starts_from_zero (s : V2.State) (act : Activity) :
  V2.lowerText act = "/next_insight" ->
  V2.userToInsightIndex s !! conversation_id act = None ->
  (length (V2.latestAnalysis s) = 1%nat ->
   run (V2.onMessage act) s
   = (Ok tt,
      {| state := V2.with_cursor (conversation_id act) 0 s;
         sent := [Typing;
                  Text "No more insights. Type /show_insights to start over."] |}))
  /\ (forall r,
        V2.latestAnalysis s !! 1%nat = Some r ->
        run (V2.onMessage act) s
        = match analysis_card (analysis r) with
          | Ok c =>
              (Ok tt,
               {| state := V2.with_cursor (conversation_id act) 1 s;
                  sent :=
                    [Typing; Attachment c;
                     if 1 <? Z.of_nat (length (V2.latestAnalysis s)) - 1
                     then Text ("Type /next_insight to see the next insight ("
                                +:+ pretty (Z.of_nat (length (V2.latestAnalysis s)) - 1 - 1)
                                +:+ " more).")
                     else Text "That was the last insight. Type /show_insights to start over."] |})
          | Throw =>
              (Throw,
               {| state := V2.with_cursor (conversation_id act) 1 s;
                  sent := [Typing] |})
          end).
Proof.
  intros Hcmd Hnone. rewrite (dispatch_next_insight act Hcmd).
  unfold run. split.
  - intros Hlen. rewrite bind_say. cbn [state sent app].
    unfold V2.next_insight. rewrite bind_get. cbn [state].
    rewrite Hnone.
    destruct (V2.latestAnalysis s) as [|r l] eqn:E; [discriminate|].
    rewrite <- E in Hlen |- *.
    rewrite Hlen. reflexivity.
  - intros r Hr.
    assert (Hlen : (2 <= length (V2.latestAnalysis s))%nat)
      by (apply lookup_lt_Some in Hr; lia).
    rewrite bind_say. cbn [state sent app].
    unfold V2.next_insight. rewrite bind_get. cbn [state].
    rewrite Hnone.
    destruct (V2.latestAnalysis s) as [|r0 l] eqn:E; [discriminate|].
    rewrite <- E in Hr, Hlen |- *.
    cbn [from_option id]. change (0 + 1) with 1.
    destruct (Z.leb_spec (Z.of_nat (length (V2.latestAnalysis s))) 1) as [Hle|_];
      [lia|].
    unfold V2.set_index, V2.send_card, bind, get_state, put_state, lift, say.
    cbn [state sent]. unfold V2.at_index.
    change (1 <? 0) with false. change (Z.to_nat 1) with 1%nat. cbv iota.
    cbn [V2.latestAnalysis V2.with_cursor]. rewrite Hr.
    unfold V2.createFeedbackAnalysisCard.
    destruct (analysis_card (analysis r)) as [c|]; [|reflexivity].
    now destruct (1 <? Z.of_nat (length (V2.latestAnalysis s)) - 1).
Qed.

End PagingFacts.

(** ** The message handler: free text *)

Section FallbackFacts.
Context {rt : Runtime}.
Import Bot.

Lemma fallback_run (act : Activity) (s : V2.State) (out : list Outgoing) :
  exists s',
    V2.fallback act {| state := s; sent := out |}
    = (Ok tt, {| state := s'; sent := out ++ [V2.echo act] |})
    /\ V2.world s' = V2.world s
    /\ V2.latestAnalysis s' = V2.latestAnalysis s
    /\ V2.userToInsightIndex s' = V2.userToInsightIndex s
    /\ V2.userToSearchResults s' = V2.userToSearchResults s.
Proof.
  unfold V2.fallback. rewrite bind_say, bind_get. cbn [state sent].
  destruct (from_aadObjectId act) as [[|c user]|];
    try (exists s; repeat split; reflexivity).
  destruct (non_empty (conversation_id act)
            && negb (bool_decide
                       (is_Some (V2.userToConversationId s !! String c user))));
    cbn [when_].
  - eexists. split; [reflexivity|]. repeat split.
  - exists s. repeat split.
Qed.

(** C9, as the program has it.  A text that none of the [if] statements
    of the handler takes is answered with the echo and the list of
    commands: the model is not called, and the results, the cursors and
    the searches stay as they were.  It is the handler of the first
    revision that sends such a text (any text but "hello" and
    "/show_insights") to the model as general conversation. *)
Theorem unrecognised_text_is_echoed (s : V2.State) (act : Activity) :
  V2.is_command (V2.lowerText act) = false ->
  (exists s',
     run (V2.onMessage act) s
     = (Ok tt, {| state := s'; sent := [Typing; V2.echo act] |})
     /\ calls (V2.world s') = calls (V2.world s)
     /\ V2.latestAnalysis s' = V2.latestAnalysis s
     /\ V2.userToInsightIndex s' = V2.userToInsightIndex s
     /\ V2.userToSearchResults s' = V2.userToSearchResults s)
  /\ (forall s1 : V1.State,
        V1.lowered act <> Some "hello" ->
        V1.lowered act <> Some "/show_insights" ->
        exists t',
          run (V1.onMessage act) s1 = (Ok tt, t')
          /\ calls (V1.world (state t'))
             = calls (V1.world s1) ++ [V1.converse_prompt act]
          /\ V1.latestAnalysis (state t') = V1.latestAnalysis s1).
Proof.
  intros Hcmd. split.
  - rewrite (dispatch_fallback act Hcmd). unfold run. rewrite bind_say.
    cbn [state sent app].
    destruct (fallback_run act s [Typing]) as (s' & -> & Hw & Hl & Hi & Hs).
    exists s'. rewrite Hw. repeat split; assumption.
  - intros s1 Hhello Hshow. unfold run, V1.onMessage. rewrite bind_say.
    cbn [state sent app].
    assert (Hbranch :
      match V1.lowered act with
      | Some t =>
          if String.eqb t "hello" then
            bind (say (Text "Hello! I am your Community Insider Bot. Type `/show_insights` to see recent feedback analysis."))
              (fun _ => ret true)
          else if String.eqb t "/show_insights" then V1.show_insights
          else bind (V1.converse act) (fun _ => ret true)
      | None => bind (V1.converse act) (fun _ => ret true)
      end = bind (V1.converse act) (fun _ => ret true)).
    { destruct (V1.lowered act) as [t|]; [|reflexivity].
      destruct (String.eqb t "hello") eqn:E1;
        [apply String.eqb_eq in E1; congruence|].
      destruct (String.eqb t "/show_insights") eqn:E2;
        [apply String.eqb_eq in E2; congruence|].
      reflexivity. }
    rewrite Hbranch. clear Hbranch.
    unfold V1.converse, V1.ask, V1.remember, send, bind, get_state,
      put_state, say, ret, when_.
    cbn [state sent].
    destruct (model_reply (calls (V1.world s1)) (V1.converse_prompt act))
      as [[[|c content]|]|reason]; cbn [state sent];
      destruct (from_aadObjectId act) as [[|c' user]|];
      try (eexists; repeat split; reflexivity);
      match goal with
      | |- context [if ?b then _ else _] => destruct b
      end; eexists; repeat split; reflexivity.
Qed.

End FallbackFacts.

(** ** The message handler: search *)

Section SearchFacts.
Context {rt : Runtime}.
Import Bot.

Lemma is_match_not_failure (keyword : string) (r : AnalysisResult) :
  V2.is_match keyword r = Ok true -> Spec.is_failure r = Ok false.
Proof.
  unfold V2.is_match, Spec.is_failure.
  destruct (JsValue.has "error" (analysis r)) as [[|]|]; simpl;
    try discriminate; reflexivity.
Qed.

(** The filter keeps results of the batch, none of them a failure. *)
Lemma filter_matches_sound (keyword : string) (l : list AnalysisResult) :
  forall ms,
    V2.filter_matches keyword l = Ok ms ->
    Forall (fun m => m ∈ l /\ Spec.is_failure m = Ok false) ms.
Proof.
  induction l as [|r l IH]; intros ms H; cbn [V2.filter_matches] in H.
  - injection H as <-. constructor.
  - destruct (V2.is_match keyword r) as [b|] eqn:Hm; [|discriminate].
    destruct (V2.filter_matches keyword l) as [ms'|]; [|discriminate].
    cbn [res_bind] in H. injection H as <-.
    assert (Htail : Forall (fun m => m ∈ r :: l /\ Spec.is_failure m = Ok false) ms').
    { eapply Forall_impl; [exact (IH _ eq_refl)|].
      intros m [Hin Hf]. split; [now apply list_elem_of_further | exact Hf]. }
    destruct b; [|exact Htail].
    constructor; [|exact Htail].
    split; [apply list_elem_of_here | exact (is_match_not_failure _ _ Hm)].
Qed.

(** In a list of distinct objects, [indexOf] of the object at position
    [i] is [i]. *)
Lemma indexOf_from_position (l : list AnalysisResult) :
  forall (i : nat) (m : AnalysisResult) (k : Z),
    NoDup (ref <$> l) ->
    l !! i = Some m ->
    V2.indexOf_from l m k = k + Z.of_nat i.
Proof.
  induction l as [|x l IH]; intros i m k Hnd Hi; [discriminate|].
  cbn [V2.indexOf_from]. rewrite fmap_cons in Hnd.
  apply NoDup_cons in Hnd as [Hx Hnd].
  destruct i as [|i].
  - injection Hi as ->. rewrite Nat.eqb_refl. lia.
  - cbn in Hi. destruct (Nat.eqb_spec (ref x) (ref m)) as [E|_].
    + exfalso. apply Hx. rewrite E.
      apply list_elem_of_fmap_2. eapply list_elem_of_lookup_2, Hi.
    + rewrite (IH i m (k + 1) Hnd Hi). lia.
Qed.

Lemma indexOf_position (l : list AnalysisResult) (m : AnalysisResult) :
  NoDup (ref <$> l) ->
  m ∈ l ->
  exists i : nat, V2.indexOf l m = Z.of_nat i /\ l !! i = Some m.
Proof.
  intros Hnd Hin. apply list_elem_of_lookup_1 in Hin as [i Hi].
  exists i. split; [|exact Hi].
  unfold V2.indexOf. now rewrite (indexOf_from_position l i m 0 Hnd Hi).
Qed.

(** What [/search_insights] leaves in the state. *)
Lemma search_insights_effect
  (userKey text : string) (t t' : Turn V2.State) (res : Res unit) :
  V2.search_insights userKey text t = (res, t') ->
  V2.userToSearchResults (state t') = V2.userToSearchResults (state t)
  \/ exists keyword first rest,
       V2.filter_matches keyword (V2.latestAnalysis (state t)) = Ok (first :: rest)
       /\ V2.userToSearchResults (state t')
          = <[userKey := {| V2.matches := first :: rest; V2.idx := 0 |}]>
              (V2.userToSearchResults (state t))
       /\ (res = Ok tt ->
           V2.userToInsightIndex (state t') !! userKey
           = Some (V2.indexOf (V2.latestAnalysis (state t)) first)).
Proof.
  unfold V2.search_insights.
  destruct (JsString.toLowerCase _) as [|c kw] eqn:Hkw.
  { intros H. injection H as _ <-. now left. }
  rewrite bind_get.
  destruct (V2.latestAnalysis (state t)) as [|r0 l0] eqn:El.
  { intros H. injection H as _ <-. now left. }
  rewrite <- El. rewrite bind_lift.
  destruct (V2.filter_matches (String c kw) (V2.latestAnalysis (state t)))
    as [[|first rest]|] eqn:Hf.
  - intros H. injection H as _ <-. now left.
  - intros H. right. exists (String c kw), first, rest.
    split; [exact Hf|].
    unfold V2.put_search, V2.send_card, V2.createFeedbackAnalysisCard,
      V2.send_digest, V2.set_index in H.
    rewrite bind_assoc, bind_get, bind_put in H. cbn [state sent] in H.
    rewrite bind_assoc, bind_lift in H.
    destruct (analysis_card (analysis first)) as [card|];
      [|injection H as <- <-; split; [reflexivity | discriminate]].
    rewrite bind_say in H. cbn [state sent] in H.
    rewrite bind_assoc, bind_lift in H.
    destruct (digest (analysis first)) as [d|];
      [|injection H as <- <-; split; [reflexivity | discriminate]].
    assert (Hend : forall out,
      bind get_state (fun s => put_state (V2.with_cursor userKey
            (V2.indexOf (V2.latestAnalysis (state t)) first) s))
        {| state := V2.with_search
                      (insert userKey {| V2.matches := first :: rest; V2.idx := 0 |})
                      (state t);
           sent := out |} = (res, t') ->
      V2.userToSearchResults (state t')
      = <[userKey := {| V2.matches := first :: rest; V2.idx := 0 |}]>
          (V2.userToSearchResults (state t))
      /\ (res = Ok tt ->
          V2.userToInsightIndex (state t') !! userKey
          = Some (V2.indexOf (V2.latestAnalysis (state t)) first))).
    { intros out Hrun. rewrite bind_get, bind_put_last in Hrun.
      injection Hrun as <- <-. cbn. split; [reflexivity|].
      intros _. apply lookup_insert_eq. }
    destruct d as [m|]; [rewrite bind_say in H | rewrite bind_ret in H];
      cbn [state sent] in H;
      (destruct (1 <? length (first :: rest))%nat; cbn [when_] in H;
       [rewrite bind_say in H | rewrite bind_ret in H]; cbn [state sent] in H;
       exact (Hend _ H)).
  - intros H. injection H as _ <-. now left.
Qed.

Lemma object_schema_success (a : JSON) (o : AnalysisOutcome) :
  Zod.AnalysisObjectSchema a = Some o -> exists pts s pr, o = Success pts s pr.
Proof.
  destruct a as [| | | | |ms]; try discriminate. cbn [Zod.AnalysisObjectSchema].
  destruct (JsValue.own "painPoints" ms) as [[| | | |xs|]|]; try discriminate.
  destruct (JsValue.own "summary" ms) as [[| | |s'| |]|]; try discriminate.
  destruct (Zod.priority_of (JsValue.own "priority" ms)) as [pr'|]; [|discriminate].
  destruct (Zod.strings_of xs) as [pts'|]; [|discriminate].
  intros [= <-]. eauto.
Qed.

Lemma error_schema_failure (a : JSON) (o : AnalysisOutcome) :
  Zod.AnalysisErrorSchema a = Some o -> JsValue.has "error" a = Ok true.
Proof.
  destruct a as [| | | | |ms]; try discriminate.
  cbn [Zod.AnalysisErrorSchema JsValue.has].
  destruct (JsValue.own "error" ms) as [v|]; [|discriminate].
  intros _. reflexivity.
Qed.

Lemma accepted_cases (a : JSON) :
  accepted_analysis a ->
  (exists pts s pr, Zod.AnalysisObjectSchema a = Some (Success pts s pr))
  \/ JsValue.has "error" a = Ok true.
Proof.
  intros [H|H].
  - destruct (Zod.AnalysisObjectSchema a) as [o|] eqn:E; [|congruence].
    destruct (object_schema_success a o E) as (pts & s & pr & ->). left. eauto.
  - destruct (Zod.AnalysisErrorSchema a) as [o|] eqn:E; [|congruence].
    right. exact (error_schema_failure a o E).
Qed.

(** C4, as the program has it.  After [/search_insights], the search of
    the conversation is the one it had before (no keyword, no result
    published, no match, or an exception in the filter) or a new one.
    Every match of a new one is a result of the batch, at the index that
    [indexOf] gives, whose analysis has no [error]: no Failure is ever
    among the matches.  The matches are Successes, analyses that the
    object schema accepts, when every published analysis passed the
    output schema; the filter itself never looks at the shape.  The
    cursor, when the handler completes, is the index of the first
    match. *)
Theorem search_returns_no_failure_and_successes_of_a_valid_batch
  (s : V2.State) (act : Activity) (res : Res unit) (t' : Turn V2.State) :
  JsString.startsWith (V2.lowerText act) "/search_insights" = true ->
  NoDup (ref <$> V2.latestAnalysis s) ->
  run (V2.onMessage act) s = (res, t') ->
  V2.userToSearchResults (state t') = V2.userToSearchResults s
  \/ exists first rest,
       V2.userToSearchResults (state t')
       = <[conversation_id act := {| V2.matches := first :: rest; V2.idx := 0 |}]>
           (V2.userToSearchResults s)
       /\ Forall (fun m =>
                    exists i : nat,
                      V2.indexOf (V2.latestAnalysis s) m = Z.of_nat i
                      /\ V2.latestAnalysis s !! i = Some m
                      /\ Spec.is_failure m = Ok false)
                 (first :: rest)
       /\ (Forall (fun r => accepted_analysis (analysis r)) (V2.latestAnalysis s) ->
           Forall (fun m =>
                     exists pts summary pr,
                       Zod.AnalysisObjectSchema (analysis m)
                       = Some (Success pts summary pr))
                  (first :: rest))
       /\ (res = Ok tt ->
           V2.userToInsightIndex (state t') !! conversation_id act
           = Some (V2.indexOf (V2.latestAnalysis s) first)).
Proof.
  intros Hcmd Hnd H. rewrite (dispatch_search_insights act Hcmd) in H.
  unfold run in H. rewrite bind_say in H. cbn [state sent app] in H.
  apply search_insights_effect in H. cbn [state] in H.
  destruct H as [H|(keyword & first & rest & Hf & Hs & Hc)]; [now left|].
  right. exists first, rest. split; [exact Hs|].
  pose proof (filter_matches_sound _ _ _ Hf) as Hsound.
  split; [|split; [|exact Hc]].
  - eapply Forall_impl; [exact Hsound|].
    intros m [Hin Hok].
    destruct (indexOf_position _ m Hnd Hin) as (i & Hi & Hl).
    exists i. auto.
  - intros Hall. eapply Forall_impl; [exact Hsound|].
    intros m [Hin Hok]. rewrite Forall_forall in Hall.
    destruct (accepted_cases _ (Hall m Hin)) as [Hobj|Herr]; [exact Hobj|].
    unfold Spec.is_failure in Hok. congruence.
Qed.

End SearchFacts.

(** ** Invariant: the published results are distinct objects *)

Section Reachable.
Context {rt : Runtime}.
Import Bot.

Lemma analyzeItem_refs (item : FeedbackItem) (acc : list AnalysisResult) (w : World) :
  exists n : nat,
    ref <$> fst (analyzeItem (acc, w) item) = (ref <$> acc) ++ seq (next_ref w) n
    /\ next_ref (snd (analyzeItem (acc, w) item)) = (next_ref w + n)%nat.
Proof.
  unfold analyzeItem, send.
  destruct (model_reply (calls w) (analysis_prompt item)) as [[[|c r]|]|reason].
  1,3,4: exists 1%nat; cbn; rewrite fmap_app; split; [reflexivity | lia].
  destruct (JSON_parse (jsonString (String c r))) as [v|].
  - destruct (log_priority_throws v).
    + exists 2%nat. cbn. rewrite !fmap_app, <- app_assoc.
      split; [reflexivity | lia].
    + exists 1%nat. cbn. rewrite fmap_app. split; [reflexivity | lia].
  - exists 1%nat. cbn. rewrite fmap_app. split; [reflexivity | lia].
Qed.

Lemma handler_refs (feedback : list FeedbackItem) :
  forall (acc : list AnalysisResult) (w : World),
  exists n : nat,
    ref <$> fst (fold_left analyzeItem feedback (acc, w))
    = (ref <$> acc) ++ seq (next_ref w) n.
Proof.
  induction feedback as [|item rest IH]; intros acc w.
  - exists 0%nat. cbn. now rewrite app_nil_r.
  - cbn [fold_left].
    destruct (analyzeItem_refs item acc w) as (n & Hn & Hw).
    destruct (analyzeItem (acc, w) item) as [acc' w']. cbn [fst snd] in Hn, Hw.
    destruct (IH acc' w') as (n' & Hn').
    exists (n + n')%nat. rewrite Hn', Hn, Hw, <- app_assoc.
    f_equal. symmetry. apply seq_app.
Qed.

Lemma ingest_refs_distinct (body : JSON) (s : V2.State) :
  NoDup (ref <$> V2.latestAnalysis s) ->
  NoDup (ref <$> V2.latestAnalysis (snd (V2.ingest body s))).
Proof.
  intros Hnd.
  destruct (Zod.AnalyzeFeedbackInputSchema body) as [issues|feedback] eqn:Hin.
  - now rewrite (ingest_rejected _ _ _ Hin).
  - rewrite (ingest_accepted _ _ _ Hin). cbn [snd V2.latestAnalysis].
    unfold analyzeFeedbackToolHandler.
    destruct (handler_refs feedback [] (V2.world s)) as (n & ->).
    apply NoDup_seq.
Qed.

Lemma keeps_ret {A : Type} (a : A) : V2.keeps_results (ret a).
Proof. intros t. reflexivity. Qed.

Lemma keeps_say (m : Outgoing) : V2.keeps_results (say m).
Proof. intros t. reflexivity. Qed.

Lemma keeps_lift {A : Type} (r : Res A) : V2.keeps_results (lift r).
Proof. intros t. reflexivity. Qed.

Lemma keeps_get : V2.keeps_results get_state.
Proof. intros t. reflexivity. Qed.

Lemma keeps_bind {A B : Type} (m : Handler V2.State A) (k : A -> Handler V2.State B) :
  V2.keeps_results m -> (forall a, V2.keeps_results (k a)) ->
  V2.keeps_results (bind m k).
Proof.
  intros Hm Hk t. unfold bind. specialize (Hm t).
  destruct (m t) as [[a|] t1]; cbn [snd] in Hm |- *; [|exact Hm].
  now rewrite (Hk a t1).
Qed.

Lemma keeps_when (b : bool) (m : Handler V2.State unit) :
  V2.keeps_results m -> V2.keeps_results (when_ b m).
Proof. destruct b; [auto | intros _; apply keeps_ret]. Qed.

Lemma keeps_set_index (userKey : string) (i : Z) :
  V2.keeps_results (V2.set_index userKey i).
Proof. intros t. reflexivity. Qed.

Lemma keeps_put_search (f : gmap string V2.Search -> gmap string V2.Search) :
  V2.keeps_results (V2.put_search f).
Proof. intros t. reflexivity. Qed.

Lemma keeps_ask (p : PromptCall) : V2.keeps_results (V2.ask p).
Proof. intros t. reflexivity. Qed.

Lemma keeps_fallback (act : Activity) : V2.keeps_results (V2.fallback act).
Proof.
  intros [s out]. destruct (fallback_run act s out) as (s' & -> & _ & Hl & _).
  exact Hl.
Qed.

Create HintDb keeps discriminated.
Hint Resolve keeps_ret keeps_say keeps_lift keeps_get keeps_when keeps_set_index
  keeps_put_search keeps_ask keeps_fallback : keeps.

Ltac keeps :=
  repeat first
    [ progress auto with keeps
    | apply keeps_bind; [|intros ?]
    | apply keeps_when
    | match goal with
      | |- V2.keeps_results (match ?x with _ => _ end) => destruct x
      | |- V2.keeps_results (let '(_, _) := ?x in _) => destruct x
      end ].

Lemma keeps_onMessage (act : Activity) : V2.keeps_results (V2.onMessage act).
Proof.
  unfold V2.onMessage, V2.latest_insight, V2.search_insights,
    V2.next_search_result, V2.ask_about_current, V2.show_insights,
    V2.next_insight, V2.send_card, V2.send_digest.
  keeps.
Qed.

(** Whatever the history, the results held by [latestAnalysis] are
    distinct objects. *)
Lemma replay_refs_distinct (history : list V2.Event) :
  NoDup (ref <$> V2.latestAnalysis (V2.replay history)).
Proof.
  unfold V2.replay.
  assert (H0 : NoDup (ref <$> V2.latestAnalysis V2.initial)) by constructor.
  revert H0. generalize V2.initial as s.
  induction history as [|e history IH]; intros s Hs; [exact Hs|].
  cbn [fold_left]. apply IH. destruct e as [body|act]; cbn [V2.step].
  - now apply ingest_refs_distinct.
  - unfold run. now rewrite keeps_onMessage.
Qed.

End Reachable.

(** ** The navigation properties on the sample conversations *)

(** C4 as the claim has it fails: after a batch that the output schema
    refused (answer 500), the search for "docs" matches and stores the
    result whose priority is urgent, which neither analysis schema
    accepts: a match that is no Success. *)
Lemma search_matches_a_result_that_is_no_success :
  status (fst (V2.ingest (rt := Sample.rt_urgent) Sample.body1 V2.initial)) = 500
  /\ exists r,
       V2.userToSearchResults
         (V2.step (rt := Sample.rt_urgent)
            (snd (V2.ingest (rt := Sample.rt_urgent) Sample.body1 V2.initial))
            (V2.Message (Sample.activity "c1" "/search_insights docs"))) !! "c1"
       = Some {| V2.matches := [r]; V2.idx := 0 |}
       /\ JsValue.get (analysis r) "priority" = Ok (Some (JString "urgent"))
       /\ Spec.is_failure r = Ok false
       /\ Zod.AnalysisObjectSchema (analysis r) = None
       /\ Zod.AnalysisErrorSchema (analysis r) = None.
Proof. split; [reflexivity|]. eexists. repeat split. Qed.

(** C4 as the program has it, on the search for "o" in the batch of three
    results, which passed the output schema: a new search is stored, its
    matches are the first and the third result, both Successes; the
    second, a failure, is not among them; the cursor is on the first. *)
Lemma search_witness :
  V2.userToSearchResults (Sample.after "/search_insights o" Sample.published) !! "c1"
  = Some {| V2.matches := Cases.matches_o; V2.idx := 0 |}
  /\ map ref Cases.matches_o = [0%nat; 2%nat]
  /\ Forall (fun m =>
               exists i : nat,
                 V2.indexOf (V2.latestAnalysis Sample.published) m = Z.of_nat i
                 /\ V2.latestAnalysis Sample.published !! i = Some m
                 /\ Spec.is_failure m = Ok false)
       Cases.matches_o
  /\ Forall (fun m =>
               exists pts summary pr,
                 Zod.AnalysisObjectSchema (analysis m) = Some (Success pts summary pr))
       Cases.matches_o
  /\ V2.userToInsightIndex (Sample.after "/search_insights o" Sample.published) !! "c1"
     = Some 0.
Proof.
  assert (Hnd : NoDup (ref <$> V2.latestAnalysis Sample.published))
    by (refine (bool_decide_unpack _ _); vm_compute; exact I).
  assert (Hacc : Forall (fun r => accepted_analysis (analysis r))
                   (V2.latestAnalysis Sample.published)).
  { constructor; [left; discriminate|].
    constructor; [right; discriminate|].
    constructor; [left; discriminate|]. constructor. }
  destruct (search_returns_no_failure_and_successes_of_a_valid_batch
              (rt := Sample.rt_batch) Sample.published
              (Sample.activity "c1" "/search_insights o") (Ok tt) _
              eq_refl Hnd eq_refl)
    as [H|(first & rest & Hs & Hall & Hsucc & Hc)].
  - exfalso. apply (f_equal (fun m => m !! "c1")) in H. discriminate H.
  - apply (f_equal (fun m => m !! "c1")) in Hs. rewrite lookup_insert_eq in Hs.
    injection Hs as Hfirst Hrest. subst first rest.
    split; [reflexivity|]. split; [reflexivity|]. split; [exact Hall|].
    split; [exact (Hsucc Hacc) | exact (Hc eq_refl)].
Defined.

(** C5, on the conversation that looks at the last result and on the one
    that stands on the last match of its search. *)
Lemma exhaustion_witness :
  Bot.run (V2.onMessage (rt := Sample.rt_batch) (Sample.activity "c1" "/next_insight"))
    Sample.viewing_last
  = (Ok tt,
     {| Bot.state := V2.with_cursor "c1" 0 Sample.viewing_last;
        Bot.sent := [Typing;
                     Text "No more insights. Type /show_insights to start over."] |})
  /\ Bot.run (V2.onMessage (rt := Sample.rt_batch)
                (Sample.activity "c1" "/next_search_result"))
       Sample.searching
     = (Ok tt,
        {| Bot.state := V2.with_search (delete "c1") Sample.searching;
           Bot.sent := [Typing;
                        Text "No more search results. Use `/search_insights <keyword>` to search again."] |})
  /\ Bot.run (V2.onMessage (rt := Sample.rt_batch)
                (Sample.activity "c1" "/next_search_result"))
       (V2.with_search (delete "c1") Sample.searching)
     = (Ok tt,
        {| Bot.state := V2.with_search (delete "c1") Sample.searching;
           Bot.sent := [Typing;
                        Text "No active search. Use `/search_insights <keyword>` first."] |}).
Proof.
  split.
  - apply (proj1 (exhaustion_wraps_paging_and_ends_search (rt := Sample.rt_batch)
                    Sample.viewing_last (Sample.activity "c1" "/next_insight"))).
    + reflexivity.
    + discriminate.
    + reflexivity.
  - edestruct (proj2 (exhaustion_wraps_paging_and_ends_search (rt := Sample.rt_batch)
                        Sample.searching
                        (Sample.activity "c1" "/next_search_result")))
      as (H1 & _ & H3).
    + reflexivity.
    + reflexivity.
    + discriminate.
    + reflexivity.
    + split; [exact H1 | exact H3].
Defined.

(** C6 as stated fails: a conversation without a cursor, on a batch of two
    results, is shown the second result. *)
Lemma next_insight_without_cursor_shows_a_result :
  V2.userToInsightIndex Sample.published2 !! "c1" = None
  /\ Bot.run (V2.onMessage (rt := Sample.rt_pair) (Sample.activity "c1" "/next_insight"))
       Sample.published2
     = (Ok tt,
        {| Bot.state := V2.with_cursor "c1" 1 Sample.published2;
           Bot.sent :=
             [Typing;
              Attachment (AnalysisCard "low" "Good" (Some (JString "Docs are thin")) None);
              Text "That was the last insight. Type /show_insights to start over."] |}).
Proof. split; reflexivity. Qed.

(** C6 as the program has it, on the same conversation. *)
Lemma next_insight_without_cursor_witness :
  V2.userToInsightIndex
    (Bot.state
       (snd (Bot.run (V2.onMessage (rt := Sample.rt_pair)
                        (Sample.activity "c1" "/next_insight"))
               Sample.published2))) !! "c1"
  = Some 1.
Proof.
  edestruct (next_insight_without_cursor_starts_from_zero (rt := Sample.rt_pair)
               Sample.published2 (Sample.activity "c1" "/next_insight"))
    as [_ H].
  - reflexivity.
  - reflexivity.
  - erewrite H by reflexivity. reflexivity.
Defined.

(** C9 as stated fails: a free text is answered with the echo, and the
    model receives no call. *)
Lemma free_text_is_not_sent_to_the_model :
  V2.is_command (V2.lowerText (Sample.activity "c1" "How are the docs?")) = false
  /\ Bot.sent
       (snd (Bot.run (V2.onMessage (rt := Sample.rt_next (Replied (Some "Fine.")))
                        (Sample.activity "c1" "How are the docs?"))
               Sample.published))
     = [Typing; V2.echo (Sample.activity "c1" "How are the docs?")]
  /\ calls
       (V2.world
          (Bot.state
             (snd (Bot.run (V2.onMessage (rt := Sample.rt_next (Replied (Some "Fine.")))
                              (Sample.activity "c1" "How are the docs?"))
                     Sample.published))))
     = calls (V2.world Sample.published).
Proof. repeat split. Qed.

(** C9 as the program has it, on the same text, for both revisions. *)
Lemma unrecognised_text_witness :
  (exists s',
     Bot.run (V2.onMessage (rt := Sample.rt_next (Replied (Some "Fine.")))
                (Sample.activity "c1" "How are the docs?"))
       Sample.published
     = (Ok tt,
        {| Bot.state := s';
           Bot.sent := [Typing; V2.echo (Sample.activity "c1" "How are the docs?")] |})
     /\ calls (V2.world s') = calls (V2.world Sample.published)
     /\ V2.latestAnalysis s' = V2.latestAnalysis Sample.published
     /\ V2.userToInsightIndex s' = V2.userToInsightIndex Sample.published
     /\ V2.userToSearchResults s' = V2.userToSearchResults Sample.published)
  /\ (exists t',
        Bot.run (V1.onMessage (rt := Sample.runtime [Replied (Some "Fine.")])
                   (Sample.activity "c1" "How are the docs?"))
          V1.initial
        = (Ok tt, t')
        /\ calls (V1.world (Bot.state t'))
           = calls (V1.world V1.initial)
             ++ [V1.converse_prompt (Sample.activity "c1" "How are the docs?")]
        /\ V1.latestAnalysis (Bot.state t') = V1.latestAnalysis V1.initial).
Proof.
  split.
  - apply (proj1 (unrecognised_text_is_echoed
                    (rt := Sample.rt_next (Replied (Some "Fine.")))
                    Sample.published
                    (Sample.activity "c1" "How are the docs?") eq_refl)).
  - apply (proj2 (unrecognised_text_is_echoed
                    (rt := Sample.runtime [Replied (Some "Fine.")])
                    Sample.published
                    (Sample.activity "c1" "How are the docs?") eq_refl)).
    + discriminate.
    + discriminate.
Defined.

(** ** The scenarios of the specification, run on the model *)

(** Scenario A: three items, the second reply is not JSON. *)
Example scenario_A :
  map (fun r => (originalId r, Spec.is_failure r, JsValue.get (analysis r) "error"))
      (V2.latestAnalysis Sample.published)
  = [("1", Ok false, Ok None);
     ("2", Ok true, Ok (Some (JString "AI output not valid JSON")));
     ("3", Ok false, Ok None)].
Proof. reflexivity. Qed.

(** Scenario B: [/search_insights] without a keyword. *)
Example scenario_B :
  Sample.observe (Sample.says_to Sample.rt_batch "/search_insights" Sample.published)
  = (Ok tt,
     [Typing; Text "Please provide a keyword to search. Example: `/search_insights bot`"],
     None, None).
Proof. reflexivity. Qed.

(** Scenario C: one result, [/show_insights] then [/next_insight]. *)
Example scenario_C :
  Sample.observe
    (Sample.says_to Sample.rt_low "/next_insight"
       (Bot.state (snd (Sample.says_to Sample.rt_low "/show_insights" Sample.published1))))
  = (Ok tt,
     [Typing; Text "No more insights. Type /show_insights to start over."],
     Some 0, None).
Proof. reflexivity. Qed.

(** Scenario D: a search with two matches, then [/next_search_result]
    three times. *)
Example scenario_D :
  Sample.observe (Sample.says_to Sample.rt_batch "/search_insights o" Sample.published)
  = (Ok tt,
     [Typing;
      Attachment (AnalysisCard "high" "Attention"
                    (Some (JString "The bot fails on start"))
                    (Some [JString "Bot crashes"]));
      Digest (Some (JString "The bot fails on start")) "high"
        (Some [JString "Bot crashes"]);
      Text "Found 2 results. Type /next_search_result to see the next match."],
     Some 0, Some ([0%nat; 2%nat], 0%nat))
  /\ Sample.observe (Sample.says_to Sample.rt_batch "/next_search_result"
                       (Sample.after "/search_insights o" Sample.published))
     = (Ok tt,
        [Typing;
         Attachment (AnalysisCard "low" "Good" (Some (JString "Docs are thin")) None);
         Digest (Some (JString "Docs are thin")) "low" None;
         Text "That was the last search result."],
        Some 2, Some ([0%nat; 2%nat], 1%nat))
  /\ Sample.observe (Sample.says_to Sample.rt_batch "/next_search_result" Sample.searching)
     = (Ok tt,
        [Typing;
         Text "No more search results. Use `/search_insights <keyword>` to search again."],
        Some 2, None).
Proof. repeat split. Qed.

(** Scenario E: [/ask_about_current] before any card was shown. *)
Example scenario_E :
  Sample.observe
    (Sample.says_to Sample.rt_batch "/ask_about_current what is it?" Sample.published)
  = (Ok tt,
     [Typing;
      Text "No current insight selected. Use `/show_insights`, `/latest_insight`, or `/search_insights <keyword>` first."],
     None, None).
Proof. reflexivity. Qed.

(** A card of this revision cannot be drawn for a failure: the handler of
    [/next_insight] stops on the exception, after it has moved the cursor. *)
Example failure_card_raises :
  Sample.observe (Sample.says_to Sample.rt_batch "/next_insight" Sample.published)
  = (Throw, [Typing], Some 1, None).
Proof. reflexivity. Qed.

(** [JSON.parse] on the sample reader. *)
Example json_parse_samples :
  JsonParser.json_parse (JsonParser.quoted " {'a': [1, -0.5e+3, true, null], 'a': {}} ")
  = Some (JObject [("a", JObject [])])
  /\ JsonParser.json_parse "[01]" = None
  /\ JsonParser.json_parse "1." = None
  /\ JsonParser.json_parse "null" = Some JNull
  /\ JsonParser.json_parse "nul" = None
  /\ JsonParser.json_parse (JsonParser.quoted "['\u0041\n', -1.5E-2]")
     = Some (JArray [JString ("A" +:+ nl); JNumber "-1.5E-2"]).
Proof. repeat split. Qed.


(** * Further properties of the program *)

(** ** The analysis handler: what a batch gives *)

Section HandlerFacts.
Context {rt : Runtime}.

Lemma analyzeItem_group (item : FeedbackItem) (acc : list AnalysisResult) (w : World) :
  exists g : list AnalysisResult,
    fst (analyzeItem (acc, w) item) = acc ++ g
    /\ (1 <= length g <= 2)%nat
    /\ Forall (from_item item) g
    /\ calls (snd (analyzeItem (acc, w) item)) = calls w ++ [analysis_prompt item].
Proof.
  unfold analyzeItem, send.
  destruct (model_reply (calls w) (analysis_prompt item)) as [[[|c r]|]|reason].
  1,3,4: eexists [_]; cbn; repeat split; try lia; repeat constructor.
  destruct (JSON_parse (jsonString (String c r))) as [v|].
  - destruct (log_priority_throws v).
    + eexists [_; _]. cbn. rewrite <- app_assoc.
      repeat split; try lia; repeat constructor.
    + eexists [_]. cbn. repeat split; try lia; repeat constructor.
  - eexists [_]. cbn. repeat split; try lia; repeat constructor.
Qed.

Lemma handler_groups (feedback : list FeedbackItem) :
  forall (acc : list AnalysisResult) (w : World),
  exists groups : list (list AnalysisResult),
    fst (fold_left analyzeItem feedback (acc, w)) = acc ++ concat groups
    /\ Forall2 (fun item g => (1 <= length g <= 2)%nat /\ Forall (from_item item) g)
         feedback groups
    /\ calls (snd (fold_left analyzeItem feedback (acc, w)))
       = calls w ++ map analysis_prompt feedback.
Proof.
  induction feedback as [|item rest IH]; intros acc w.
  - exists []. cbn. rewrite !app_nil_r. repeat split. constructor.
  - cbn [fold_left].
    destruct (analyzeItem_group item acc w) as (g & Hg & Hlen & Hfrom & Hcalls).
    destruct (analyzeItem (acc, w) item) as [acc' w']. cbn [fst snd] in Hg, Hcalls.
    destruct (IH acc' w') as (groups & Hgs & Hall & Hcs).
    exists (g :: groups). rewrite Hgs, Hcs, Hg, Hcalls. cbn [concat map].
    rewrite <- !app_assoc. repeat split. constructor; auto.
Qed.

(** X1. The results of a batch follow its items: they are, in the order of
    the items, one group of results per item, each group of one or two
    results that carry the id, the source and the url of that item.  No
    item is skipped and no result comes from anything but an item. *)
Theorem handler_results_follow_the_items (feedback : list FeedbackItem) (w : World) :
  exists groups : list (list AnalysisResult),
    fst (analyzeFeedbackToolHandler feedback w) = concat groups
    /\ Forall2 (fun item g => (1 <= length g <= 2)%nat /\ Forall (from_item item) g)
         feedback groups.
Proof.
  destruct (handler_groups feedback [] w) as (groups & H & Hall & _).
  exists groups. split; [exact H | exact Hall].
Qed.

(** X2. The handler calls the model once per item, in the order of the
    items, with the text of the item under the analysis instructions: a
    failed call is not tried again. *)
Theorem handler_calls_the_model_once_per_item (feedback : list FeedbackItem) (w : World) :
  calls (snd (analyzeFeedbackToolHandler feedback w))
  = calls w ++ map analysis_prompt feedback.
Proof.
  destruct (handler_groups feedback [] w) as (groups & _ & _ & H). exact H.
Qed.

End HandlerFacts.


(** ** The schemas: what they accept and what they give *)

Section SchemaData.
Context {rt : Runtime}.
Import Zod.

Lemma item_schema_reads (p : list PathSeg) (x : JSON) :
  Spec.schema_item_shape x = true ->
  FeedbackItemSchema p (Some x) = inr (read_item x)
  /\ checked_url (item_url (read_item x)).
Proof.
  destruct x as [| | | | |ms]; try discriminate.
  cbn [Spec.schema_item_shape read_item]. unfold FeedbackItemSchema, checked_url.
  destruct (JsValue.own "id" ms) as [[]|]; try discriminate.
  destruct (JsValue.own "text" ms) as [[]|]; try discriminate.
  destruct (JsValue.own "source" ms) as [[]|]; try discriminate.
  destruct (JsValue.own "url" ms) as [[| | |u| |]|]; try discriminate; simpl.
  - intros Hu. rewrite Hu. split; [reflexivity|]. now intros x [= <-].
  - intros _. split; [reflexivity | discriminate].
Qed.

Lemma elements_read (p : list PathSeg) (xs : list JSON) :
  forall (k : nat) (l : list FeedbackItem),
    elements FeedbackItemSchema p k xs = inr l
    <-> Forall (fun x => Spec.schema_item_shape x = true) xs /\ l = map read_item xs.
Proof.
  induction xs as [|x xs IH]; intros k l; cbn [elements map].
  - split; [intros [= <-]; split; [constructor | reflexivity] | intros [_ ->]; reflexivity].
  - destruct (Spec.schema_item_shape x) eqn:Hx.
    + destruct (item_schema_reads (p ++ [Index k]) x Hx) as [-> _].
      destruct (elements FeedbackItemSchema p (S k) xs) as [e|l'] eqn:Hl; cbn [both].
      * split; [discriminate|]. intros [Hall ->]. apply Forall_cons in Hall as [_ Hall].
        assert (H : elements FeedbackItemSchema p (S k) xs = inr (map read_item xs))
          by (apply IH; auto).
        congruence.
      * apply IH in Hl as [Hall ->]. split.
        -- intros [= <-]. split; [constructor; auto | reflexivity].
        -- intros [_ ->]. reflexivity.
    + destruct (item_schema_rejects (p ++ [Index k]) x Hx) as (e & -> & _).
      split.
      * destruct (elements FeedbackItemSchema p (S k) xs); discriminate.
      * intros [Hall _]. apply Forall_cons in Hall as [Hx' _]. congruence.
Qed.

Lemma input_schema_reads (body : JSON) (feedback : list FeedbackItem) :
  AnalyzeFeedbackInputSchema body = inr feedback
  <-> exists ms xs,
        body = JObject ms
        /\ JsValue.own "feedback" ms = Some (JArray xs)
        /\ Forall (fun x => Spec.schema_item_shape x = true) xs
        /\ feedback = map read_item xs.
Proof.
  split.
  - destruct body as [| | | | |ms]; try discriminate.
    cbn [AnalyzeFeedbackInputSchema]. unfold array.
    destruct (JsValue.own "feedback" ms) as [[| | | |xs|]|] eqn:Hfb; try discriminate.
    intros H. apply elements_read in H as [Hall ->]. eauto 6.
  - intros (ms & xs & -> & Hfb & Hall & ->).
    cbn [AnalyzeFeedbackInputSchema]. rewrite Hfb. cbn [array].
    apply elements_read. auto.
Qed.

(** X3. The input schema accepts exactly the bodies that are an object
    whose [feedback] member is an array of items of the schema's shape,
    and the data it gives are the items read member by member: the other
    members of an item are dropped. *)
Theorem input_schema_accepts_exactly_shaped_items
  (body : JSON) (feedback : list FeedbackItem) :
  AnalyzeFeedbackInputSchema body = inr feedback
  <-> exists ms xs,
        body = JObject ms
        /\ JsValue.own "feedback" ms = Some (JArray xs)
        /\ Forall (fun x => Spec.schema_item_shape x = true) xs
        /\ feedback = map read_item xs.
Proof. apply input_schema_reads. Qed.

Lemma accepted_input_urls (body : JSON) (feedback : list FeedbackItem) :
  AnalyzeFeedbackInputSchema body = inr feedback ->
  Forall (fun item => checked_url (item_url item)) feedback.
Proof.
  intros H. apply input_schema_reads in H as (ms & xs & _ & _ & Hall & ->).
  apply Forall_fmap. eapply Forall_impl; [exact Hall|].
  intros x Hx. exact (proj2 (item_schema_reads [] x Hx)).
Qed.

Lemma validated_union (p : list PathSeg) (a : JSON) :
  analysis_union p a
  = match validated a with
    | Some o => inr o
    | None => inl [ {| code := invalid_union; path := p |} ]
    end.
Proof.
  unfold analysis_union, validated.
  destruct (AnalysisObjectSchema a); [reflexivity|].
  now destruct (AnalysisErrorSchema a).
Qed.

Lemma accepted_validated (a : JSON) :
  accepted_analysis a <-> exists o, validated a = Some o.
Proof.
  unfold accepted_analysis, validated.
  destruct (AnalysisObjectSchema a) as [o|].
  - split; [eauto | intros _; left; discriminate].
  - destruct (AnalysisErrorSchema a) as [o|].
    + split; [eauto | intros _; right; discriminate].
    + split; [intros [H|H]; now contradiction H | intros [o H]; discriminate].
Qed.

Lemma result_schema_gives (p : list PathSeg) (r : AnalysisResult) :
  checked_url (originalUrl r) ->
  AnalysisResultSchema p r
  = match validated (analysis r) with
    | Some o =>
        inr {| out_originalId := originalId r;
               out_originalSource := originalSource r;
               out_originalUrl := originalUrl r;
               out_analysis := o |}
    | None => inl [ {| code := invalid_union; path := p ++ [Key "analysis"] |} ]
    end.
Proof.
  intros Hu. unfold AnalysisResultSchema, optional_url_field, optional_url.
  rewrite validated_union.
  destruct (originalUrl r) as [u|] eqn:E; cbn [option_map].
  - rewrite (Hu u eq_refl). now destruct (validated (analysis r)).
  - now destruct (validated (analysis r)).
Qed.

(** The output schema on results whose urls passed the test of the
    input: it accepts them exactly when every analysis is accepted, and
    its data repeat the results one by one. *)
Lemma results_give (p : list PathSeg) (rs : list AnalysisResult) :
  Forall (fun r => checked_url (originalUrl r)) rs ->
  forall i : nat,
    (Forall (fun r => accepted_analysis (analysis r)) rs ->
     exists data, results p i rs = inr data)
    /\ (forall data, results p i rs = inr data ->
        Forall (fun r => accepted_analysis (analysis r)) rs
        /\ Forall2 mirrors rs data).
Proof.
  induction 1 as [|r rs Hu Hus IH]; intros i; cbn [results].
  - split; [eauto|]. intros data [= <-]. split; constructor.
  - rewrite (result_schema_gives _ r Hu). destruct (IH (S i)) as [IH1 IH2].
    split.
    + intros Hall. apply Forall_cons in Hall as [Ha Hall].
      apply accepted_validated in Ha as [o ->].
      destruct (IH1 Hall) as [data ->]. cbn. eauto.
    + intros data.
      destruct (validated (analysis r)) as [o|] eqn:Hv.
      * destruct (results p (S i) rs) as [e|l]; cbn [both]; [discriminate|].
        intros [= <-]. destruct (IH2 l eq_refl) as [Hacc Hm]. split.
        -- constructor; [apply accepted_validated; eauto | exact Hacc].
        -- constructor; [|exact Hm]. unfold mirrors. cbn. auto.
      * destruct (results p (S i) rs); discriminate.
Qed.

Lemma handler_urls_checked (feedback : list FeedbackItem) (w : World) :
  Forall (fun item => checked_url (item_url item)) feedback ->
  Forall (fun r => checked_url (originalUrl r))
    (fst (analyzeFeedbackToolHandler feedback w)).
Proof.
  intros Hf. unfold analyzeFeedbackToolHandler.
  destruct (handler_groups feedback [] w) as (groups & -> & Hall & _). cbn [app].
  induction Hall as [|item g feedback groups [_ Hg] _ IH]; cbn [concat];
    [constructor|].
  apply Forall_cons in Hf as [Hitem Hf]. apply Forall_app. split; [|auto].
  eapply Forall_impl; [exact Hg|]. intros r (_ & _ & Hurl). now rewrite Hurl.
Qed.

Lemma ingest_output_cases
  (body : JSON) (s : V2.State) (feedback : list FeedbackItem) :
  AnalyzeFeedbackInputSchema body = inr feedback ->
  (status (fst (V2.ingest body s)) = 200
   <-> Forall (fun r => accepted_analysis (analysis r))
         (V2.latestAnalysis (snd (V2.ingest body s))))
  /\ (status (fst (V2.ingest body s)) = 200 \/ status (fst (V2.ingest body s)) = 500)
  /\ (forall data,
        fst (V2.ingest body s) = Analyzed data ->
        Forall2 mirrors (V2.latestAnalysis (snd (V2.ingest body s))) data).
Proof.
  intros Hin. rewrite (ingest_accepted _ _ _ Hin). cbn zeta. cbn [fst snd V2.latestAnalysis].
  set (rs := fst (analyzeFeedbackToolHandler feedback (V2.world s))).
  assert (Hu : Forall (fun r => checked_url (originalUrl r)) rs)
    by (apply handler_urls_checked, (accepted_input_urls _ _ Hin)).
  destruct (results_give [Key "analyzedResults"] rs Hu 0) as [H1 H2].
  unfold AnalyzeFeedbackOutputSchema.
  destruct (results [Key "analyzedResults"] 0 rs) as [e|data] eqn:Hr.
  - split; [|split; [now right | discriminate]].
    split; [discriminate|]. intros Hall. destruct (H1 Hall) as [d Hd]. discriminate.
  - destruct (H2 data eq_refl) as [Hacc Hm].
    split; [split; auto|]. split; [now left|]. now intros d [= <-].
Qed.

(** X4. For an accepted input, the answer of the ingestion is 200 exactly
    when every analysis that the handler stored is accepted by one of the
    two analysis schemas (otherwise it is 500): ids, sources and urls can
    never make the output invalid.  The data of a 200 answer repeat the
    stored results one by one, in order, each with the outcome that the
    union of the schemas gives to its analysis. *)
Theorem output_is_valid_exactly_when_every_analysis_is
  (body : JSON) (s : V2.State) (feedback : list FeedbackItem) :
  AnalyzeFeedbackInputSchema body = inr feedback ->
  (status (fst (V2.ingest body s)) = 200
   <-> Forall (fun r => accepted_analysis (analysis r))
         (V2.latestAnalysis (snd (V2.ingest body s))))
  /\ (status (fst (V2.ingest body s)) = 200 \/ status (fst (V2.ingest body s)) = 500)
  /\ (forall data,
        fst (V2.ingest body s) = Analyzed data ->
        Forall2 mirrors (V2.latestAnalysis (snd (V2.ingest body s))) data).
Proof. apply ingest_output_cases. Qed.

End SchemaData.


(** ** The ingestion endpoint: batches without a usable reply *)

Section FailureBatches.
Context {rt : Runtime}.

Lemma Forall2_compose {A B C : Type} (P : A -> B -> Prop) (R : B -> C -> Prop)
  (Q : A -> C -> Prop) (l1 : list A) (l2 : list B) :
  (forall a b c, P a b -> R b c -> Q a c) ->
  Forall2 P l1 l2 -> forall l3, Forall2 R l2 l3 -> Forall2 Q l1 l3.
Proof.
  intros HQ HP. induction HP as [|a b l1 l2 Hab _ IH]; intros l3 HR.
  - inversion HR. constructor.
  - inversion HR as [|b' c l2' l3' Hbc HR']; subst. constructor; eauto.
Qed.

Lemma handler_silent (feedback : list FeedbackItem) :
  silent_model ->
  forall (acc : list AnalysisResult) (w : World),
  exists rs,
    fst (fold_left analyzeItem feedback (acc, w)) = acc ++ rs
    /\ Forall2 (fun item r => from_item item r /\ exists e, analysis r = error_object e)
         feedback rs.
Proof.
  intros Hs. induction feedback as [|item rest IH]; intros acc w.
  - exists []. cbn. rewrite app_nil_r. split; constructor.
  - cbn [fold_left].
    assert (Hone : exists e w',
      analyzeItem (acc, w) item = (acc ++ [new_result w item (error_object e)], w')).
    { unfold analyzeItem, send. specialize (Hs (calls w) (analysis_prompt item)).
      destruct (model_reply (calls w) (analysis_prompt item)) as [[[|c r]|]|reason];
        [| contradiction | |]; cbn [push]; eexists _, _; reflexivity. }
    destruct Hone as (e & w' & ->).
    destruct (IH (acc ++ [new_result w item (error_object e)]) w') as (rs & -> & Hall).
    exists (new_result w item (error_object e) :: rs).
    rewrite <- app_assoc. split; [reflexivity|].
    constructor; [|exact Hall]. split; [repeat split | eauto].
Qed.

(** X5. A failure of the model never fails the batch: when no call gives
    a content (each is rejected or resolves empty), the ingestion of an
    accepted input is answered 200, and its data are one Failure per item,
    in the order of the items, with the id, the source and the url of the
    item and no raw output. *)
Theorem batch_of_failed_calls_is_answered_200
  (body : JSON) (s : V2.State) (feedback : list FeedbackItem) :
  silent_model ->
  Zod.AnalyzeFeedbackInputSchema body = inr feedback ->
  exists data,
    fst (V2.ingest body s) = Analyzed data
    /\ Forall2 failure_of feedback data
    /\ length (V2.latestAnalysis (snd (V2.ingest body s))) = length feedback.
Proof.
  intros Hs Hin.
  destruct (ingest_output_cases body s feedback Hin) as (H200 & _ & Hdata).
  rewrite (ingest_accepted _ _ _ Hin) in H200, Hdata |- *.
  cbn zeta in H200, Hdata |- *. cbn [fst snd V2.latestAnalysis] in H200, Hdata |- *.
  unfold analyzeFeedbackToolHandler in H200, Hdata |- *.
  destruct (handler_silent feedback Hs [] (V2.world s)) as (rs & Hrs & Hall).
  cbn [app] in Hrs. rewrite Hrs in H200, Hdata |- *.
  assert (Hacc : Forall (fun r => accepted_analysis (analysis r)) rs).
  { clear -Hall. induction Hall as [|item r ? ? [_ [e He]] _ IH]; constructor; auto.
    rewrite He. right. discriminate. }
  apply H200 in Hacc.
  destruct (Zod.AnalyzeFeedbackOutputSchema rs) as [issues|data]; [discriminate|].
  exists data. split; [reflexivity|]. split.
  - refine (Forall2_compose _ _ _ _ _ _ Hall data (Hdata data eq_refl)).
    intros item r d [(Hi & Hso & Hu) [e He]] (Hi' & Hso' & Hu' & Hv).
    unfold failure_of. rewrite Hi', Hso', Hu', Hi, Hso, Hu. repeat split.
    rewrite He in Hv. cbn in Hv. injection Hv as <-. eauto.
  - symmetry. exact (Forall2_length _ _ _ Hall).
Qed.

(** X6. An empty batch is a batch: a body whose [feedback] is the empty
    array is answered 200 with no data, without a call to the model, and
    it replaces the published results by none and clears every cursor and
    search. *)
Theorem empty_batch_erases_the_published_results
  (s : V2.State) (ms : list (string * JSON)) :
  JsValue.own "feedback" ms = Some (JArray []) ->
  V2.ingest (JObject ms) s
  = (Analyzed [],
     {| V2.latestAnalysis := [];
        V2.userToInsightIndex := ∅;
        V2.userToSearchResults := ∅;
        V2.userToConversationId := V2.userToConversationId s;
        V2.world := V2.world s |}).
Proof.
  intros Hfb. unfold V2.ingest. cbn [Zod.AnalyzeFeedbackInputSchema].
  rewrite Hfb. reflexivity.
Qed.

End FailureBatches.


(** ** The text given to [JSON.parse] *)

Section FenceFacts.
Import JsString.

Lemma append_cons (c : ascii) (a b : string) : String c a +:+ b = String c (a +:+ b).
Proof. reflexivity. Qed.

Lemma length_app (a b : string) :
  String.length (a +:+ b) = (String.length a + String.length b)%nat.
Proof.
  induction a as [|c a IH]; [reflexivity|].
  rewrite append_cons. cbn [String.length]. now rewrite IH.
Qed.

Lemma prefix_app (p r : string) : String.prefix p (p +:+ r) = true.
Proof.
  induction p as [|c p IH]; [now destruct r|].
  rewrite append_cons. cbn [String.prefix].
  destruct (ascii_dec c c); [exact IH | congruence].
Qed.

Lemma drop_app (p r : string) : drop (String.length p) (p +:+ r) = r.
Proof. induction p as [|c p IH]; [reflexivity|]. rewrite append_cons. exact IH. Qed.

Lemma take_app (p r : string) : take (String.length p) (p +:+ r) = p.
Proof.
  induction p as [|c p IH]; [now destruct r|].
  rewrite append_cons. cbn [String.length take]. now rewrite IH.
Qed.

Lemma endsWith_app (r p : string) : endsWith (r +:+ p) p = true.
Proof.
  unfold endsWith. rewrite length_app.
  replace (String.length r + String.length p - String.length p)%nat
    with (String.length r) by lia.
  rewrite drop_app, String.eqb_refl.
  replace (String.length p <=? String.length r + String.length p)%nat with true
    by (symmetry; apply Nat.leb_le; lia).
  reflexivity.
Qed.

(** X7. A fenced reply is parsed as its content: for every text [j],
    what the handler gives to [JSON.parse] for the reply that is the
    marker [```json], then [j], then the fence [```], is [j] trimmed. *)
Theorem fenced_reply_is_parsed_as_its_content (j : string) :
  jsonString (fenced j) = trim j.
Proof.
  unfold jsonString, fenced, startsWith. rewrite prefix_app.
  unfold substring_from.
  change (drop 7 ("```json" +:+ j +:+ "```"))
    with (drop (String.length "```json") ("```json" +:+ (j +:+ "```"))).
  rewrite (drop_app "```json" (j +:+ "```")).
  rewrite endsWith_app, substring_0 by lia.
  rewrite length_app.
  replace (String.length j + String.length "```" - 3)%nat with (String.length j)
    by (cbn [String.length]; lia).
  now rewrite take_app.
Qed.

End FenceFacts.


(** ** The message handler: what a message leaves alone *)

Section Frame.
Context {rt : Runtime}.
Import Bot.

Variable userKey : string.
Variable R : V2.State -> V2.State -> Prop.
Hypothesis R_refl : forall s, R s s.
Hypothesis R_trans : forall a b c, R a b -> R b c -> R a c.
Hypothesis R_cursor : forall i s, R s (V2.with_cursor userKey i s).
Hypothesis R_insert : forall sr s, R s (V2.with_search (insert userKey sr) s).
Hypothesis R_delete : forall s, R s (V2.with_search (delete userKey) s).
Hypothesis R_world : forall w s, R s (V2.with_world w s).
Hypothesis R_conversation :
  forall user conversation s,
    V2.userToConversationId s !! user = None ->
    R s (V2.with_conversation user conversation s).

Lemma frames_stateless {A : Type} (m : Handler V2.State A) :
  stateless m -> frames R m.
Proof. intros H t. rewrite H. apply R_refl. Qed.

Lemma frames_bind {A B : Type} (m : Handler V2.State A) (k : A -> Handler V2.State B) :
  frames R m -> (forall a, frames R (k a)) -> frames R (bind m k).
Proof.
  intros Hm Hk t. unfold bind. specialize (Hm t).
  destruct (m t) as [[a|] t1]; cbn [snd] in Hm |- *; [|exact Hm].
  exact (R_trans _ _ _ Hm (Hk a t1)).
Qed.

Lemma frames_set_index (i : Z) : frames R (V2.set_index userKey i).
Proof. intros t. apply R_cursor. Qed.

Lemma frames_insert (sr : V2.Search) : frames R (V2.put_search (insert userKey sr)).
Proof. intros t. apply R_insert. Qed.

Lemma frames_delete : frames R (V2.put_search (delete userKey)).
Proof. intros t. apply R_delete. Qed.

Lemma frames_ask (p : PromptCall) : frames R (V2.ask p).
Proof. intros t. apply R_world. Qed.

Lemma frames_fallback (act : Activity) : frames R (V2.fallback act).
Proof.
  intros [s out]. unfold V2.fallback. rewrite bind_say, bind_get. cbn [state sent].
  destruct (from_aadObjectId act) as [[|c user]|]; try apply R_refl.
  destruct (non_empty (conversation_id act)); cbn [andb when_]; [|apply R_refl].
  destruct (V2.userToConversationId s !! String c user) as [x|] eqn:E.
  - rewrite bool_decide_eq_true_2 by eauto. apply R_refl.
  - rewrite bool_decide_eq_false_2 by (intros [x Hx]; discriminate).
    cbn. now apply R_conversation.
Qed.

Lemma stateless_say {St : Type} (m : Outgoing) : stateless (St := St) (say m).
Proof. intros t. reflexivity. Qed.

Lemma stateless_ret {St A : Type} (a : A) : stateless (St := St) (ret a).
Proof. intros t. reflexivity. Qed.

Lemma stateless_lift {St A : Type} (r : Res A) : stateless (St := St) (lift r).
Proof. intros t. reflexivity. Qed.

Lemma stateless_get {St : Type} : stateless (St := St) get_state.
Proof. intros t. reflexivity. Qed.

Lemma stateless_bind {St A B : Type} (m : Handler St A) (k : A -> Handler St B) :
  stateless m -> (forall a, stateless (k a)) -> stateless (bind m k).
Proof.
  intros Hm Hk t. unfold bind. specialize (Hm t).
  destruct (m t) as [[a|] t1]; cbn [snd] in Hm |- *; [|exact Hm].
  now rewrite (Hk a t1).
Qed.

Lemma stateless_when {St : Type} (b : bool) (m : Handler St unit) :
  stateless m -> stateless (when_ b m).
Proof. destruct b; [auto | intros _; apply stateless_ret]. Qed.

Lemma stateless_send_card (result : option AnalysisResult) :
  stateless (V2.send_card result).
Proof.
  destruct result as [r|]; [|apply stateless_lift].
  apply stateless_bind; [apply stateless_lift | intros c; apply stateless_say].
Qed.

Lemma stateless_send_digest (result : AnalysisResult) :
  stateless (V2.send_digest result).
Proof.
  apply stateless_bind; [apply stateless_lift|].
  intros [m|]; [apply stateless_say | apply stateless_ret].
Qed.

Ltac frame :=
  repeat first
    [ apply frames_set_index | apply frames_insert | apply frames_delete
    | apply frames_ask | apply frames_fallback
    | apply frames_stateless;
      first [ apply stateless_say | apply stateless_ret | apply stateless_lift
            | apply stateless_get | apply stateless_send_card
            | apply stateless_send_digest
            | apply stateless_when; apply stateless_say ]
    | apply frames_bind; [|intros ?]
    | match goal with
      | |- frames _ (match ?x with _ => _ end) => destruct x
      | |- frames _ (let '(_, _) := ?x in _) => destruct x
      end ].

Lemma frames_onMessage (act : Activity) :
  conversation_id act = userKey -> frames R (V2.onMessage act).
Proof.
  intros Hkey. unfold V2.onMessage. rewrite Hkey.
  unfold V2.latest_insight, V2.search_insights, V2.next_search_result,
    V2.ask_about_current, V2.show_insights, V2.next_insight.
  frame.
Qed.

(** A command is served without the last statements of the handler. *)
Lemma frames_command (act : Activity) :
  V2.is_command (V2.lowerText act) = true ->
  conversation_id act = userKey ->
  frames R (V2.onMessage act).
Proof.
  intros Hcmd Hkey. unfold V2.onMessage, V2.is_command in *. rewrite Hkey.
  apply frames_bind; [apply frames_stateless, stateless_say | intros _].
  cbv zeta.
  repeat match goal with
         | |- frames _ (if ?c then _ else _) => destruct c eqn:?
         end;
    try discriminate;
    unfold V2.latest_insight, V2.search_insights, V2.next_search_result,
      V2.ask_about_current, V2.show_insights, V2.next_insight;
    frame.
Qed.

(** A message that is no question is served without a call to the
    model. *)
Lemma frames_no_question (act : Activity) :
  JsString.startsWith (V2.lowerText act) "/ask_about_current" = false ->
  conversation_id act = userKey ->
  frames R (V2.onMessage act).
Proof.
  intros Hcmd Hkey. unfold V2.onMessage. rewrite Hkey.
  apply frames_bind; [apply frames_stateless, stateless_say | intros _].
  cbv zeta.
  repeat match goal with
         | |- frames _ (if ?c then _ else _) => destruct c eqn:?
         end;
    try congruence;
    unfold V2.latest_insight, V2.search_insights, V2.next_search_result,
      V2.show_insights, V2.next_insight;
    frame.
Qed.

End Frame.


Section Isolation.
Context {rt : Runtime}.
Import Bot.

Lemma others_untouched_onMessage (act : Activity) :
  frames (others_untouched (conversation_id act)) (V2.onMessage act).
Proof.
  apply (frames_onMessage (conversation_id act)); unfold others_untouched;
    try reflexivity.
  - intros s. split; [reflexivity | intros other _; split; reflexivity].
  - intros a b c [Hl1 H1] [Hl2 H2]. split; [congruence|].
    intros other Hne. destruct (H1 other Hne) as [Hi1 Hs1].
    destruct (H2 other Hne) as [Hi2 Hs2]. split; congruence.
  - intros i s. split; [reflexivity|]. intros other Hne. split; [|reflexivity].
    cbn. now apply lookup_insert_ne.
  - intros sr s. split; [reflexivity|]. intros other Hne. split; [reflexivity|].
    cbn. now apply lookup_insert_ne.
  - intros s. split; [reflexivity|]. intros other Hne. split; [reflexivity|].
    cbn. now apply lookup_delete_ne.
  - intros w s. split; [reflexivity | intros other _; split; reflexivity].
  - intros user conversation s _. split; [reflexivity | intros other _; split; reflexivity].
Qed.

(** X8. A message changes the navigation of its own conversation only:
    whatever the command and whether or not the handler is cut short by
    an exception, the cursor and the search of every other conversation
    are what they were, and so are the published results. *)
Theorem message_touches_only_its_conversation
  (act : Activity) (s : V2.State) (other : string) :
  other <> conversation_id act ->
  V2.userToInsightIndex (V2.step s (V2.Message act)) !! other
  = V2.userToInsightIndex s !! other
  /\ V2.userToSearchResults (V2.step s (V2.Message act)) !! other
     = V2.userToSearchResults s !! other
  /\ V2.latestAnalysis (V2.step s (V2.Message act)) = V2.latestAnalysis s.
Proof.
  intros Hne.
  destruct (others_untouched_onMessage act {| state := s; sent := [] |}) as [Hl H].
  destruct (H other Hne) as [Hi Hs]. cbn [V2.step]. unfold run. auto.
Qed.

Lemma registry_kept_step (s : V2.State) (e : V2.Event) :
  registry_kept s (V2.step s e).
Proof.
  destruct e as [body|act]; cbn [V2.step].
  - destruct (Zod.AnalyzeFeedbackInputSchema body) as [issues|feedback] eqn:Hin.
    + rewrite (ingest_rejected _ _ _ Hin). now intros user c H.
    + rewrite (ingest_accepted _ _ _ Hin). now intros user c H.
  - refine (frames_onMessage (conversation_id act) registry_kept _ _ _ _ _ _ _
              act eq_refl {| state := s; sent := [] |});
      unfold registry_kept; try (intros; assumption).
    + intros a b c H1 H2 user conv H. auto.
    + intros user conv s0 Hnone u c H. cbn.
      rewrite lookup_insert_ne; [exact H | congruence].
Qed.

(** X9. The note of a user's conversation is written once: after any
    sequence of ingestions and messages, a user noted in
    [userToConversationId] is still noted with the same conversation. *)
Theorem noted_conversation_is_never_changed
  (events : list V2.Event) (s : V2.State) (user conversation : string) :
  V2.userToConversationId s !! user = Some conversation ->
  V2.userToConversationId (fold_left V2.step events s) !! user = Some conversation.
Proof.
  revert s. induction events as [|e events IH]; intros s H; [exact H|].
  cbn [fold_left]. apply IH. now apply registry_kept_step.
Qed.

(** X22. Only a text that is no command notes the conversation of its
    user: a message that one of the commands serves leaves
    [userToConversationId] as it was, also for a user never seen before. *)
Theorem command_never_notes_the_conversation (s : V2.State) (act : Activity) :
  V2.is_command (V2.lowerText act) = true ->
  V2.userToConversationId (V2.step s (V2.Message act)) = V2.userToConversationId s.
Proof.
  intros Hcmd. cbn [V2.step]. unfold run.
  refine (frames_command (conversation_id act)
            (fun a b => V2.userToConversationId b = V2.userToConversationId a)
            _ _ _ _ _ _ act Hcmd eq_refl {| state := s; sent := [] |});
    try reflexivity.
  intros a b c H1 H2. congruence.
Qed.

(** X25. Only a question costs a call to the model: a message that is
    not an [/ask_about_current] command, whatever it is, makes no call,
    also when its handler is cut short by an exception. *)
Theorem only_a_question_calls_the_model (s : V2.State) (act : Activity) :
  JsString.startsWith (V2.lowerText act) "/ask_about_current" = false ->
  calls (V2.world (V2.step s (V2.Message act))) = calls (V2.world s).
Proof.
  intros Hcmd. cbn [V2.step]. unfold run.
  refine (frames_no_question (conversation_id act)
            (fun a b => calls (V2.world b) = calls (V2.world a))
            _ _ _ _ _ _ act Hcmd eq_refl {| state := s; sent := [] |});
    try reflexivity.
  intros a b c H1 H2. congruence.
Qed.

End Isolation.


(** ** Invariant: cursors and searches refer to the published results *)

Ltac quiet :=
  repeat first
    [ apply stateless_say | apply stateless_ret | apply stateless_lift
    | apply stateless_get | apply stateless_send_card | apply stateless_send_digest
    | apply stateless_when
    | apply stateless_bind; [|intros ?]
    | match goal with
      | |- stateless (match ?x with _ => _ end) => destruct x
      end ].

Section Invariant.
Context {rt : Runtime}.
Import Bot.

Section Settled.
Variable s0 : V2.State.

Lemma settles_stateless {A : Type} (m : Handler V2.State A) :
  stateless m -> settles s0 m.
Proof. intros H t Ht. now rewrite H. Qed.

Lemma settles_bind {A B : Type} (m : Handler V2.State A) (k : A -> Handler V2.State B) :
  settles s0 m -> (forall a, settles s0 (k a)) -> settles s0 (bind m k).
Proof.
  intros Hm Hk t Ht. unfold bind. specialize (Hm t Ht).
  destruct (m t) as [[a|] t1]; cbn [snd] in Hm |- *; [|exact Hm].
  exact (Hk a t1 Hm).
Qed.

(** What the handler reads from the state is read from a settled one. *)
Lemma settles_get {A : Type} (k : V2.State -> Handler V2.State A) :
  (forall s, settled s0 s -> settles s0 (k s)) -> settles s0 (bind get_state k).
Proof. intros H t Ht. rewrite bind_get. exact (H _ Ht t Ht). Qed.

Lemma settles_lift {A B : Type} (r : Res A) (k : A -> Handler V2.State B) :
  (forall a, r = Ok a -> settles s0 (k a)) -> settles s0 (bind (lift r) k).
Proof.
  intros H t Ht. rewrite bind_lift.
  destruct r as [a|]; [exact (H a eq_refl t Ht) | exact Ht].
Qed.

Lemma settles_set_index (userKey : string) (i : Z) :
  0 <= i < Z.of_nat (length (V2.latestAnalysis s0)) ->
  settles s0 (V2.set_index userKey i).
Proof.
  intros Hi t [Hl [Hnd Hc Hs]]. unfold V2.set_index.
  rewrite bind_get, bind_put_last. cbn [snd state].
  split; [exact Hl|]. constructor; unfold V2.with_cursor; cbn.
  - exact Hnd.
  - intros key j Hj. destruct (decide (key = userKey)) as [->|Hne].
    + rewrite lookup_insert_eq in Hj. injection Hj as <-. rewrite Hl. exact Hi.
    + rewrite lookup_insert_ne in Hj by congruence. eauto.
  - exact Hs.
Qed.

Lemma settles_insert (userKey : string) (sr : V2.Search) :
  (V2.idx sr < length (V2.matches sr))%nat ->
  Forall (fun m => m ∈ V2.latestAnalysis s0 /\ Spec.is_failure m = Ok false)
    (V2.matches sr) ->
  settles s0 (V2.put_search (insert userKey sr)).
Proof.
  intros Hi Hm t [Hl [Hnd Hc Hs]]. unfold V2.put_search.
  rewrite bind_get, bind_put_last. cbn [snd state].
  split; [exact Hl|]. constructor; unfold V2.with_search; cbn.
  - exact Hnd.
  - exact Hc.
  - intros key x Hx. destruct (decide (key = userKey)) as [->|Hne].
    + rewrite lookup_insert_eq in Hx. injection Hx as <-. rewrite Hl. auto.
    + rewrite lookup_insert_ne in Hx by congruence. eauto.
Qed.

(** The last step of a search: the index moves past the matches for a
    moment, and the search is dropped. *)
Lemma settles_exhausted (userKey : string) (sr : V2.Search) (m : Outgoing) :
  settles s0
    (bind (V2.put_search (insert userKey sr))
       (fun _ => bind (say m) (fun _ => V2.put_search (delete userKey)))).
Proof.
  intros t [Hl [Hnd Hc Hs]]. unfold V2.put_search.
  rewrite bind_assoc, bind_get, bind_put, bind_say, bind_get, bind_put_last.
  cbn [snd state]. split; [exact Hl|]. constructor; unfold V2.with_search; cbn.
  - exact Hnd.
  - exact Hc.
  - intros key x Hx. destruct (decide (key = userKey)) as [->|Hne].
    + rewrite lookup_delete_eq in Hx. discriminate.
    + rewrite lookup_delete_ne, lookup_insert_ne in Hx by congruence. eauto.
Qed.

Lemma settles_ask (p : PromptCall) : settles s0 (V2.ask p).
Proof. intros t [Hl [Hnd Hc Hs]]. split; [exact Hl|]. constructor; assumption. Qed.

Lemma settles_fallback (act : Activity) : settles s0 (V2.fallback act).
Proof.
  intros [s out] Ht. unfold V2.fallback. rewrite bind_say, bind_get. cbn [state sent].
  destruct (from_aadObjectId act) as [[|c user]|]; try exact Ht.
  destruct (non_empty (conversation_id act)
            && negb (bool_decide (is_Some (V2.userToConversationId s !! String c user))));
    [|exact Ht].
  destruct Ht as [Hl [Hnd Hc Hs]]. split; [exact Hl|]. constructor; assumption.
Qed.

Lemma settled_position (s : V2.State) (m : AnalysisResult) :
  settled s0 s ->
  m ∈ V2.latestAnalysis s0 ->
  0 <= V2.indexOf (V2.latestAnalysis s0) m < Z.of_nat (length (V2.latestAnalysis s0)).
Proof.
  intros [Hl [Hnd _ _]] Hin. rewrite Hl in Hnd.
  destruct (indexOf_position _ m Hnd Hin) as (i & -> & Hi).
  apply lookup_lt_Some in Hi. lia.
Qed.

Lemma settles_latest_insight (userKey : string) :
  settles s0 (V2.latest_insight userKey).
Proof.
  unfold V2.latest_insight. apply settles_get. intros s Hs.
  destruct (V2.latestAnalysis s) as [|r l] eqn:E;
    [apply settles_stateless, stateless_say|].
  rewrite <- E. destruct Hs as [Hl _].
  apply settles_bind; [|intros _; apply settles_stateless; quiet].
  apply settles_set_index. rewrite <- Hl, E. cbn [length]. lia.
Qed.

Lemma settles_show_insights (userKey : string) :
  settles s0 (V2.show_insights userKey).
Proof.
  unfold V2.show_insights. apply settles_get. intros s Hs.
  destruct (V2.latestAnalysis s) as [|r l] eqn:E;
    [apply settles_stateless, stateless_say|].
  rewrite <- E. destruct Hs as [Hl _].
  apply settles_bind; [|intros _; apply settles_stateless; quiet].
  apply settles_set_index. rewrite <- Hl, E. cbn [length]. lia.
Qed.

Lemma settles_next_insight (userKey : string) :
  settles s0 (V2.next_insight userKey).
Proof.
  unfold V2.next_insight. apply settles_get. intros s Hs.
  destruct (V2.latestAnalysis s) as [|r l] eqn:E;
    [apply settles_stateless, stateless_say|].
  rewrite <- E. destruct Hs as [Hl Hwf].
  assert (Hlen : 0 < Z.of_nat (length (V2.latestAnalysis s)))
    by (rewrite E; cbn [length]; lia).
  assert (Hc : 0 <= default 0 (V2.userToInsightIndex s !! userKey)).
  { destruct (V2.userToInsightIndex s !! userKey) as [i|] eqn:Ei; cbn; [|lia].
    apply (wf_cursor _ Hwf) in Ei. lia. }
  cbv zeta.
  match goal with |- settles _ (if ?b then _ else _) => destruct b eqn:Hw end.
  - apply settles_bind; [apply settles_stateless, stateless_say | intros _].
    apply settles_set_index. rewrite <- Hl. lia.
  - apply Z.leb_gt in Hw.
    apply settles_bind; [|intros _; apply settles_stateless; quiet].
    apply settles_set_index. rewrite <- Hl. lia.
Qed.

Lemma settles_search_insights (userKey text : string) :
  settles s0 (V2.search_insights userKey text).
Proof.
  unfold V2.search_insights.
  destruct (JsString.toLowerCase _) as [|c kw];
    [apply settles_stateless, stateless_say|].
  apply settles_get. intros s Hs.
  destruct (V2.latestAnalysis s) as [|r l] eqn:E;
    [apply settles_stateless, stateless_say|].
  rewrite <- E. pose proof Hs as [Hl _]. rewrite Hl.
  apply settles_lift. intros ms Hf. apply filter_matches_sound in Hf.
  destruct ms as [|first rest]; [apply settles_stateless, stateless_say|].
  apply settles_bind; [apply settles_insert; [cbn; lia | exact Hf] | intros _].
  apply settles_bind; [apply settles_stateless, stateless_send_card | intros _].
  apply settles_bind; [apply settles_stateless, stateless_send_digest | intros _].
  apply settles_bind; [apply settles_stateless, stateless_when, stateless_say | intros _].
  apply settles_set_index. apply (settled_position s _ Hs).
  apply Forall_inv in Hf. tauto.
Qed.

Lemma settles_next_search_result (userKey : string) :
  settles s0 (V2.next_search_result userKey).
Proof.
  unfold V2.next_search_result. apply settles_get. intros s Hs.
  destruct (V2.userToSearchResults s !! userKey) as [[[|m0 ms] i]|] eqn:E;
    try (apply settles_stateless, stateless_say).
  pose proof Hs as [Hl Hwf].
  destruct (wf_search _ Hwf _ _ E) as [Hi Hms]. cbn [V2.idx V2.matches] in Hi, Hms.
  rewrite Hl in Hms |- *. cbv beta iota.
  destruct (length (m0 :: ms) <=? S i)%nat eqn:Hlast.
  - apply settles_exhausted.
  - apply Nat.leb_gt in Hlast.
    apply settles_bind; [apply settles_insert; [exact Hlast | exact Hms] | intros _].
    destruct ((m0 :: ms) !! S i) as [m|] eqn:Hm.
    + apply settles_bind; [apply settles_stateless, stateless_send_card | intros _].
      apply settles_bind; [apply settles_stateless, stateless_send_digest | intros _].
      apply settles_bind; [apply settles_stateless; quiet | intros _].
      apply settles_set_index. apply (settled_position s _ Hs).
      rewrite Forall_lookup in Hms. exact (proj1 (Hms _ _ Hm)).
    + exfalso. apply lookup_ge_None in Hm. lia.
Qed.

Lemma settles_ask_about_current (userKey text : string) :
  settles s0 (V2.ask_about_current userKey text).
Proof.
  unfold V2.ask_about_current. apply settles_get. intros s _.
  match goal with |- settles _ (match ?x with _ => _ end) => destruct x end;
    [|apply settles_stateless, stateless_say].
  cbv zeta.
  match goal with |- settles _ (match ?x with _ => _ end) => destruct x end;
    [apply settles_stateless, stateless_say|].
  apply settles_bind; [apply settles_ask | intros r].
  apply settles_stateless. quiet.
Qed.

Lemma settles_onMessage (act : Activity) : settles s0 (V2.onMessage act).
Proof.
  unfold V2.onMessage.
  apply settles_bind; [apply settles_stateless, stateless_say | intros _].
  cbv zeta.
  repeat match goal with |- settles _ (if ?b then _ else _) => destruct b end;
    auto using settles_latest_insight, settles_search_insights,
      settles_next_search_result, settles_ask_about_current, settles_show_insights,
      settles_next_insight, settles_fallback.
  apply settles_stateless, stateless_say.
Qed.

End Settled.

Lemma ingest_well_formed (body : JSON) (s : V2.State) :
  well_formed s -> well_formed (snd (V2.ingest body s)).
Proof.
  intros Hwf. pose proof (ingest_refs_distinct body s (wf_refs _ Hwf)) as Hnd.
  destruct (Zod.AnalyzeFeedbackInputSchema body) as [issues|feedback] eqn:Hin.
  - now rewrite (ingest_rejected _ _ _ Hin).
  - rewrite (ingest_accepted _ _ _ Hin) in Hnd |- *. cbn [snd] in Hnd |- *.
    constructor; cbn.
    + exact Hnd.
    + intros key i H. rewrite lookup_empty in H. discriminate.
    + intros key sr H. rewrite lookup_empty in H. discriminate.
Qed.

Lemma step_well_formed (s : V2.State) (e : V2.Event) :
  well_formed s -> well_formed (V2.step s e).
Proof.
  intros Hwf. destruct e as [body|act]; cbn [V2.step].
  - now apply ingest_well_formed.
  - apply (settles_onMessage s act {| state := s; sent := [] |}). now split.
Qed.

Lemma replay_well_formed (history : list V2.Event) :
  well_formed (V2.replay history).
Proof.
  unfold V2.replay.
  assert (H0 : well_formed V2.initial).
  { constructor; cbn; [constructor | |];
      intros key x H; rewrite lookup_empty in H; discriminate. }
  revert H0. generalize V2.initial as s.
  induction history as [|e history IH]; intros s Hs; [exact Hs|].
  cbn [fold_left]. apply IH. now apply step_well_formed.
Qed.

(** X10. Whatever requests and messages the process has served, a cursor
    held by [userToInsightIndex] is the index of a published result:
    [latestAnalysis[idx]] is defined for it. *)
Theorem cursor_always_designates_a_published_result
  (history : list V2.Event) (userKey : string) (i : Z) :
  V2.userToInsightIndex (V2.replay history) !! userKey = Some i ->
  0 <= i < Z.of_nat (length (V2.latestAnalysis (V2.replay history)))
  /\ exists r, V2.at_index (V2.latestAnalysis (V2.replay history)) i = Some r.
Proof.
  intros H. pose proof (wf_cursor _ (replay_well_formed history) _ _ H) as Hi.
  split; [exact Hi|]. unfold V2.at_index.
  destruct (Z.ltb_spec i 0) as [|_]; [lia|].
  apply lookup_lt_is_Some_2. lia.
Qed.

(** X11. Whatever requests and messages the process has served, a search
    held by [userToSearchResults] stands on one of its matches, and every
    match is one of the results published now, with no [error] in its
    analysis: no search outlives the batch it was made on. *)
Theorem search_always_refers_to_the_published_results
  (history : list V2.Event) (userKey : string) (sr : V2.Search) :
  V2.userToSearchResults (V2.replay history) !! userKey = Some sr ->
  (V2.idx sr < length (V2.matches sr))%nat
  /\ Forall (fun m => m ∈ V2.latestAnalysis (V2.replay history)
                      /\ Spec.is_failure m = Ok false)
       (V2.matches sr).
Proof. intros H. exact (wf_search _ (replay_well_formed history) _ _ H). Qed.

End Invariant.


(** ** Paging through the results *)

Section PagingCycle.
Context {rt : Runtime}.
Import Bot.

Lemma dispatch_show_insights (act : Activity) :
  V2.lowerText act = "/show_insights" ->
  V2.onMessage act
  = bind (say Typing) (fun _ => V2.show_insights (conversation_id act)).
Proof. intros H. unfold V2.onMessage. rewrite H. reflexivity. Qed.

Lemma show_insights_state (userKey : string) (t : Turn V2.State) :
  V2.latestAnalysis (state t) <> [] ->
  state (snd (V2.show_insights userKey t)) = V2.with_cursor userKey 0 (state t).
Proof.
  intros Hne. unfold V2.show_insights. rewrite bind_get.
  destruct (V2.latestAnalysis (state t)) as [|r l] eqn:E; [congruence|].
  rewrite <- E. unfold V2.set_index. rewrite bind_assoc, bind_get, bind_put.
  match goal with
  | |- state (snd (?m ?t1)) = _ =>
      assert (Hq : stateless m) by quiet; exact (Hq t1)
  end.
Qed.

Lemma next_insight_state (userKey : string) (t : Turn V2.State) :
  V2.latestAnalysis (state t) <> [] ->
  state (snd (V2.next_insight userKey t))
  = V2.with_cursor userKey
      (if Z.of_nat (length (V2.latestAnalysis (state t)))
          <=? default 0 (V2.userToInsightIndex (state t) !! userKey) + 1
       then 0
       else default 0 (V2.userToInsightIndex (state t) !! userKey) + 1)
      (state t).
Proof.
  intros Hne. unfold V2.next_insight. rewrite bind_get.
  destruct (V2.latestAnalysis (state t)) as [|r l] eqn:E; [congruence|].
  rewrite <- E. cbv zeta.
  destruct (Z.of_nat (length (V2.latestAnalysis (state t)))
            <=? default 0 (V2.userToInsightIndex (state t) !! userKey) + 1).
  - rewrite bind_say. reflexivity.
  - unfold V2.set_index. rewrite bind_assoc, bind_get, bind_put.
    match goal with
    | |- state (snd (?m ?t1)) = _ =>
        assert (Hq : stateless m) by quiet; exact (Hq t1)
    end.
Qed.

Lemma next_insight_step (s : V2.State) (next : Activity) (c : Z) :
  V2.lowerText next = "/next_insight" ->
  V2.userToInsightIndex s !! conversation_id next = Some c ->
  0 <= c < Z.of_nat (length (V2.latestAnalysis s)) ->
  V2.latestAnalysis (V2.step s (V2.Message next)) = V2.latestAnalysis s
  /\ V2.userToInsightIndex (V2.step s (V2.Message next)) !! conversation_id next
     = Some ((c + 1) mod Z.of_nat (length (V2.latestAnalysis s))).
Proof.
  intros Hcmd Hc Hb. cbn [V2.step]. unfold run.
  rewrite (dispatch_next_insight next Hcmd), bind_say.
  rewrite next_insight_state by (cbn [state]; destruct (V2.latestAnalysis s);
                                  [cbn in Hb; lia | discriminate]).
  cbn [state]. rewrite Hc. cbn [from_option id]. unfold V2.with_cursor.
  cbn [V2.latestAnalysis V2.userToInsightIndex]. split; [reflexivity|].
  rewrite lookup_insert_eq. f_equal.
  destruct (Z.leb_spec (Z.of_nat (length (V2.latestAnalysis s))) (c + 1)) as [Hw|Hw].
  - replace (c + 1) with (Z.of_nat (length (V2.latestAnalysis s))) by lia.
    symmetry. apply Z_mod_same_full.
  - symmetry. apply Z.mod_small. lia.
Qed.

Lemma next_insight_steps (next : Activity) (k : nat) :
  V2.lowerText next = "/next_insight" ->
  forall (s : V2.State) (c : Z),
    V2.userToInsightIndex s !! conversation_id next = Some c ->
    0 <= c < Z.of_nat (length (V2.latestAnalysis s)) ->
    V2.userToInsightIndex (fold_left V2.step (repeat (V2.Message next) k) s)
      !! conversation_id next
    = Some ((c + Z.of_nat k) mod Z.of_nat (length (V2.latestAnalysis s))).
Proof.
  intros Hcmd. induction k as [|k IH]; intros s c Hc Hb.
  - cbn [repeat fold_left]. rewrite Hc. f_equal.
    rewrite Z.add_0_r. symmetry. apply Z.mod_small. exact Hb.
  - cbn [repeat fold_left].
    destruct (next_insight_step s next c Hcmd Hc Hb) as [Hl Hc'].
    rewrite (IH _ _ Hc') by (rewrite Hl; apply Z.mod_pos_bound; lia).
    rewrite Hl. f_equal. rewrite Zplus_mod_idemp_l. f_equal. lia.
Qed.

(** X12. Paging goes round the results: after [/show_insights] and then
    [k] times [/next_insight] in the same conversation, the cursor is
    [k] modulo the number of results, whether or not a card could be
    drawn on the way.  At the wrap the cursor goes back to 0 with the
    notice that there are no more insights. *)
Theorem paging_goes_round_the_results
  (s : V2.State) (show next : Activity) (k : nat) :
  V2.lowerText show = "/show_insights" ->
  V2.lowerText next = "/next_insight" ->
  conversation_id next = conversation_id show ->
  V2.latestAnalysis s <> [] ->
  V2.userToInsightIndex
    (fold_left V2.step (V2.Message show :: repeat (V2.Message next) k) s)
    !! conversation_id show
  = Some (Z.of_nat k mod Z.of_nat (length (V2.latestAnalysis s))).
Proof.
  intros Hshow Hnext Hkey Hne. cbn [fold_left].
  assert (Hs : V2.step s (V2.Message show)
               = V2.with_cursor (conversation_id show) 0 s).
  { cbn [V2.step]. unfold run. rewrite (dispatch_show_insights show Hshow), bind_say.
    now rewrite show_insights_state. }
  rewrite <- Hkey, Hs.
  rewrite (next_insight_steps next k Hnext _ 0).
  - reflexivity.
  - rewrite Hkey. apply lookup_insert_eq.
  - cbn. destruct (V2.latestAnalysis s); [congruence | cbn [length]; lia].
Qed.

End PagingCycle.


(** ** Questions about the current card *)

Section AskFacts.
Context {rt : Runtime}.
Import Bot.

Lemma startsWith_apart (s p q : string) :
  JsString.startsWith s p = true ->
  (forall rest, String.prefix q (p +:+ rest) = false) ->
  JsString.startsWith s q = false.
Proof.
  unfold JsString.startsWith. intros Hp Hq.
  rewrite (prefix_split _ _ Hp). apply Hq.
Qed.

Lemma dispatch_ask_about_current (act : Activity) :
  JsString.startsWith (V2.lowerText act) "/ask_about_current" = true ->
  V2.onMessage act
  = bind (say Typing)
      (fun _ => V2.ask_about_current (conversation_id act)
                  (default EmptyString (V2.trimmed act))).
Proof.
  intros H. unfold V2.onMessage.
  rewrite !(startsWith_differs _ _ _ H) by reflexivity.
  rewrite (startsWith_apart _ _ "/search_insights" H) by reflexivity.
  rewrite H. reflexivity.
Qed.

(** X13. [/ask_about_current] never raises and never navigates: it
    answers with one text, and leaves the results, every cursor, every
    search and the noted conversations as they were.  It calls the model
    at most once, and only when the conversation has a cursor on a
    published result and the question is not empty: the call carries the
    analysis of that result and the question. *)
Theorem asking_about_the_current_card_is_safe (s : V2.State) (act : Activity) :
  JsString.startsWith (V2.lowerText act) "/ask_about_current" = true ->
  exists (s' : V2.State) (answer : string),
    run (V2.onMessage act) s
    = (Ok tt, {| state := s'; sent := [Typing; Text answer] |})
    /\ V2.latestAnalysis s' = V2.latestAnalysis s
    /\ V2.userToInsightIndex s' = V2.userToInsightIndex s
    /\ V2.userToSearchResults s' = V2.userToSearchResults s
    /\ V2.userToConversationId s' = V2.userToConversationId s
    /\ (calls (V2.world s') = calls (V2.world s)
        \/ exists (i : Z) (r : AnalysisResult),
             V2.userToInsightIndex s !! conversation_id act = Some i
             /\ V2.at_index (V2.latestAnalysis s) i = Some r
             /\ question_of act <> EmptyString
             /\ calls (V2.world s')
                = calls (V2.world s)
                  ++ [ {| instructions := AnswerInstructions (analysis r);
                          message := question_of act |} ]).
Proof.
  intros Hcmd. rewrite (dispatch_ask_about_current act Hcmd).
  unfold run. rewrite bind_say. cbn [state sent app].
  unfold V2.ask_about_current. rewrite bind_get. cbn [state].
  destruct (V2.userToInsightIndex s !! conversation_id act) as [i|] eqn:Hi;
    [|eexists s, _; repeat split; now left].
  destruct (V2.at_index (V2.latestAnalysis s) i) as [r|] eqn:Hr;
    [|eexists s, _; repeat split; now left].
  cbv zeta. fold (question_of act).
  destruct (question_of act) as [|c q] eqn:Hq;
    [eexists s, _; repeat split; now left|].
  unfold V2.ask. rewrite bind_assoc, bind_get. cbn [state].
  unfold send. rewrite bind_assoc, bind_put, bind_ret. cbn [state sent].
  assert (Hcall : exists i0 r0,
             Some i = Some i0
             /\ V2.at_index (V2.latestAnalysis s) i0 = Some r0
             /\ String c q <> EmptyString
             /\ calls (V2.world s)
                ++ [ {| instructions := AnswerInstructions (analysis r);
                        message := String c q |} ]
                = calls (V2.world s)
                  ++ [ {| instructions := AnswerInstructions (analysis r0);
                          message := String c q |} ])
    by (exists i, r; repeat split; [exact Hr | discriminate]).
  destruct (model_reply (calls (V2.world s))
              {| instructions := AnswerInstructions (analysis r);
                 message := String c q |}) as [[content|]|reason]; cbn [option_map].
  - destruct (JsString.trim content);
      eexists _, _; (split; [reflexivity|]); cbn; repeat split; right; exact Hcall.
  - eexists _, _; (split; [reflexivity|]); cbn; repeat split; right; exact Hcall.
  - eexists _, _; (split; [reflexivity|]); cbn; repeat split; right; exact Hcall.
Qed.

End AskFacts.


(** ** Cards and digests of validated analyses *)

Section CardFacts.
Import Zod.

Lemma strings_of_map (xs : list JSON) :
  forall pts, strings_of xs = Some pts -> xs = map JString pts.
Proof.
  induction xs as [|x xs IH]; intros pts; cbn [strings_of].
  - now intros [= <-].
  - destruct x; try discriminate.
    destruct (strings_of xs) as [l|]; [|discriminate].
    intros [= <-]. cbn [map]. f_equal. now apply IH.
Qed.

Lemma strings_never_throw (pts : list string) :
  existsb JsValue.toString_throws (map JString pts) = false.
Proof. induction pts as [|p pts IH]; [reflexivity | exact IH]. Qed.

Lemma priority_of_name (v : option JSON) (pr : Priority) :
  priority_of v = Some pr -> v = Some (JString (priority_name pr)).
Proof.
  destruct v as [[| | |p| |]|]; try discriminate. cbn [priority_of].
  destruct (String.eqb_spec p "low") as [->|_]; [now intros [= <-]|].
  destruct (String.eqb_spec p "medium") as [->|_]; [now intros [= <-]|].
  destruct (String.eqb_spec p "high") as [->|_]; [now intros [= <-]|].
  discriminate.
Qed.

Lemma object_schema_shape (a : JSON) (pts : list string) (s : string) (pr : Priority) :
  AnalysisObjectSchema a = Some (Success pts s pr) ->
  exists ms,
    a = JObject ms
    /\ JsValue.own "painPoints" ms = Some (JArray (map JString pts))
    /\ JsValue.own "summary" ms = Some (JString s)
    /\ JsValue.own "priority" ms = Some (JString (priority_name pr)).
Proof.
  destruct a as [| | | | |ms]; try discriminate. cbn [AnalysisObjectSchema].
  destruct (JsValue.own "painPoints" ms) as [[| | | |xs|]|] eqn:Hpp; try discriminate.
  destruct (JsValue.own "summary" ms) as [[| | |s'| |]|] eqn:Hs; try discriminate.
  destruct (priority_of (JsValue.own "priority" ms)) as [pr'|] eqn:Hp; [|discriminate].
  destruct (strings_of xs) as [pts'|] eqn:Hx; [|discriminate].
  intros [= <- <- <-]. exists ms. apply priority_of_name in Hp.
  apply strings_of_map in Hx. subst xs. repeat split; assumption || reflexivity.
Qed.

Lemma listed_points_strings (pts : list string) :
  listed_points (Some (JArray (map JString pts))) = Ok (shown_points pts).
Proof.
  destruct pts as [|p pts]; [reflexivity|].
  cbn [listed_points JsValue.truthy negb map].
  change (existsb JsValue.toString_throws (JString p :: map JString pts))
    with (existsb JsValue.toString_throws (map JString (p :: pts))).
  now rewrite strings_never_throw.
Qed.

Lemma success_card (a : JSON) (pts : list string) (s : string) (pr : Priority) :
  AnalysisObjectSchema a = Some (Success pts s pr) ->
  analysis_card a
  = Ok (AnalysisCard (priority_name pr) (priority_color pr) (Some (JString s))
          (shown_points pts))
  /\ exists e,
       JsValue.has "error" a = Ok e
       /\ digest a
          = Ok (if e then None
                else Some (Digest (Some (JString s)) (priority_name pr)
                             (shown_points pts))).
Proof.
  intros H. apply object_schema_shape in H as (ms & -> & Hpp & Hs & Hp). split.
  - cbn [analysis_card]. rewrite Hp, Hpp, Hs, listed_points_strings.
    now destruct pr.
  - eexists. split; [reflexivity|]. unfold digest. cbn [JsValue.has res_bind].
    destruct (bool_decide (is_Some (JsValue.own "error" ms))); [reflexivity|].
    cbn [JsValue.get res_bind]. rewrite Hs, Hp, Hpp. cbn [JsValue.toString_throws_opt
      JsValue.toString_throws res_bind].
    now rewrite listed_points_strings.
Qed.

(** X14. A card shows the validated data: for an analysis that the
    object schema accepts, the card has its priority, under the colour of
    that priority (Attention for high, Warning for medium, Good for low),
    its summary and its pain points, and drawing it never raises.  The
    digest of a search has the same data, and is left out when the
    analysis also has an [error]. *)
Theorem validated_analysis_is_drawn_with_its_data
  (a : JSON) (pts : list string) (s : string) (pr : Priority) :
  AnalysisObjectSchema a = Some (Success pts s pr) ->
  V2.createFeedbackAnalysisCard a
  = Ok (AnalysisCard (priority_name pr) (priority_color pr) (Some (JString s))
          (shown_points pts))
  /\ exists e,
       JsValue.has "error" a = Ok e
       /\ digest a
          = Ok (if e then None
                else Some (Digest (Some (JString s)) (priority_name pr)
                             (shown_points pts))).
Proof. apply success_card. Qed.

End CardFacts.

(** ** What a search matches *)

Section MatchFacts.
Context {rt : Runtime}.
Import Bot.

Lemma includes_nothing (keyword : string) :
  keyword <> EmptyString -> JsString.includes EmptyString keyword = false.
Proof. destruct keyword; [congruence | reflexivity]. Qed.

Lemma summary_matches_string (s keyword : string) :
  keyword <> EmptyString ->
  V2.summary_matches (Some (JString s)) keyword
  = Ok (JsString.includes (JsString.toLowerCase s) keyword).
Proof.
  intros Hk. destruct s as [|c s]; [|reflexivity].
  change (JsString.toLowerCase EmptyString) with EmptyString.
  now rewrite includes_nothing.
Qed.

Lemma some_point_matches_strings (pts : list string) (keyword : string) :
  V2.some_point_matches (map JString pts) keyword
  = Ok (existsb (fun p => JsString.includes (JsString.toLowerCase p) keyword) pts).
Proof.
  induction pts as [|p pts IH]; [reflexivity|].
  cbn [map V2.some_point_matches existsb].
  destruct (JsString.includes (JsString.toLowerCase p) keyword); [reflexivity | exact IH].
Qed.

Lemma success_is_match
  (keyword : string) (r : AnalysisResult) (pts : list string) (s : string)
  (pr : Priority) :
  keyword <> EmptyString ->
  Zod.AnalysisObjectSchema (analysis r) = Some (Success pts s pr) ->
  V2.is_match keyword r
  = res_bind (Spec.is_failure r) (fun e =>
      Ok (negb e
          && (JsString.includes (JsString.toLowerCase s) keyword
              || existsb (fun p => JsString.includes (JsString.toLowerCase p) keyword) pts
              || JsString.includes (JsString.toLowerCase (V2.feedbackText r)) keyword))).
Proof.
  intros Hk H. apply object_schema_shape in H as (ms & Ha & Hpp & Hs & _).
  unfold V2.is_match, Spec.is_failure. rewrite Ha. cbn [JsValue.has res_bind].
  destruct (bool_decide (is_Some (JsValue.own "error" ms))); [reflexivity|].
  cbn [JsValue.get res_bind negb andb]. rewrite Hs, Hpp.
  rewrite (summary_matches_string s keyword Hk). cbn [res_bind].
  destruct (JsString.includes (JsString.toLowerCase s) keyword); [reflexivity|].
  cbn [V2.points_match JsValue.truthy negb]. rewrite some_point_matches_strings.
  cbn [res_bind orb].
  now destruct (existsb _ pts).
Qed.

(** X15. What a search looks at: a result whose analysis the object
    schema accepts, and that has no [error], matches a keyword exactly
    when the keyword occurs in its summary or in one of its pain points,
    both in lower case, or in its source and url.  The id of the item and
    its text are not looked at. *)
Theorem search_looks_at_summary_points_source_and_url
  (keyword : string) (r : AnalysisResult) (pts : list string) (s : string)
  (pr : Priority) :
  keyword <> EmptyString ->
  Zod.AnalysisObjectSchema (analysis r) = Some (Success pts s pr) ->
  Spec.is_failure r = Ok false ->
  V2.is_match keyword r
  = Ok (JsString.includes (JsString.toLowerCase s) keyword
        || existsb (fun p => JsString.includes (JsString.toLowerCase p) keyword) pts
        || JsString.includes
             (JsString.toLowerCase
                (originalSource r +:+ " " +:+ V2.or_empty (originalUrl r)))
             keyword).
Proof.
  intros Hk Ha He. rewrite (success_is_match keyword r pts s pr Hk Ha), He.
  reflexivity.
Qed.

End MatchFacts.


(** ** The searches of a conversation *)

Section SearchStore.
Context {rt : Runtime}.
Import Bot.

Lemma filter_matches_filter (keyword : string) (l : list AnalysisResult) :
  Forall (fun r => V2.is_match keyword r <> Throw) l ->
  V2.filter_matches keyword l = Ok (List.filter (matches_keyword keyword) l).
Proof.
  induction 1 as [|r l Hr _ IH]; [reflexivity|].
  cbn [V2.filter_matches List.filter]. rewrite IH. unfold matches_keyword.
  destruct (V2.is_match keyword r) as [[|]|]; [reflexivity | reflexivity | congruence].
Qed.

Lemma bind_stateless_searches {A B : Type}
  (m : Handler V2.State A) (k : A -> Handler V2.State B) :
  stateless m ->
  (forall a t, V2.userToSearchResults (state (snd (k a t)))
               = V2.userToSearchResults (state t)) ->
  forall t, V2.userToSearchResults (state (snd (bind m k t)))
            = V2.userToSearchResults (state t).
Proof.
  intros Hm Hk t. unfold bind. specialize (Hm t).
  destruct (m t) as [[a|] t1]; cbn [snd] in Hm |- *; [|now rewrite Hm].
  now rewrite Hk, Hm.
Qed.

Lemma search_insights_stores (userKey text keyword : string) (t : Turn V2.State) :
  keyword
  = JsString.toLowerCase
      (JsString.trim (JsString.substring_from text (String.length "/search_insights"))) ->
  keyword <> EmptyString ->
  Forall (fun r => V2.is_match keyword r <> Throw) (V2.latestAnalysis (state t)) ->
  V2.userToSearchResults (state (snd (V2.search_insights userKey text t)))
  = match List.filter (matches_keyword keyword) (V2.latestAnalysis (state t)) with
    | [] => V2.userToSearchResults (state t)
    | first :: rest =>
        <[userKey := {| V2.matches := first :: rest; V2.idx := 0 |}]>
          (V2.userToSearchResults (state t))
    end.
Proof.
  intros Hkw Hne Hall. unfold V2.search_insights. cbv zeta. rewrite <- Hkw.
  destruct keyword as [|c kw]; [congruence|].
  rewrite bind_get.
  destruct (V2.latestAnalysis (state t)) as [|r0 l0] eqn:El; [reflexivity|].
  rewrite <- El in Hall |- *.
  rewrite bind_lift, (filter_matches_filter _ _ Hall).
  destruct (List.filter (matches_keyword (String c kw)) (V2.latestAnalysis (state t)))
    as [|first rest]; [reflexivity|].
  unfold V2.put_search. rewrite bind_assoc, bind_get, bind_put.
  rewrite bind_stateless_searches; [reflexivity | apply stateless_send_card |].
  intros _ t1. rewrite bind_stateless_searches;
    [reflexivity | apply stateless_send_digest |].
  intros _ t2. rewrite bind_stateless_searches;
    [reflexivity | apply stateless_when, stateless_say |].
  reflexivity.
Qed.

(** X16. A search stores every match: when the predicate raises on no
    result, the search of the conversation after [/search_insights] with
    a keyword holds all the results that match the keyword and only
    them, in the order of the batch, and stands on the first.  When
    nothing matches, the searches are left as they were: an older search
    of the conversation stays. *)
Theorem search_stores_every_match_in_batch_order (s : V2.State) (act : Activity) :
  JsString.startsWith (V2.lowerText act) "/search_insights" = true ->
  keyword_of act <> EmptyString ->
  Forall (fun r => V2.is_match (keyword_of act) r <> Throw) (V2.latestAnalysis s) ->
  V2.userToSearchResults (V2.step s (V2.Message act))
  = match List.filter (matches_keyword (keyword_of act)) (V2.latestAnalysis s) with
    | [] => V2.userToSearchResults s
    | first :: rest =>
        <[conversation_id act := {| V2.matches := first :: rest; V2.idx := 0 |}]>
          (V2.userToSearchResults s)
    end.
Proof.
  intros Hcmd Hne Hall. cbn [V2.step]. unfold run.
  rewrite (dispatch_search_insights act Hcmd), bind_say.
  now rewrite (search_insights_stores _ _ (keyword_of act)).
Qed.

End SearchStore.

(** ** Navigation on a batch that passed the output schema *)

Section ValidBatch.
Context {rt : Runtime}.
Import Bot.

Lemma accepted_is_match (keyword : string) (r : AnalysisResult) :
  keyword <> EmptyString ->
  accepted_analysis (analysis r) ->
  V2.is_match keyword r <> Throw.
Proof.
  intros Hk Ha. destruct (accepted_cases _ Ha) as [(pts & s & pr & Ho)|He].
  - rewrite (success_is_match keyword r pts s pr Hk Ho).
    apply success_card in Ho as (_ & e & He & _).
    unfold Spec.is_failure. rewrite He. discriminate.
  - unfold V2.is_match. rewrite He. discriminate.
Qed.

Lemma accepted_drawable (m : AnalysisResult) :
  accepted_analysis (analysis m) ->
  Spec.is_failure m = Ok false ->
  exists card d,
    analysis_card (analysis m) = Ok card /\ digest (analysis m) = Ok (Some d).
Proof.
  intros Ha Hf. unfold Spec.is_failure in Hf.
  destruct (accepted_cases _ Ha) as [(pts & s & pr & Ho)|He]; [|congruence].
  apply success_card in Ho as (Hc & e & He & Hd).
  assert (e = false) by congruence. subst e. eauto.
Qed.

Lemma search_insights_completes (userKey text : string) (t : Turn V2.State) :
  Forall (fun r => accepted_analysis (analysis r)) (V2.latestAnalysis (state t)) ->
  fst (V2.search_insights userKey text t) = Ok tt.
Proof.
  intros Hall. unfold V2.search_insights. cbv zeta.
  destruct (JsString.toLowerCase _) as [|c kw]; [reflexivity|].
  rewrite bind_get.
  destruct (V2.latestAnalysis (state t)) as [|r0 l0] eqn:El; [reflexivity|].
  rewrite <- El in Hall |- *. rewrite bind_lift.
  assert (Hm : Forall (fun r => V2.is_match (String c kw) r <> Throw)
                 (V2.latestAnalysis (state t))).
  { eapply Forall_impl; [exact Hall|]. intros r Hr.
    now apply accepted_is_match. }
  pose proof (filter_matches_filter _ _ Hm) as Hf. rewrite Hf.
  apply filter_matches_sound in Hf.
  destruct (List.filter (matches_keyword (String c kw)) (V2.latestAnalysis (state t)))
    as [|first rest]; [reflexivity|].
  apply Forall_inv in Hf as [Hin Hfail].
  assert (Ha : accepted_analysis (analysis first))
    by (rewrite Forall_forall in Hall; now apply Hall).
  destruct (accepted_drawable first Ha Hfail) as (card & d & Hc & Hd).
  unfold V2.put_search, V2.send_card, V2.send_digest, V2.createFeedbackAnalysisCard.
  rewrite bind_assoc, bind_get, bind_put, bind_assoc, bind_lift, Hc, bind_say,
    bind_assoc, bind_lift, Hd.
  destruct (1 <? length (first :: rest))%nat; reflexivity.
Qed.

Lemma next_search_result_completes (userKey : string) (t : Turn V2.State) :
  well_formed (state t) ->
  Forall (fun r => accepted_analysis (analysis r)) (V2.latestAnalysis (state t)) ->
  fst (V2.next_search_result userKey t) = Ok tt.
Proof.
  intros Hwf Hall. unfold V2.next_search_result. rewrite bind_get.
  destruct (V2.userToSearchResults (state t) !! userKey) as [[[|m0 ms] i]|] eqn:E;
    try reflexivity.
  destruct (wf_search _ Hwf _ _ E) as [Hi Hms]. cbn [V2.idx V2.matches] in Hi, Hms.
  cbv beta iota. unfold V2.put_search at 1. rewrite bind_assoc, bind_get, bind_put.
  destruct (length (m0 :: ms) <=? S i)%nat eqn:Hlast; [reflexivity|].
  apply Nat.leb_gt in Hlast.
  destruct ((m0 :: ms) !! S i) as [m|] eqn:Hm;
    [|apply lookup_ge_None in Hm; lia].
  rewrite Forall_lookup in Hms. destruct (Hms _ _ Hm) as [Hin Hfail].
  assert (Ha : accepted_analysis (analysis m))
    by (rewrite Forall_forall in Hall; now apply Hall).
  destruct (accepted_drawable m Ha Hfail) as (card & d & Hc & Hd).
  unfold V2.send_card, V2.send_digest, V2.createFeedbackAnalysisCard.
  rewrite bind_assoc, bind_lift, Hc, bind_say, bind_assoc, bind_lift, Hd.
  destruct (S i <? length (m0 :: ms) - 1)%nat; reflexivity.
Qed.

(** X17. On a batch that passed the output schema, searching never
    raises: whatever requests and messages were served before, if every
    published analysis is accepted by one of the two analysis schemas,
    then [/search_insights] and [/next_search_result] run to completion,
    and every card and digest they need can be drawn. *)
Theorem searching_a_valid_batch_never_raises
  (history : list V2.Event) (act : Activity) :
  Forall (fun r => accepted_analysis (analysis r))
    (V2.latestAnalysis (V2.replay history)) ->
  JsString.startsWith (V2.lowerText act) "/search_insights" = true
  \/ V2.lowerText act = "/next_search_result" ->
  fst (run (V2.onMessage act) (V2.replay history)) = Ok tt.
Proof.
  intros Hall [Hcmd|Hcmd]; unfold run.
  - rewrite (dispatch_search_insights act Hcmd), bind_say.
    now apply search_insights_completes.
  - rewrite (dispatch_next_search_result act Hcmd), bind_say.
    apply next_search_result_completes; [apply replay_well_formed | exact Hall].
Qed.

End ValidBatch.


(** ** Results of failed calls, in the two revisions *)

Section FailureCards.
Context {rt : Runtime}.
Import Bot.

Lemma rejected_first_result
  (item : FeedbackItem) (rest : list FeedbackItem) (w : World) (reason : string) :
  model_reply (calls w) (analysis_prompt item) = Rejected reason ->
  exists e r l,
    fst (analyzeFeedbackToolHandler (item :: rest) w) = r :: l
    /\ analysis r = error_object e.
Proof.
  intros Hr. unfold analyzeFeedbackToolHandler. cbn [fold_left].
  unfold analyzeItem at 2, send. rewrite Hr. cbn [push].
  match goal with
  | |- context [fold_left analyzeItem rest (?acc, ?w1)] =>
      destruct (handler_groups rest acc w1) as (groups & -> & _)
  end.
  cbn [app]. eauto.
Qed.

Lemma show_insights_raises (s : V2.State) (act : Activity)
  (r : AnalysisResult) (l : list AnalysisResult) :
  V2.lowerText act = "/show_insights" ->
  V2.latestAnalysis s = r :: l ->
  analysis_card (analysis r) = Throw ->
  run (V2.onMessage act) s
  = (Throw, {| state := V2.with_cursor (conversation_id act) 0 s; sent := [Typing] |}).
Proof.
  intros Hcmd Hl Hc. unfold run.
  rewrite (dispatch_show_insights act Hcmd), bind_say. cbn [state sent app].
  unfold V2.show_insights. rewrite bind_get. cbn [state]. rewrite Hl.
  unfold V2.set_index. rewrite bind_assoc, bind_get, bind_put. cbn [state sent].
  change (V2.at_index (r :: l) 0) with (Some r).
  unfold V2.send_card, V2.createFeedbackAnalysisCard.
  rewrite bind_assoc, bind_lift, Hc. reflexivity.
Qed.

(** X18. In the revision with navigation a failed call hides the batch:
    when the call to the model for the first item of an accepted input is
    rejected, [/show_insights] after that ingestion raises for every
    conversation.  It has then sent the typing indicator only, and has
    put the cursor of the conversation on the first result. *)
Theorem rejected_first_call_makes_show_insights_raise
  (body : JSON) (s : V2.State) (item : FeedbackItem) (rest : list FeedbackItem)
  (reason : string) (act : Activity) :
  Zod.AnalyzeFeedbackInputSchema body = inr (item :: rest) ->
  model_reply (calls (V2.world s)) (analysis_prompt item) = Rejected reason ->
  V2.lowerText act = "/show_insights" ->
  run (V2.onMessage act) (snd (V2.ingest body s))
  = (Throw,
     {| state := V2.with_cursor (conversation_id act) 0 (snd (V2.ingest body s));
        sent := [Typing] |}).
Proof.
  intros Hin Hr Hcmd.
  destruct (rejected_first_result item rest (V2.world s) reason Hr)
    as (e & r & l & Hl & Ha).
  apply (show_insights_raises _ act r l Hcmd).
  - rewrite (ingest_accepted _ _ _ Hin). exact Hl.
  - rewrite Ha. reflexivity.
Qed.

Lemma first_ingest_state (body : JSON) (s : V1.State) (feedback : list FeedbackItem) :
  Zod.AnalyzeFeedbackInputSchema body = inr feedback ->
  V1.latestFeedback (snd (V1.ingest body s)) = feedback
  /\ V1.latestAnalysis (snd (V1.ingest body s))
     = fst (analyzeFeedbackToolHandler feedback (V1.world s)).
Proof.
  intros Hin. unfold V1.ingest. rewrite Hin.
  destruct (analyzeFeedbackToolHandler feedback (V1.world s)) as [results w].
  destruct (Zod.AnalyzeFeedbackOutputSchema results); split; reflexivity.
Qed.

Lemma analyzeItem_silent (item : FeedbackItem) (acc : list AnalysisResult) (w : World) :
  silent_model ->
  analyzeItem (acc, w) item
  = (acc ++ [new_result w item
               (error_object (failure_text (model_reply (calls w) (analysis_prompt item))))],
     {| calls := calls w ++ [analysis_prompt item]; next_ref := S (next_ref w) |}).
Proof.
  intros Hs. unfold analyzeItem, send.
  specialize (Hs (calls w) (analysis_prompt item)).
  destruct (model_reply (calls w) (analysis_prompt item)) as [[[|c r]|]|[|c r]];
    [| contradiction | | |]; reflexivity.
Qed.

Lemma handler_silent_texts (feedback : list FeedbackItem) :
  silent_model ->
  forall (acc : list AnalysisResult) (w : World),
  exists rs,
    fst (fold_left analyzeItem feedback (acc, w)) = acc ++ rs
    /\ Forall2 from_item feedback rs
    /\ map analysis rs = map error_object (failure_texts (calls w) feedback).
Proof.
  intros Hs. induction feedback as [|item rest IH]; intros acc w.
  - exists []. cbn. rewrite app_nil_r. repeat split. constructor.
  - cbn [fold_left failure_texts]. rewrite (analyzeItem_silent item acc w Hs).
    match goal with
    | |- context [fold_left analyzeItem rest (?acc1, ?w1)] =>
        destruct (IH acc1 w1) as (rs & -> & Hall & Hmap)
    end.
    cbn [calls] in Hmap.
    eexists (_ :: rs). rewrite <- app_assoc. split; [reflexivity|]. split.
    + constructor; [repeat split | exact Hall].
    + cbn [map analysis new_result]. now rewrite Hmap.
Qed.

Lemma send_cards_texts (rs : list AnalysisResult) :
  forall errors : list string,
    map analysis rs = map error_object errors ->
    forall (sentAny : bool) (t : Turn V1.State),
      V1.send_cards rs sentAny t
      = (Ok (match rs with [] => sentAny | _ :: _ => true end),
         {| state := state t; sent := sent t ++ map error_card errors |}).
Proof.
  induction rs as [|r rs IH]; intros [|e errors] Hmap b t; try discriminate.
  - destruct t as [s out]. cbn. now rewrite app_nil_r.
  - cbn [map] in Hmap. injection Hmap as He Hmap.
    cbn [V1.send_cards]. rewrite He.
    change (V1.createFeedbackAnalysisCard (error_object e))
      with (Ok (A := Card) (ErrorCard (Some (JString e)) None)).
    rewrite bind_lift, bind_say, (IH errors Hmap). cbn [state sent map].
    rewrite <- app_assoc. now destruct rs.
Qed.

Lemma bind_ok {St A B : Type} (m : Handler St A) (k : A -> Handler St B)
  (t t' : Turn St) (a : A) :
  m t = (Ok a, t') -> bind m k t = k a t'.
Proof. intros H. unfold bind. now rewrite H. Qed.

Lemma remember_run (act : Activity) (t : Turn V1.State) :
  exists s', V1.remember act t = (Ok tt, {| state := s'; sent := sent t |}).
Proof.
  destruct t as [s out]. unfold V1.remember. rewrite bind_get. cbn [state sent].
  destruct (from_aadObjectId act) as [[|c user]|]; try (now exists s).
  destruct (non_empty (conversation_id act)
            && negb (bool_decide (is_Some (V1.userToConversationId s !! String c user))));
    cbn [when_]; eexists; reflexivity.
Qed.

(** X19. The first revision shows a failed call as an error card: when
    no call of a batch gives a content, the results published by the
    ingestion are one per item, in the order of the items, each with the
    id, source and url of its item and the error of the call made for it;
    [/show_insights] then runs to completion and sends, after the typing
    indicator and the announcement, the error cards of these results in
    that order, one per item, and nothing else. *)
Theorem first_revision_shows_failed_calls_as_error_cards
  (body : JSON) (s : V1.State) (feedback : list FeedbackItem) (act : Activity) :
  silent_model ->
  Zod.AnalyzeFeedbackInputSchema body = inr feedback ->
  feedback <> [] ->
  V1.lowered act = Some "/show_insights" ->
  Forall2 from_item feedback (V1.latestAnalysis (snd (V1.ingest body s)))
  /\ map analysis (V1.latestAnalysis (snd (V1.ingest body s)))
     = map error_object (failure_texts (calls (V1.world s)) feedback)
  /\ fst (run (V1.onMessage act) (snd (V1.ingest body s))) = Ok tt
  /\ sent (snd (run (V1.onMessage act) (snd (V1.ingest body s))))
     = Typing
       :: Text "Getting the latest feedback analysis for you..."
       :: map error_card (failure_texts (calls (V1.world s)) feedback).
Proof.
  intros Hs Hin Hne Hcmd.
  destruct (first_ingest_state body s feedback Hin) as [Hlf Hla].
  destruct (handler_silent_texts feedback Hs [] (V1.world s)) as (rs & Hrs & Hall & Hmap).
  cbn [app] in Hrs. unfold analyzeFeedbackToolHandler in Hla. rewrite Hrs in Hla.
  rewrite Hla. split; [exact Hall|]. split; [exact Hmap|].
  pose proof (send_cards_texts rs _ Hmap) as Hsend.
  assert (Hrun : exists s',
    run (V1.onMessage act) (snd (V1.ingest body s))
    = (Ok tt,
       {| state := s';
          sent := Typing
                  :: Text "Getting the latest feedback analysis for you..."
                  :: map error_card (failure_texts (calls (V1.world s)) feedback) |})).
  { unfold run, V1.onMessage. rewrite bind_say, Hcmd. cbn [state sent app].
    change (String.eqb "/show_insights" "hello") with false.
    change (String.eqb "/show_insights" "/show_insights") with true.
    cbv iota. unfold V1.show_insights. rewrite bind_assoc, bind_get. cbn [state].
    rewrite Hlf, Hla.
    destruct feedback as [|item0 feedback0]; [congruence|].
    destruct rs as [|r0 rs0]; [inversion Hall|].
    rewrite bind_assoc, bind_say, bind_assoc. cbn [state sent].
    erewrite bind_ok by apply Hsend. cbn [state sent negb when_].
    rewrite bind_assoc, bind_ret, bind_ret. cbn [when_].
    match goal with
    | |- context [V1.remember act ?t1] =>
        destruct (remember_run act t1) as (s' & ->)
    end.
    exists s'. reflexivity. }
  destruct Hrun as [s' ->]. split; reflexivity.
Qed.

End FailureCards.


(** ** Walking through the matches of a search *)

Section SearchWalk.
Context {rt : Runtime}.
Import Bot.

Lemma next_search_result_moves
  (userKey : string) (t : Turn V2.State) (ms : list AnalysisResult) (i : nat) :
  V2.userToSearchResults (state t) !! userKey
  = Some {| V2.matches := ms; V2.idx := i |} ->
  (i < length ms)%nat ->
  V2.userToSearchResults (state (snd (V2.next_search_result userKey t))) !! userKey
  = if (S i <? length ms)%nat
    then Some {| V2.matches := ms; V2.idx := S i |}
    else None.
Proof.
  intros Hs Hi. unfold V2.next_search_result. rewrite bind_get, Hs.
  destruct ms as [|m0 ms]; [cbn in Hi; lia|]. cbv beta iota.
  unfold V2.put_search at 1. rewrite bind_assoc, bind_get, bind_put.
  destruct (Nat.leb_spec (length (m0 :: ms)) (S i)) as [Hlast|Hlast].
  - rewrite (proj2 (Nat.ltb_ge (S i) (length (m0 :: ms))) Hlast).
    unfold V2.put_search. rewrite bind_say, bind_get, bind_put_last.
    cbn [snd state V2.with_search V2.userToSearchResults].
    apply lookup_delete_eq.
  - rewrite (proj2 (Nat.ltb_lt (S i) (length (m0 :: ms))) Hlast).
    rewrite bind_stateless_searches.
    + cbn [state V2.with_search V2.userToSearchResults]. apply lookup_insert_eq.
    + apply stateless_send_card.
    + intros _ t1. destruct ((m0 :: ms) !! S i) as [m|]; [|reflexivity].
      rewrite bind_stateless_searches; [reflexivity | apply stateless_send_digest |].
      intros _ t2. rewrite bind_stateless_searches; [reflexivity | quiet |].
      reflexivity.
Qed.

Lemma next_search_result_none (userKey : string) (t : Turn V2.State) :
  V2.userToSearchResults (state t) !! userKey = None ->
  state (snd (V2.next_search_result userKey t)) = state t.
Proof.
  intros Hs. unfold V2.next_search_result. rewrite bind_get, Hs. reflexivity.
Qed.

Lemma search_walk_none (next : Activity) (k : nat) :
  V2.lowerText next = "/next_search_result" ->
  forall s : V2.State,
    V2.userToSearchResults s !! conversation_id next = None ->
    V2.userToSearchResults (fold_left V2.step (repeat (V2.Message next) k) s)
      !! conversation_id next
    = None.
Proof.
  intros Hcmd. induction k as [|k IH]; intros s Hs; [exact Hs|].
  cbn [repeat fold_left]. apply IH. cbn [V2.step]. unfold run.
  rewrite (dispatch_next_search_result next Hcmd), bind_say.
  now rewrite next_search_result_none.
Qed.

Lemma search_walk (next : Activity) (ms : list AnalysisResult) (k : nat) :
  V2.lowerText next = "/next_search_result" ->
  forall (s : V2.State) (i : nat),
    V2.userToSearchResults s !! conversation_id next
    = Some {| V2.matches := ms; V2.idx := i |} ->
    (i < length ms)%nat ->
    V2.userToSearchResults (fold_left V2.step (repeat (V2.Message next) k) s)
      !! conversation_id next
    = if (i + k <? length ms)%nat
      then Some {| V2.matches := ms; V2.idx := (i + k)%nat |}
      else None.
Proof.
  intros Hcmd. induction k as [|k IH]; intros s i Hs Hi.
  - cbn [repeat fold_left]. rewrite Nat.add_0_r.
    now rewrite (proj2 (Nat.ltb_lt _ _)) by exact Hi.
  - cbn [repeat fold_left].
    assert (Hstep :
      V2.userToSearchResults (V2.step s (V2.Message next)) !! conversation_id next
      = if (S i <? length ms)%nat
        then Some {| V2.matches := ms; V2.idx := S i |}
        else None).
    { cbn [V2.step]. unfold run.
      rewrite (dispatch_next_search_result next Hcmd), bind_say.
      now apply next_search_result_moves. }
    destruct (Nat.ltb_spec (S i) (length ms)) as [Hlt|Hge].
    + rewrite (IH _ (S i) Hstep Hlt). now rewrite Nat.add_succ_comm.
    + rewrite (search_walk_none next k Hcmd _ Hstep).
      now rewrite (proj2 (Nat.ltb_ge _ _)) by lia.
Qed.

(** X20. Each [/next_search_result] moves the search of the conversation
    one match forward, whether or not the card of the match could be
    drawn: after [k] of them a search that stood on match [i] stands on
    match [i + k].  The request made on the last match removes the
    search, and the requests after it find none. *)
Theorem next_search_result_walks_the_matches
  (s : V2.State) (next : Activity) (ms : list AnalysisResult) (i k : nat) :
  V2.lowerText next = "/next_search_result" ->
  V2.userToSearchResults s !! conversation_id next
  = Some {| V2.matches := ms; V2.idx := i |} ->
  (i < length ms)%nat ->
  V2.userToSearchResults (fold_left V2.step (repeat (V2.Message next) k) s)
    !! conversation_id next
  = if (i + k <? length ms)%nat
    then Some {| V2.matches := ms; V2.idx := (i + k)%nat |}
    else None.
Proof. intros Hcmd. now apply search_walk. Qed.

End SearchWalk.

(** ** The ingestion endpoint in the two revisions *)

Section Revisions.
Context {rt : Runtime}.

(** X21. The ingestion endpoint answers alike in the two revisions:
    started with the same results and the same calls made to the model,
    both give the same response to a body and are left with the same
    results and the same calls.  (The first revision keeps the items as
    well; the second clears the cursors and the searches.) *)
Theorem both_revisions_ingest_alike (body : JSON) (s1 : V1.State) (s2 : V2.State) :
  V1.world s1 = V2.world s2 ->
  V1.latestAnalysis s1 = V2.latestAnalysis s2 ->
  fst (V1.ingest body s1) = fst (V2.ingest body s2)
  /\ V1.latestAnalysis (snd (V1.ingest body s1))
     = V2.latestAnalysis (snd (V2.ingest body s2))
  /\ V1.world (snd (V1.ingest body s1)) = V2.world (snd (V2.ingest body s2)).
Proof.
  intros Hw Hl. unfold V1.ingest, V2.ingest. rewrite Hw.
  destruct (Zod.AnalyzeFeedbackInputSchema body) as [issues|feedback];
    [repeat split; assumption|].
  destruct (analyzeFeedbackToolHandler feedback (V2.world s2)) as [results w].
  destruct (Zod.AnalyzeFeedbackOutputSchema results); repeat split.
Qed.

End Revisions.


(** ** A success that also has an error *)

Section Classification.
Context {rt : Runtime}.

(** X23. The schema and the navigation classify differently an analysis
    of the object schema's shape that also has an [error] member: the
    validated output reports it as a success, while no keyword ever
    finds it and no digest is sent for it. *)
Theorem success_with_an_error_is_never_found
  (r : AnalysisResult) (pts : list string) (s : string) (pr : Priority) :
  Zod.AnalysisObjectSchema (analysis r) = Some (Success pts s pr) ->
  Spec.is_failure r = Ok true ->
  (forall p, Zod.analysis_union p (analysis r) = inr (Success pts s pr))
  /\ (forall keyword, V2.is_match keyword r = Ok false)
  /\ digest (analysis r) = Ok None.
Proof.
  intros Ho Hf. split; [intros p; unfold Zod.analysis_union; now rewrite Ho|]. split.
  - intros keyword. unfold V2.is_match. unfold Spec.is_failure in Hf.
    now rewrite Hf.
  - apply success_card in Ho as (_ & e & He & Hd).
    unfold Spec.is_failure in Hf. assert (e = true) by congruence. now subst e.
Qed.

End Classification.

(** ** A question after a search *)

Section AskAfterSearch.
Context {rt : Runtime}.
Import Bot.

Lemma search_insights_state
  (userKey text keyword : string) (t : Turn V2.State)
  (first : AnalysisResult) (rest : list AnalysisResult) :
  keyword
  = JsString.toLowerCase
      (JsString.trim (JsString.substring_from text (String.length "/search_insights"))) ->
  keyword <> EmptyString ->
  Forall (fun r => accepted_analysis (analysis r)) (V2.latestAnalysis (state t)) ->
  List.filter (matches_keyword keyword) (V2.latestAnalysis (state t)) = first :: rest ->
  state (snd (V2.search_insights userKey text t))
  = V2.with_cursor userKey (V2.indexOf (V2.latestAnalysis (state t)) first)
      (V2.with_search (insert userKey {| V2.matches := first :: rest; V2.idx := 0 |})
         (state t)).
Proof.
  intros Hkw Hne Hall Hfilter. unfold V2.search_insights. cbv zeta. rewrite <- Hkw.
  destruct keyword as [|c kw]; [congruence|]. rewrite bind_get.
  destruct (V2.latestAnalysis (state t)) as [|r0 l0] eqn:El; [discriminate|].
  rewrite <- El in Hall, Hfilter |- *. rewrite bind_lift.
  assert (Hm : Forall (fun r => V2.is_match (String c kw) r <> Throw)
                 (V2.latestAnalysis (state t))).
  { eapply Forall_impl; [exact Hall|]. intros r Hr. now apply accepted_is_match. }
  pose proof (filter_matches_filter _ _ Hm) as Hf. rewrite Hfilter in Hf. rewrite Hf.
  apply filter_matches_sound in Hf. apply Forall_inv in Hf as [Hin Hfail].
  assert (Ha : accepted_analysis (analysis first))
    by (rewrite Forall_forall in Hall; now apply Hall).
  destruct (accepted_drawable first Ha Hfail) as (card & d & Hc & Hd).
  unfold V2.put_search, V2.send_card, V2.send_digest, V2.createFeedbackAnalysisCard.
  rewrite bind_assoc, bind_get, bind_put, bind_assoc, bind_lift, Hc, bind_say,
    bind_assoc, bind_lift, Hd.
  destruct (1 <? length (first :: rest))%nat; reflexivity.
Qed.

Lemma ask_about_current_calls
  (userKey text : string) (t : Turn V2.State) (i : Z) (r : AnalysisResult) :
  V2.userToInsightIndex (state t) !! userKey = Some i ->
  V2.at_index (V2.latestAnalysis (state t)) i = Some r ->
  JsString.trim (JsString.substring_from text (String.length "/ask_about_current"))
  <> EmptyString ->
  calls (V2.world (state (snd (V2.ask_about_current userKey text t))))
  = calls (V2.world (state t))
    ++ [ {| instructions := AnswerInstructions (analysis r);
            message :=
              JsString.trim
                (JsString.substring_from text (String.length "/ask_about_current")) |} ].
Proof.
  intros Hi Hr Hq. unfold V2.ask_about_current. rewrite bind_get, Hi, Hr. cbv zeta.
  destruct (JsString.trim _) as [|c q]; [congruence|].
  unfold V2.ask. rewrite bind_assoc, bind_get. unfold send.
  rewrite bind_assoc, bind_put, bind_ret.
  destruct (model_reply _ _) as [[content|]|reason]; cbn [option_map];
    try destruct (JsString.trim content); reflexivity.
Qed.

(** X24. A question after a search is about the match shown: on a batch
    that passed the output schema, when [/search_insights] finds a match,
    [/ask_about_current] sent next in the same conversation with a
    question calls the model once, with the analysis of the first match
    of the search and the question. *)
Theorem question_after_search_is_about_the_first_match
  (history : list V2.Event) (search ask : Activity)
  (first : AnalysisResult) (rest : list AnalysisResult) :
  conversation_id ask = conversation_id search ->
  JsString.startsWith (V2.lowerText search) "/search_insights" = true ->
  JsString.startsWith (V2.lowerText ask) "/ask_about_current" = true ->
  Forall (fun r => accepted_analysis (analysis r))
    (V2.latestAnalysis (V2.replay history)) ->
  keyword_of search <> EmptyString ->
  List.filter (matches_keyword (keyword_of search))
    (V2.latestAnalysis (V2.replay history))
  = first :: rest ->
  question_of ask <> EmptyString ->
  calls (V2.world
           (fold_left V2.step [V2.Message search; V2.Message ask] (V2.replay history)))
  = calls (V2.world (V2.replay history))
    ++ [ {| instructions := AnswerInstructions (analysis first);
            message := question_of ask |} ].
Proof.
  intros Hkey Hsearch Hask Hall Hkw Hfilter Hq. cbn [fold_left V2.step]. unfold run.
  rewrite (dispatch_search_insights search Hsearch), bind_say.
  rewrite (search_insights_state _ _ (keyword_of search) _ first rest)
    by (reflexivity || assumption).
  cbn [state]. rewrite (dispatch_ask_about_current ask Hask), bind_say, Hkey.
  assert (Hin : first ∈ V2.latestAnalysis (V2.replay history)).
  { apply list_elem_of_In. eapply proj1, filter_In. rewrite Hfilter. now left. }
  destruct (indexOf_position _ first (replay_refs_distinct history) Hin)
    as (i & Hi & Hl).
  rewrite (ask_about_current_calls _ _ _ (Z.of_nat i) first).
  - reflexivity.
  - cbn [state V2.with_cursor V2.with_search V2.userToInsightIndex].
    rewrite Hi. apply lookup_insert_eq.
  - cbn [state V2.with_cursor V2.with_search V2.latestAnalysis]. unfold V2.at_index.
    destruct (Z.ltb_spec (Z.of_nat i) 0) as [|_]; [lia|]. now rewrite Nat2Z.id.
  - exact Hq.
Qed.

End AskAfterSearch.


(** ** Every message is answered *)

Section Answers.
Context {rt : Runtime}.
Import Bot.

Lemma grows_ret {St A : Type} (a : A) : grows (St := St) (ret a).
Proof. intros t. exists []. cbn. now rewrite app_nil_r. Qed.

Lemma grows_lift {St A : Type} (r : Res A) : grows (St := St) (lift r).
Proof. intros t. exists []. cbn. now rewrite app_nil_r. Qed.

Lemma grows_get {St : Type} : grows (St := St) get_state.
Proof. intros t. exists []. cbn. now rewrite app_nil_r. Qed.

Lemma grows_put {St : Type} (s : St) : grows (put_state s).
Proof. intros t. exists []. cbn. now rewrite app_nil_r. Qed.

Lemma grows_say {St : Type} (m : Outgoing) : grows (St := St) (say m).
Proof. intros t. exists [m]. reflexivity. Qed.

Lemma grows_bind {St A B : Type} (m : Handler St A) (k : A -> Handler St B) :
  grows m -> (forall a, grows (k a)) -> grows (bind m k).
Proof.
  intros Hm Hk t. unfold bind. destruct (Hm t) as [more Hmore].
  destruct (m t) as [[a|] t1]; cbn [snd] in Hmore |- *; [|eauto].
  destruct (Hk a t1) as [more' Hmore']. exists (more ++ more').
  now rewrite Hmore', Hmore, app_assoc.
Qed.

Lemma grows_when {St : Type} (b : bool) (m : Handler St unit) :
  grows m -> grows (when_ b m).
Proof. destruct b; [auto | intros _; apply grows_ret]. Qed.

Lemma answers_say {St : Type} (m : Outgoing) : answers (St := St) (say m).
Proof. intros t a _. exists m, []. reflexivity. Qed.

Lemma answers_throw {St A : Type} : answers (St := St) (lift (A := A) Throw).
Proof. intros t a H. discriminate. Qed.

(** The first part answers, the rest only adds. *)
Lemma answers_first {St A B : Type} (m : Handler St A) (k : A -> Handler St B) :
  answers m -> (forall a, grows (k a)) -> answers (bind m k).
Proof.
  intros Hm Hk t b. unfold bind. specialize (Hm t).
  destruct (m t) as [[a|] t1]; cbn [fst snd] in Hm |- *; [|discriminate].
  intros _. destruct (Hm a eq_refl) as (x & more & Hmore).
  destruct (Hk a t1) as [more' Hmore']. exists x, (more ++ more').
  rewrite Hmore', Hmore, <- app_assoc. reflexivity.
Qed.

(** The first part only adds, the rest answers. *)
Lemma answers_rest {St A B : Type} (m : Handler St A) (k : A -> Handler St B) :
  grows m -> (forall a, answers (k a)) -> answers (bind m k).
Proof.
  intros Hm Hk t b. unfold bind. destruct (Hm t) as [more Hmore].
  destruct (m t) as [[a|] t1]; cbn [fst snd] in Hmore |- *; [|discriminate].
  intros H. destruct (Hk a t1 b H) as (x & more' & Hmore').
  rewrite Hmore', Hmore.
  destruct more as [|y more].
  - exists x, more'. now rewrite app_nil_r.
  - exists y, (more ++ x :: more'). now rewrite <- app_assoc.
Qed.

Ltac grow :=
  repeat first
    [ apply grows_say | apply grows_ret | apply grows_lift | apply grows_get
    | apply grows_put | apply grows_when
    | apply grows_bind; [|intros ?]
    | match goal with
      | |- grows (match ?x with _ => _ end) => destruct x
      | |- grows (let '(_, _) := ?x in _) => destruct x
      end ].

Lemma grows_set_index (userKey : string) (i : Z) : grows (V2.set_index userKey i).
Proof. unfold V2.set_index. grow. Qed.

Lemma grows_put_search (f : gmap string V2.Search -> gmap string V2.Search) :
  grows (V2.put_search f).
Proof. unfold V2.put_search. grow. Qed.

Lemma grows_send_card (result : option AnalysisResult) : grows (V2.send_card result).
Proof. unfold V2.send_card. grow. Qed.

Lemma grows_send_digest (result : AnalysisResult) : grows (V2.send_digest result).
Proof. unfold V2.send_digest. grow. Qed.

Lemma answers_send_card (result : option AnalysisResult) :
  answers (V2.send_card result).
Proof.
  destruct result as [r|]; [|apply answers_throw].
  apply answers_rest; [apply grows_lift | intros c; apply answers_say].
Qed.

(** The card is the answer; what follows only adds. *)
Lemma answers_card_first {B : Type} (userKey : string) (i : Z)
  (result : option AnalysisResult) (k : unit -> Handler V2.State B) :
  (forall a, grows (k a)) ->
  answers (bind (V2.set_index userKey i) (fun _ => bind (V2.send_card result) k)).
Proof.
  intros Hk. apply answers_rest; [apply grows_set_index | intros _].
  apply answers_first; [apply answers_send_card | exact Hk].
Qed.

Lemma answers_latest_insight (userKey : string) : answers (V2.latest_insight userKey).
Proof.
  unfold V2.latest_insight. apply answers_rest; [apply grows_get | intros s].
  destruct (V2.latestAnalysis s) as [|r l]; [apply answers_say|].
  apply answers_card_first. intros _. apply grows_say.
Qed.

Lemma answers_show_insights (userKey : string) : answers (V2.show_insights userKey).
Proof.
  unfold V2.show_insights. apply answers_rest; [apply grows_get | intros s].
  destruct (V2.latestAnalysis s) as [|r l]; [apply answers_say|].
  apply answers_card_first. intros _. apply grows_when, grows_say.
Qed.

Lemma answers_next_insight (userKey : string) : answers (V2.next_insight userKey).
Proof.
  unfold V2.next_insight. apply answers_rest; [apply grows_get | intros s].
  destruct (V2.latestAnalysis s) as [|r l]; [apply answers_say|]. cbv zeta.
  match goal with |- answers (if ?b then _ else _) => destruct b end.
  - apply answers_first; [apply answers_say | intros _; apply grows_set_index].
  - apply answers_card_first. intros _. grow.
Qed.

Lemma answers_search_insights (userKey text : string) :
  answers (V2.search_insights userKey text).
Proof.
  unfold V2.search_insights. cbv zeta.
  destruct (JsString.toLowerCase _) as [|c kw]; [apply answers_say|].
  apply answers_rest; [apply grows_get | intros s].
  destruct (V2.latestAnalysis s) as [|r l]; [apply answers_say|].
  apply answers_rest; [apply grows_lift | intros ms].
  destruct ms as [|first rest]; [apply answers_say|].
  apply answers_rest; [apply grows_put_search | intros _].
  apply answers_first; [apply answers_send_card | intros _].
  apply grows_bind; [apply grows_send_digest | intros _].
  apply grows_bind; [apply grows_when, grows_say | intros _].
  apply grows_set_index.
Qed.

Lemma answers_next_search_result (userKey : string) :
  answers (V2.next_search_result userKey).
Proof.
  unfold V2.next_search_result. apply answers_rest; [apply grows_get | intros s].
  destruct (V2.userToSearchResults s !! userKey) as [[[|m0 ms] i]|];
    try apply answers_say.
  apply answers_rest; [apply grows_put_search | intros _].
  destruct (length (m0 :: ms) <=? S i)%nat.
  - apply answers_first; [apply answers_say | intros _; apply grows_put_search].
  - apply answers_first; [apply answers_send_card | intros _].
    destruct ((m0 :: ms) !! S i) as [m|]; [|apply grows_lift].
    apply grows_bind; [apply grows_send_digest | intros _].
    apply grows_bind; [destruct (_ <? _)%nat; apply grows_say | intros _].
    apply grows_set_index.
Qed.

Lemma answers_ask_about_current (userKey text : string) :
  answers (V2.ask_about_current userKey text).
Proof.
  unfold V2.ask_about_current. apply answers_rest; [apply grows_get | intros s].
  match goal with |- answers (match ?x with _ => _ end) => destruct x end;
    [|apply answers_say].
  cbv zeta.
  match goal with |- answers (match ?x with _ => _ end) => destruct x end;
    [apply answers_say|].
  apply answers_rest; [unfold V2.ask; grow | intros r].
  destruct r as [content|reason]; [|apply answers_say].
  destruct (option_map JsString.trim content) as [[|c q]|]; apply answers_say.
Qed.

Lemma answers_fallback (act : Activity) : answers (V2.fallback act).
Proof.
  unfold V2.fallback. apply answers_first; [apply answers_say | intros _]. grow.
Qed.

Lemma answers_onMessage (act : Activity) (t : Turn V2.State) :
  exists more,
    sent (snd (V2.onMessage act t)) = sent t ++ Typing :: more
    /\ (fst (V2.onMessage act t) = Ok tt -> more <> []).
Proof.
  unfold V2.onMessage. rewrite bind_say. cbv zeta.
  match goal with
  | |- context [?m {| state := state t; sent := sent t ++ [Typing] |}] =>
      assert (Hg : grows m /\ answers m)
  end.
  { repeat match goal with
           | |- grows (if ?b then _ else _) /\ _ => destruct b
           end;
      (split;
       [ unfold V2.latest_insight, V2.search_insights, V2.next_search_result,
           V2.ask_about_current, V2.show_insights, V2.next_insight, V2.fallback,
           V2.set_index, V2.put_search, V2.send_card, V2.send_digest, V2.ask;
         grow
       | auto using answers_say, answers_latest_insight, answers_search_insights,
           answers_next_search_result, answers_ask_about_current,
           answers_show_insights, answers_next_insight, answers_fallback ]). }
  destruct Hg as [Hg Ha].
  match goal with
  | |- context [?m {| state := state t; sent := sent t ++ [Typing] |}] =>
      destruct (Hg {| state := state t; sent := sent t ++ [Typing] |}) as [more Hmore];
      pose proof (Ha {| state := state t; sent := sent t ++ [Typing] |} tt) as Hans
  end.
  exists more. cbn [sent] in Hmore, Hans. split.
  - rewrite Hmore, <- app_assoc. reflexivity.
  - intros Hok. destruct (Hans Hok) as (x & more' & Hx).
    rewrite Hmore in Hx. apply app_inv_head in Hx. now subst more.
Qed.

(** X26. Every message is answered: the handler sends the typing
    indicator first, whatever follows, and when it runs to completion it
    has sent at least one message after it.  Only a handler cut short by
    an exception can leave a message without an answer. *)
Theorem every_message_is_answered (s : V2.State) (act : Activity) :
  exists more,
    sent (snd (run (V2.onMessage act) s)) = Typing :: more
    /\ (fst (run (V2.onMessage act) s) = Ok tt -> more <> []).
Proof.
  destruct (answers_onMessage act {| state := s; sent := [] |}) as (more & H1 & H2).
  exists more. split; assumption.
Qed.

End Answers.


(** ** The further properties on sample data *)

Lemma silent_sample : silent_model (rt := Cases.rt_silent).
Proof. intros [|p1 [|p2 [|p3 before]]] p; exact I. Qed.

(** X4, on the batch of three, whose second reply is garbage: the answer
    is 200 all the same, as the garbage is stored as a failure. *)
Lemma output_validity_witness :
  Zod.AnalyzeFeedbackInputSchema (rt := Sample.rt_batch) Sample.body3
  = inr (map read_item [Sample.item "1" "a"; Sample.item "2" "b"; Sample.item "3" "c"])
  /\ (status (fst (V2.ingest (rt := Sample.rt_batch) Sample.body3 V2.initial)) = 200
      <-> Forall (fun r => accepted_analysis (analysis r))
            (V2.latestAnalysis
               (snd (V2.ingest (rt := Sample.rt_batch) Sample.body3 V2.initial)))).
Proof.
  split; [reflexivity|].
  exact (proj1 (output_is_valid_exactly_when_every_analysis_is (rt := Sample.rt_batch)
                  Sample.body3 V2.initial _ eq_refl)).
Defined.

(** X5, on a batch of two whose calls both fail. *)
Lemma failed_calls_witness :
  exists data,
    fst (V2.ingest (rt := Cases.rt_silent) Sample.body2 V2.initial) = Analyzed data
    /\ Forall2 failure_of (map read_item [Sample.item "1" "a"; Sample.item "2" "b"]) data
    /\ length (V2.latestAnalysis
                 (snd (V2.ingest (rt := Cases.rt_silent) Sample.body2 V2.initial)))
       = length (map read_item [Sample.item "1" "a"; Sample.item "2" "b"]).
Proof.
  exact (batch_of_failed_calls_is_answered_200 (rt := Cases.rt_silent)
           Sample.body2 V2.initial _ silent_sample eq_refl).
Defined.

(** X6, on the state with three results and a search. *)
Lemma empty_batch_witness :
  V2.ingest (rt := Sample.rt_batch) (JObject [("feedback", JArray [])]) Sample.searching
  = (Analyzed [],
     {| V2.latestAnalysis := [];
        V2.userToInsightIndex := ∅;
        V2.userToSearchResults := ∅;
        V2.userToConversationId := V2.userToConversationId Sample.searching;
        V2.world := V2.world Sample.searching |}).
Proof.
  exact (empty_batch_erases_the_published_results (rt := Sample.rt_batch)
           Sample.searching [("feedback", JArray [])] eq_refl).
Defined.

(** X8, on conversation c2 while c1 moves on in its search. *)
Lemma isolation_witness :
  V2.userToInsightIndex
    (V2.step (rt := Sample.rt_batch) Sample.searching
       (V2.Message (Sample.activity "c2" "/show_insights"))) !! "c1"
  = V2.userToInsightIndex Sample.searching !! "c1"
  /\ V2.userToSearchResults
       (V2.step (rt := Sample.rt_batch) Sample.searching
          (V2.Message (Sample.activity "c2" "/show_insights"))) !! "c1"
     = V2.userToSearchResults Sample.searching !! "c1"
  /\ V2.latestAnalysis
       (V2.step (rt := Sample.rt_batch) Sample.searching
          (V2.Message (Sample.activity "c2" "/show_insights")))
     = V2.latestAnalysis Sample.searching.
Proof.
  apply (message_touches_only_its_conversation (rt := Sample.rt_batch)
           (Sample.activity "c2" "/show_insights") Sample.searching "c1").
  discriminate.
Defined.

(** X9, on user u1, noted with c1, who then writes in c2. *)
Lemma noted_conversation_witness :
  V2.userToConversationId
    (fold_left (V2.step (rt := Sample.rt_batch)) [V2.Message Cases.from_u1] Cases.noted)
    !! "u1"
  = Some "c1".
Proof.
  apply (noted_conversation_is_never_changed (rt := Sample.rt_batch)
           [V2.Message Cases.from_u1] Cases.noted "u1" "c1").
  reflexivity.
Defined.

(** X10, on the cursor left by [/latest_insight]. *)
Lemma cursor_witness :
  0 <= 2 < Z.of_nat (length (V2.latestAnalysis
                               (V2.replay (rt := Sample.rt_batch) Cases.history_latest)))
  /\ exists r,
       V2.at_index
         (V2.latestAnalysis (V2.replay (rt := Sample.rt_batch) Cases.history_latest)) 2
       = Some r.
Proof.
  apply (cursor_always_designates_a_published_result (rt := Sample.rt_batch)
           Cases.history_latest "c1" 2).
  reflexivity.
Defined.

(** X11, on the search for "o". *)
Lemma search_reference_witness :
  (0 < length Cases.matches_o)%nat
  /\ Forall (fun m =>
               m ∈ V2.latestAnalysis
                     (V2.replay (rt := Sample.rt_batch) Cases.history_search)
               /\ Spec.is_failure m = Ok false)
       Cases.matches_o.
Proof.
  apply (search_always_refers_to_the_published_results (rt := Sample.rt_batch)
           Cases.history_search "c1"
           {| V2.matches := Cases.matches_o; V2.idx := 0 |}).
  reflexivity.
Defined.

(** X12, on the batch of two: [/show_insights] and three times
    [/next_insight] leave the cursor on the second result. *)
Lemma paging_witness :
  V2.userToInsightIndex
    (fold_left (V2.step (rt := Sample.rt_pair))
       (V2.Message (Sample.activity "c1" "/show_insights")
        :: repeat (V2.Message (Sample.activity "c1" "/next_insight")) 3)
       Sample.published2) !! "c1"
  = Some 1.
Proof.
  apply (paging_goes_round_the_results (rt := Sample.rt_pair) Sample.published2
           (Sample.activity "c1" "/show_insights")
           (Sample.activity "c1" "/next_insight") 3).
  - reflexivity.
  - reflexivity.
  - reflexivity.
  - discriminate.
Defined.

(** X13, on a question about the last result. *)
Lemma asking_witness :
  exists (s' : V2.State) (answer : string),
    Bot.run (V2.onMessage (rt := Cases.rt_answer)
               (Sample.activity "c1" "/ask_about_current Why?"))
      Sample.viewing_last
    = (Ok tt, {| Bot.state := s'; Bot.sent := [Typing; Text answer] |})
    /\ V2.latestAnalysis s' = V2.latestAnalysis Sample.viewing_last
    /\ V2.userToInsightIndex s' = V2.userToInsightIndex Sample.viewing_last
    /\ V2.userToSearchResults s' = V2.userToSearchResults Sample.viewing_last
    /\ V2.userToConversationId s' = V2.userToConversationId Sample.viewing_last
    /\ (calls (V2.world s') = calls (V2.world Sample.viewing_last)
        \/ exists (i : Z) (r : AnalysisResult),
             V2.userToInsightIndex Sample.viewing_last !! "c1" = Some i
             /\ V2.at_index (V2.latestAnalysis Sample.viewing_last) i = Some r
             /\ question_of (Sample.activity "c1" "/ask_about_current Why?")
                <> EmptyString
             /\ calls (V2.world s')
                = calls (V2.world Sample.viewing_last)
                  ++ [ {| instructions := AnswerInstructions (analysis r);
                          message :=
                            question_of
                              (Sample.activity "c1" "/ask_about_current Why?") |} ]).
Proof.
  exact (asking_about_the_current_card_is_safe (rt := Cases.rt_answer)
           Sample.viewing_last (Sample.activity "c1" "/ask_about_current Why?")
           eq_refl).
Defined.

(** X14, on an analysis of high priority with one pain point. *)
Lemma drawn_card_witness :
  V2.createFeedbackAnalysisCard Cases.success_analysis
  = Ok (AnalysisCard "high" "Attention" (Some (JString "The Bot fails"))
          (Some [JString "Bot crashes"]))
  /\ exists e,
       JsValue.has "error" Cases.success_analysis = Ok e
       /\ digest Cases.success_analysis
          = Ok (if e then None
                else Some (Digest (Some (JString "The Bot fails")) "high"
                             (Some [JString "Bot crashes"]))).
Proof.
  exact (validated_analysis_is_drawn_with_its_data Cases.success_analysis
           ["Bot crashes"] "The Bot fails" high eq_refl).
Defined.

(** X15, on the same analysis and the keyword "bot": it occurs in the
    summary once this is in lower case. *)
Lemma match_witness :
  V2.is_match "bot" Cases.success_result = Ok true.
Proof.
  refine (search_looks_at_summary_points_source_and_url "bot" Cases.success_result
            ["Bot crashes"] "The Bot fails" high _ eq_refl eq_refl).
  discriminate.
Defined.

(** X16, on the search for "o" in the batch of three. *)
Lemma search_store_witness :
  V2.userToSearchResults
    (V2.step (rt := Sample.rt_batch) Sample.published
       (V2.Message (Sample.activity "c1" "/search_insights o")))
  = match
      List.filter
        (matches_keyword (keyword_of (Sample.activity "c1" "/search_insights o")))
        (V2.latestAnalysis Sample.published)
    with
    | [] => V2.userToSearchResults Sample.published
    | first :: rest =>
        <["c1" := {| V2.matches := first :: rest; V2.idx := 0 |}]>
          (V2.userToSearchResults Sample.published)
    end.
Proof.
  apply (search_stores_every_match_in_batch_order (rt := Sample.rt_batch)
           Sample.published (Sample.activity "c1" "/search_insights o")).
  - reflexivity.
  - discriminate.
  - repeat (constructor; [discriminate|]). constructor.
Defined.

(** X17, on the batch of two successes. *)
Lemma valid_batch_witness :
  fst (Bot.run (V2.onMessage (rt := Sample.rt_pair)
                  (Sample.activity "c1" "/search_insights docs"))
         (V2.replay (rt := Sample.rt_pair) [V2.Ingest Sample.body2]))
  = Ok tt.
Proof.
  apply (searching_a_valid_batch_never_raises (rt := Sample.rt_pair)
           [V2.Ingest Sample.body2] (Sample.activity "c1" "/search_insights docs")).
  - repeat (constructor; [left; discriminate|]). constructor.
  - left. reflexivity.
Defined.

(** X18, on a batch of one whose call is rejected. *)
Lemma rejected_call_witness :
  Bot.run (V2.onMessage (rt := Cases.rt_rejected) (Sample.activity "c1" "/show_insights"))
    (snd (V2.ingest (rt := Cases.rt_rejected) Sample.body1 V2.initial))
  = (Throw,
     {| Bot.state :=
          V2.with_cursor "c1" 0
            (snd (V2.ingest (rt := Cases.rt_rejected) Sample.body1 V2.initial));
        Bot.sent := [Typing] |}).
Proof.
  exact (rejected_first_call_makes_show_insights_raise (rt := Cases.rt_rejected)
           Sample.body1 V2.initial Sample.item1 [] "rate limit"
           (Sample.activity "c1" "/show_insights") eq_refl eq_refl eq_refl).
Defined.

(** X19, on a batch of two whose calls both fail: the first is
    rejected with a message, the second resolves without content. *)
Lemma error_cards_witness :
  Forall2 from_item (map read_item [Sample.item "1" "a"; Sample.item "2" "b"])
    (V1.latestAnalysis (snd (V1.ingest (rt := Cases.rt_silent) Sample.body2 V1.initial)))
  /\ map analysis
       (V1.latestAnalysis (snd (V1.ingest (rt := Cases.rt_silent) Sample.body2 V1.initial)))
     = [error_object "rate limit"; error_object "No AI content"]
  /\ fst (Bot.run (V1.onMessage (rt := Cases.rt_silent)
                     (Sample.activity "c1" "/show_insights"))
            (snd (V1.ingest (rt := Cases.rt_silent) Sample.body2 V1.initial)))
     = Ok tt
  /\ Bot.sent
       (snd (Bot.run (V1.onMessage (rt := Cases.rt_silent)
                        (Sample.activity "c1" "/show_insights"))
               (snd (V1.ingest (rt := Cases.rt_silent) Sample.body2 V1.initial))))
     = [Typing;
        Text "Getting the latest feedback analysis for you...";
        error_card "rate limit";
        error_card "No AI content"].
Proof.
  refine (first_revision_shows_failed_calls_as_error_cards (rt := Cases.rt_silent)
            Sample.body2 V1.initial _ (Sample.activity "c1" "/show_insights")
            silent_sample eq_refl _ eq_refl).
  discriminate.
Defined.

(** X20, on the search for "o", which has two matches: one request moves
    to the second match, the next one ends the search. *)
Lemma search_walk_witness :
  V2.userToSearchResults
    (fold_left (V2.step (rt := Sample.rt_batch))
       (repeat (V2.Message (Sample.activity "c1" "/next_search_result")) 2)
       (Sample.after "/search_insights o" Sample.published)) !! "c1"
  = None.
Proof.
  apply (next_search_result_walks_the_matches (rt := Sample.rt_batch)
           (Sample.after "/search_insights o" Sample.published)
           (Sample.activity "c1" "/next_search_result") Cases.matches_o 0 2).
  - reflexivity.
  - reflexivity.
  - vm_compute. lia.
Defined.

(** X21, on the first ingestion of the two revisions. *)
Lemma revisions_witness :
  fst (V1.ingest (rt := Sample.rt_low) Sample.body1 V1.initial)
  = fst (V2.ingest (rt := Sample.rt_low) Sample.body1 V2.initial)
  /\ V1.latestAnalysis (snd (V1.ingest (rt := Sample.rt_low) Sample.body1 V1.initial))
     = V2.latestAnalysis (snd (V2.ingest (rt := Sample.rt_low) Sample.body1 V2.initial))
  /\ V1.world (snd (V1.ingest (rt := Sample.rt_low) Sample.body1 V1.initial))
     = V2.world (snd (V2.ingest (rt := Sample.rt_low) Sample.body1 V2.initial)).
Proof.
  exact (both_revisions_ingest_alike (rt := Sample.rt_low) Sample.body1
           V1.initial V2.initial eq_refl eq_refl).
Defined.

(** X22, on a request for help by a user never seen before. *)
Lemma command_witness :
  V2.userToConversationId
    (V2.step (rt := Sample.rt_batch) Cases.noted (V2.Message Cases.help_from_u2))
  = V2.userToConversationId Cases.noted.
Proof.
  apply (command_never_notes_the_conversation (rt := Sample.rt_batch)
           Cases.noted Cases.help_from_u2).
  reflexivity.
Defined.

(** X23, on an analysis of the object schema's shape with an [error]. *)
Lemma classification_witness :
  Zod.analysis_union [] (analysis Cases.success_with_error)
  = inr (Success [] "Docs are thin" low)
  /\ V2.is_match "docs" Cases.success_with_error = Ok false
  /\ digest (analysis Cases.success_with_error) = Ok None.
Proof.
  destruct (success_with_an_error_is_never_found Cases.success_with_error
              [] "Docs are thin" low eq_refl eq_refl) as (H1 & H2 & H3).
  exact (conj (H1 []) (conj (H2 "docs") H3)).
Defined.

(** X24, on a search for "docs" in the batch of two, then a question. *)
Lemma question_after_search_witness :
  calls (V2.world
           (fold_left (V2.step (rt := Cases.rt_pair_answer))
              [V2.Message (Sample.activity "c1" "/search_insights docs");
               V2.Message (Sample.activity "c1" "/ask_about_current Why?")]
              (V2.replay (rt := Cases.rt_pair_answer) [V2.Ingest Sample.body2])))
  = calls (V2.world (V2.replay (rt := Cases.rt_pair_answer) [V2.Ingest Sample.body2]))
    ++ [ {| instructions := AnswerInstructions (analysis Cases.docs_result);
            message := question_of (Sample.activity "c1" "/ask_about_current Why?") |} ].
Proof.
  apply (question_after_search_is_about_the_first_match (rt := Cases.rt_pair_answer)
           [V2.Ingest Sample.body2]
           (Sample.activity "c1" "/search_insights docs")
           (Sample.activity "c1" "/ask_about_current Why?")
           Cases.docs_result []).
  - reflexivity.
  - reflexivity.
  - reflexivity.
  - repeat (constructor; [left; discriminate|]). constructor.
  - discriminate.
  - reflexivity.
  - discriminate.
Defined.

(** X25, on a search in the batch of three. *)
Lemma no_call_witness :
  calls (V2.world
           (V2.step (rt := Cases.rt_answer) Sample.published
              (V2.Message (Sample.activity "c1" "/search_insights o"))))
  = calls (V2.world Sample.published).
Proof.
  apply (only_a_question_calls_the_model (rt := Cases.rt_answer) Sample.published
           (Sample.activity "c1" "/search_insights o")).
  reflexivity.
Defined.

(** X3, on the body with one item. *)
Lemma input_shape_witness :
  exists ms xs,
    Sample.body1 = JObject ms
    /\ JsValue.own "feedback" ms = Some (JArray xs)
    /\ Forall (fun x => Spec.schema_item_shape (rt := Sample.rt_low) x = true) xs
    /\ [Sample.item1] = map read_item xs.
Proof.
  exact (proj1 (input_schema_accepts_exactly_shaped_items (rt := Sample.rt_low)
                  Sample.body1 [Sample.item1]) eq_refl).
Defined.

(** X26, on a request for help. *)
Lemma answer_witness :
  exists more,
    Bot.sent (snd (Bot.run (V2.onMessage (rt := Sample.rt_batch) Cases.help_from_u2)
                     Sample.published))
    = Typing :: more
    /\ more <> [].
Proof.
  destruct (every_message_is_answered (rt := Sample.rt_batch) Sample.published
              Cases.help_from_u2) as (more & H1 & H2).
  exists more. split; [exact H1 | apply H2; reflexivity].
Defined.
